(** * Turn coordinator of the narrative game back end (backend/server.js)

    A shallow embedding of the POST /api/game/action handler, of the LLM
    dispatcher [callLLM], of the image helpers and of the relational store
    the handler talks to, followed by the properties of the turn
    coordinator that were checked against it.

    The handler is an async JavaScript function.  It is embedded as a
    program of a small free monad [Prog]: every [Await] node is one
    awaited call (or one access to process-wide state), the code between
    two awaits is an ordinary Rocq function.  Two interpreters give it a
    meaning: [run] executes one handler to the end, [schedule] interleaves
    several handlers at their awaits, the way the Node event loop does. *)

From Stdlib Require Import Ascii String Sorted.
From stdpp Require Import base numbers strings list gmap.

Set Warnings "-register-all".
Local Open Scope string_scope.
Local Open Scope list_scope.
Local Open Scope Z_scope.

(** ** Values returned by JSON.parse *)

Inductive json : Type :=
| JNull
| JBool (b : bool)
| JNum (n : Z)
| JStr (s : string)
| JArr (items : list json)
| JObj (fields : list (string * json)).

(** Property read [o.k]; [None] is JavaScript's [undefined].  A later
    binding of the same key wins, as in JSON.parse. *)
Fixpoint assoc_last (fields : list (string * json)) (k : string) : option json :=
  match fields with
  | [] => None
  | (k', v) :: rest =>
      match assoc_last rest k with
      | Some v' => Some v'
      | None => if String.eqb k' k then Some v else None
      end
  end.

Definition prop (o : json) (k : string) : option json :=
  match o with
  | JObj fields => assoc_last fields k
  | _ => None
  end.

Definition is_string (v : option json) : bool :=
  match v with Some (JStr _) => true | _ => false end.

Definition is_boolean (v : option json) : bool :=
  match v with Some (JBool _) => true | _ => false end.

Definition as_string (v : option json) : string :=
  match v with Some (JStr s) => s | _ => "" end.

Definition as_bool (v : option json) : bool :=
  match v with Some (JBool b) => b | _ => false end.

(** [Array.isArray(v) && v.every(p)] *)
Definition is_array_of (p : json -> bool) (v : option json) : bool :=
  match v with Some (JArr items) => forallb p items | _ => false end.

Definition as_array (v : option json) : list json :=
  match v with Some (JArr items) => items | _ => [] end.

Definition json_is_string (v : json) : bool :=
  match v with JStr _ => true | _ => false end.

Definition json_string (v : json) : string :=
  match v with JStr s => s | _ => "" end.

(** The test applied to each entry of [characters]. *)
Definition is_character (c : json) : bool :=
  is_string (prop c "name") && is_string (prop c "description")
  && is_string (prop c "appearance") && is_string (prop c "opinionOfPlayer").

(** ** Rows of the store (CREATE TABLE statements of initializeDatabase) *)

Record SessionRow : Type := mkSession {
  theme : string;
  is_multiplayer : Z;
  max_players : option Z;
  current_player_index : option Z;
  game_goal : option string;
  goal_prerequisites : option (list string);
  met_prerequisites : option (list string);
  is_goal_met : Z;
  last_updated_at : Z
}.

Record PlayerRow : Type := mkPlayer {
  p_session_id : string;
  user_id : string;
  player_index : Z;
  character_name : string;
  character_gender : string;
  character_image_url : option string
}.

Record TurnRow : Type := mkTurn {
  turn_id : string;
  t_session_id : string;
  turn_index : Z;
  scenario_text : string;
  image_url : string;
  image_prompt : string;
  suggested_actions : list string;
  action_taken : option string;
  time_of_day : string;
  is_same_location : Z;
  characters : list json;
  acting_player_user_id : option string;
  acting_player_index : option Z;
  created_at : Z
}.

(** [sessions] is keyed by its primary key session_id; the two other
    tables are kept in insertion order. *)
Record Db : Type := mkDb {
  sessions : gmap string SessionRow;
  session_players : list PlayerRow;
  turns : list TurnRow
}.

(** ** Errors thrown inside the handler *)

Inductive Exn : Type :=
| NoPlayersFound
| InvalidTurnIndex (source : option Z) (latest : Z)
| NoHistoryFound
| InvalidLlmProvider
| NotDefined (name : string)
| LlmFailedAfterRetries (maxRetries : Z)
| InvalidImageProvider
| ImageCallFailed
| StateUnavailable
| SqlConstraintTurnId
| SqlConstraintTurnIndex
| SqlNestedTransaction
| SqlNoTransaction.

(** ** Collaborators *)

(** What one provider call (callOpenAI, callGoogle, callAnthropic) gives
    back: it throws, it returns no content, or it returns text on which
    JSON.parse (after the fence clean-up) either throws or yields a value. *)
Inductive ProviderReply : Type :=
| ReplyThrows
| ReplyEmpty
| ReplyText (parsed : option json).

(** What one image request gives back: the call throws, or it returns a
    response whose first entry either lacks the image data or carries
    base64 data.  A response without a first entry ends each helper the
    way a call that throws does, and is counted with [ImageThrows]; which
    field of the first entry is the image data is said at each helper. *)
Inductive ImageReply : Type :=
| ImageThrows
| ImageNoData
| ImageData (b64 : string).

Record Config : Type := mkConfig {
  ACTIVE_LLM_PROVIDER : string;
  INITIAL_LLM_PROVIDER : string;
  ACTIVE_IMAGE_PROVIDER : string;
  IMAGEN_ASPECT_RATIO : string
}.

(** The prompt handed to the generator: the parts the handler assembles. *)
Record Prompt : Type := mkPrompt {
  pr_history : list TurnRow;
  pr_players : list (PlayerRow * bool);
  pr_goal : option (string * list string * list string);
  pr_action : string
}.

(** ** The document of getFullSessionState *)

Record SessionState : Type := mkState {
  st_sessionId : string;
  st_theme : string;
  st_isMultiplayer : bool;
  st_currentPlayerIndex : option Z;
  st_players : list PlayerRow;
  st_history : list TurnRow;
  st_gameGoal : option string;
  st_goalPrerequisites : list string;
  st_metPrerequisites : list string;
  st_isGoalMet : bool
}.

(** ** Responses of the route *)

Inductive Response : Type :=
| BadRequest
| Unauthorized
| SessionNotFound
| NotAPlayer
| NotYourTurn
| Updated (state : SessionState)
| TurnSkipped (state : SessionState)
| NoActivePlayers
| Failed (e : Exn).

Definition status (r : Response) : Z :=
  match r with
  | BadRequest => 400
  | Unauthorized => 401
  | SessionNotFound => 404
  | NotAPlayer => 403
  | NotYourTurn => 403
  | Updated _ => 200
  | TurnSkipped _ => 200
  | NoActivePlayers => 409
  | Failed _ => 500
  end.

(** ** Awaited operations *)

Inductive Op : Type -> Type :=
| SqlBegin : Op (Exn + unit)
| SqlCommit : Op (Exn + unit)
| SqlRollback : Op (Exn + unit)
| SelectSession (sid : string) : Op (option SessionRow)
| SelectPlayers (sid : string) : Op (list PlayerRow)
| SelectMaxTurn (sid : string) : Op (option Z)
| SelectHistoryUpTo (sid : string) (upto : option Z) : Op (list TurnRow)
| SelectImageUrl (sid : string) (idx : option Z) : Op (option string)
| SelectTurns (sid : string) : Op (list TurnRow)
| InsertTurn (row : TurnRow) : Op (Exn + unit)
| UpdateSessionAfterTurn (sid : string) (next : option Z)
    (met : list string) (goal : Z) : Op unit
| UpdateSessionIndex (sid : string) (next : Z) : Op unit
| ProviderCall (provider : string) (p : Prompt) : Op ProviderReply
| ImageCall (provider : string) (prompt : string) (previous : option string)
    : Op ImageReply
| Sleep (ms : Z) : Op unit
| SessionSocketsGet (sid : string) : Op (option (gmap string nat))
| Uuid : Op string
| Emit (sid : string) (payload : SessionState) : Op unit.

(** ** Programs *)

Inductive Prog (R : Type) : Type :=
| Ret (r : R)
| Throw (e : Exn)
| Await {X : Type} (op : Op X) (k : X -> Prog R).

Arguments Ret {R} r.
Arguments Throw {R} e.
Arguments Await {R X} op k.

Fixpoint bind {A B : Type} (p : Prog A) (f : A -> Prog B) : Prog B :=
  match p with
  | Ret a => f a
  | Throw e => Throw e
  | Await op k => Await op (fun x => bind (k x) f)
  end.

(** [try { p } catch (e) { h e }] *)
Fixpoint try_catch {A : Type} (p : Prog A) (h : Exn -> Prog A) : Prog A :=
  match p with
  | Ret a => Ret a
  | Throw e => h e
  | Await op k => Await op (fun x => try_catch (k x) h)
  end.

(** [await op] for an operation that resolves to a value. *)
Definition await {X : Type} (op : Op X) : Prog X := Await op Ret.

(** [await op] for an operation whose promise may reject. *)
Definition await_or_throw {X : Type} (op : Op (Exn + X)) : Prog X :=
  Await op (fun r => match r with inl e => Throw e | inr x => Ret x end).

Notation "x <- p ;; q" := (bind p (fun x => q))
  (at level 100, p at next level, right associativity).
Notation "p ;;; q" := (bind p (fun _ => q))
  (at level 100, right associativity).

(** ** The process and its surroundings

    [db] and [txn] are the one SQLite connection the process holds: [txn]
    is the image of the tables taken when BEGIN ran, to which ROLLBACK
    returns.  [sessionSockets] is the in-memory presence map.  The three
    lists script the outside world: what the next provider call, the next
    image request and the next uuidv4() produce. *)

Inductive Event : Type :=
| Requested (provider : string) (p : Prompt)
| ImageRequested (provider : string) (prompt : string)
| Slept (ms : Z)
| Emitted (sid : string) (payload : SessionState).

Record World : Type := mkWorld {
  db : Db;
  txn : option Db;
  sessionSockets : gmap string (gmap string nat);
  provider_replies : list ProviderReply;
  image_replies : list ImageReply;
  uuids : list string;
  clock : Z;
  log : list Event
}.

Definition set_db (w : World) (d : Db) (t : option Db) : World :=
  mkWorld d t (sessionSockets w) (provider_replies w) (image_replies w)
    (uuids w) (clock w) (log w).

Definition add_log (w : World) (e : Event) : World :=
  mkWorld (db w) (txn w) (sessionSockets w) (provider_replies w)
    (image_replies w) (uuids w) (clock w) (log w ++ [e]).

Definition set_provider_replies (w : World) (l : list ProviderReply) : World :=
  mkWorld (db w) (txn w) (sessionSockets w) l (image_replies w)
    (uuids w) (clock w) (log w).

Definition set_image_replies (w : World) (l : list ImageReply) : World :=
  mkWorld (db w) (txn w) (sessionSockets w) (provider_replies w) l
    (uuids w) (clock w) (log w).

Definition set_uuids (w : World) (l : list string) : World :=
  mkWorld (db w) (txn w) (sessionSockets w) (provider_replies w)
    (image_replies w) l (clock w) (log w).

Definition advance_clock (w : World) (ms : Z) : World :=
  mkWorld (db w) (txn w) (sessionSockets w) (provider_replies w)
    (image_replies w) (uuids w) (clock w + ms) (log w).

(** ** Queries and statements *)

(** ORDER BY key ASC, as an insertion sort that keeps rows of equal key in
    the order of the table. *)
Fixpoint insert_by {A : Type} (key : A -> Z) (x : A) (l : list A) : list A :=
  match l with
  | [] => [x]
  | y :: rest => if key x <=? key y then x :: l else y :: insert_by key x rest
  end.

Definition order_by {A : Type} (key : A -> Z) (l : list A) : list A :=
  foldr (insert_by key) [] l.

Definition turns_of (d : Db) (sid : string) : list TurnRow :=
  filter (fun t => t_session_id t = sid) (turns d).

Definition select_players (d : Db) (sid : string) : list PlayerRow :=
  order_by player_index (filter (fun p => p_session_id p = sid) (session_players d)).

(** SELECT MAX(turn_index): NULL when the session has no turn. *)
Definition select_max_turn (d : Db) (sid : string) : option Z :=
  foldr (fun t acc => match acc with
                      | None => Some (turn_index t)
                      | Some m => Some (Z.max (turn_index t) m)
                      end) None (turns_of d sid).

(** [turn_index <= ?]; a NaN bound is stored as NULL and matches no row. *)
Definition select_history_up_to (d : Db) (sid : string) (upto : option Z)
  : list TurnRow :=
  match upto with
  | None => []
  | Some n => order_by turn_index (filter (fun t => turn_index t <= n) (turns_of d sid))
  end.

Definition select_image_url (d : Db) (sid : string) (idx : option Z)
  : option string :=
  match idx with
  | None => None
  | Some n =>
      image_url <$> List.find (fun t => turn_index t =? n) (turns_of d sid)
  end.

Definition select_turns (d : Db) (sid : string) : list TurnRow :=
  order_by turn_index (turns_of d sid).

(** INSERT INTO turns: the primary key turn_id and UNIQUE(session_id,
    turn_index) are checked; the row is stamped with datetime('now'). *)
Definition turn_id_taken (d : Db) (row : TurnRow) : bool :=
  existsb (fun t => String.eqb (turn_id t) (turn_id row)) (turns d).

Definition turn_index_taken (d : Db) (row : TurnRow) : bool :=
  existsb (fun t => String.eqb (t_session_id t) (t_session_id row)
                    && (turn_index t =? turn_index row)) (turns d).

Definition stamp (row : TurnRow) (now : Z) : TurnRow :=
  mkTurn (turn_id row) (t_session_id row) (turn_index row) (scenario_text row)
    (image_url row) (image_prompt row) (suggested_actions row)
    (action_taken row) (time_of_day row) (is_same_location row)
    (characters row) (acting_player_user_id row) (acting_player_index row) now.

Definition insert_turn (d : Db) (row : TurnRow) (now : Z) : Exn + Db :=
  if turn_id_taken d row then inl SqlConstraintTurnId
  else if turn_index_taken d row then inl SqlConstraintTurnIndex
  else inr (mkDb (sessions d) (session_players d) (turns d ++ [stamp row now])).

Definition update_session_after_turn (d : Db) (sid : string) (next : option Z)
    (met : list string) (goal : Z) (now : Z) : Db :=
  mkDb (alter (fun s => mkSession (theme s) (is_multiplayer s) (max_players s)
                          next (game_goal s) (goal_prerequisites s)
                          (Some met) goal now) sid (sessions d))
       (session_players d) (turns d).

Definition update_session_index (d : Db) (sid : string) (next : Z) (now : Z) : Db :=
  mkDb (alter (fun s => mkSession (theme s) (is_multiplayer s) (max_players s)
                          (Some next) (game_goal s) (goal_prerequisites s)
                          (met_prerequisites s) (is_goal_met s) now)
              sid (sessions d))
       (session_players d) (turns d).

(** One awaited operation, run against the process state. *)
Definition exec {X : Type} (op : Op X) (w : World) : X * World :=
  match op in Op X return X * World with
  | SqlBegin =>
      match txn w with
      | Some _ => (inl SqlNestedTransaction, w)
      | None => (inr tt, set_db w (db w) (Some (db w)))
      end
  | SqlCommit =>
      match txn w with
      | Some _ => (inr tt, set_db w (db w) None)
      | None => (inl SqlNoTransaction, w)
      end
  | SqlRollback =>
      match txn w with
      | Some saved => (inr tt, set_db w saved None)
      | None => (inl SqlNoTransaction, w)
      end
  | SelectSession sid => (sessions (db w) !! sid, w)
  | SelectPlayers sid => (select_players (db w) sid, w)
  | SelectMaxTurn sid => (select_max_turn (db w) sid, w)
  | SelectHistoryUpTo sid upto => (select_history_up_to (db w) sid upto, w)
  | SelectImageUrl sid idx => (select_image_url (db w) sid idx, w)
  | SelectTurns sid => (select_turns (db w) sid, w)
  | InsertTurn row =>
      match insert_turn (db w) row (clock w) with
      | inl e => (inl e, w)
      | inr d => (inr tt, set_db w d (txn w))
      end
  | UpdateSessionAfterTurn sid next met goal =>
      (tt, set_db w (update_session_after_turn (db w) sid next met goal (clock w))
             (txn w))
  | UpdateSessionIndex sid next =>
      (tt, set_db w (update_session_index (db w) sid next (clock w)) (txn w))
  | ProviderCall provider p =>
      let w' := add_log w (Requested provider p) in
      match provider_replies w with
      | [] => (ReplyThrows, w')
      | r :: rest => (r, set_provider_replies w' rest)
      end
  | ImageCall provider prompt previous =>
      let w' := add_log w (ImageRequested provider prompt) in
      match image_replies w with
      | [] => (ImageThrows, w')
      | r :: rest => (r, set_image_replies w' rest)
      end
  | Sleep ms => (tt, add_log (advance_clock w ms) (Slept ms))
  | SessionSocketsGet sid => (sessionSockets w !! sid, w)
  | Uuid =>
      match uuids w with
      | [] => ("", w)
      | u :: rest => (u, set_uuids w rest)
      end
  | Emit sid payload => (tt, add_log w (Emitted sid payload))
  end.

(** A handler run from start to end with nothing interleaved. *)
Fixpoint run {R : Type} (p : Prog R) (w : World) : (Exn + R) * World :=
  match p with
  | Ret r => (inr r, w)
  | Throw e => (inl e, w)
  | Await op k => let '(x, w') := exec op w in run (k x) w'
  end.

(** ** Small pieces of the JavaScript the handler relies on *)

(** Truthiness of an INTEGER column. *)
Definition truthy (n : Z) : bool := negb (n =? 0).

(** A nullable integer used in arithmetic: [null + 1] is [1]. *)
Definition js_num (n : option Z) : Z := default 0 n.

(** [a === b] on nullable integers. *)
Definition same_index (a b : option Z) : bool :=
  match a, b with
  | Some x, Some y => x =? y
  | None, None => true
  | _, _ => false
  end.

(** [!s] for a value that is a string, [undefined] or [null]. *)
Definition falsy (s : option string) : bool :=
  match s with
  | None => true
  | Some s => String.eqb s ""
  end.

(** A string is kept as the bytes of its UTF-8 encoding.  The handler
    cuts strings at ASCII characters only (a colon, a comma, a prefix),
    which the encoding keeps apart from every other character.  Code
    points matter to String.prototype.trim alone: it removes ECMAScript's
    WhiteSpace and LineTerminator, listed by the next three tests. *)

(** U+0009 to U+000D and U+0020. *)
Definition is_space (c : ascii) : bool :=
  let n := nat_of_ascii c in
  (Nat.eqb n 32) || (Nat.leb 9 n && Nat.leb n 13).

(** U+00A0, the bytes C2 A0. *)
Definition is_space2 (c1 c2 : ascii) : bool :=
  Nat.eqb (nat_of_ascii c1) 194 && Nat.eqb (nat_of_ascii c2) 160.

(** U+1680 (E1 9A 80), U+2000 to U+200A (E2 80 80 to E2 80 8A), U+2028
    and U+2029 (E2 80 A8, E2 80 A9), U+202F (E2 80 AF), U+205F (E2 81 9F),
    U+3000 (E3 80 80) and U+FEFF (EF BB BF). *)
Definition is_space3 (c1 c2 c3 : ascii) : bool :=
  let a := nat_of_ascii c1 in
  let b := nat_of_ascii c2 in
  let c := nat_of_ascii c3 in
  (Nat.eqb a 225 && Nat.eqb b 154 && Nat.eqb c 128)
  || (Nat.eqb a 226 && Nat.eqb b 128
      && ((Nat.leb 128 c && Nat.leb c 138)
          || Nat.eqb c 168 || Nat.eqb c 169 || Nat.eqb c 175))
  || (Nat.eqb a 226 && Nat.eqb b 129 && Nat.eqb c 159)
  || (Nat.eqb a 227 && Nat.eqb b 128 && Nat.eqb c 128)
  || (Nat.eqb a 239 && Nat.eqb b 187 && Nat.eqb c 191).

(** [s.trim() === ""]: the string consists of white space only. *)
Fixpoint is_blank (s : string) : bool :=
  match s with
  | EmptyString => true
  | String c1 s1 =>
      if is_space c1 then is_blank s1
      else
        match s1 with
        | EmptyString => false
        | String c2 s2 =>
            if is_space2 c1 c2 then is_blank s2
            else
              match s2 with
              | EmptyString => false
              | String c3 s3 => is_space3 c1 c2 c3 && is_blank s3
              end
        end
  end.

(** [s.replace(":", "x")]: the first colon only. *)
Fixpoint replace_colon (s : string) : string :=
  match s with
  | EmptyString => EmptyString
  | String c rest =>
      if Ascii.eqb c ":"%char then String "x"%char rest else String c (replace_colon rest)
  end.

Fixpoint until_comma (s : string) : string :=
  match s with
  | EmptyString => EmptyString
  | String c rest => if Ascii.eqb c ","%char then EmptyString else String c (until_comma rest)
  end.

Fixpoint after_comma (s : string) : option string :=
  match s with
  | EmptyString => None
  | String c rest => if Ascii.eqb c ","%char then Some rest else after_comma rest
  end.

(** [s.split(",")[1]] *)
Definition split_comma_1 (s : string) : option string :=
  until_comma <$> after_comma s.

Definition data_url (b64 : string) : string := "data:image/png;base64," +:+ b64.

(** ** callLLM *)

Definition known_provider (p : string) : bool :=
  String.eqb p "openai" || String.eqb p "google" || String.eqb p "anthropic".

(** Steps 2 and 3 of an attempt: the parse and the structure checks.
    [None] stands for every way in which the attempt throws. *)
Definition common_fields_ok (j : json) : bool :=
  is_string (prop j "narrative")
  && is_string (prop j "image_prompt")
  && is_array_of json_is_string (prop j "suggested_actions")
  && is_string (prop j "timeOfDay")
  && is_boolean (prop j "isSameLocation")
  && is_array_of is_character (prop j "characters").

Definition goal_fields_ok (isInitialTurn : bool) (j : json) : bool :=
  if isInitialTurn then
    is_string (prop j "game_goal")
    && negb (is_blank (as_string (prop j "game_goal")))
    && is_array_of json_is_string (prop j "goal_prerequisites")
  else
    is_array_of json_is_string (prop j "updated_met_prerequisites")
    && is_boolean (prop j "is_goal_met_this_turn").

Definition checked (isInitialTurn : bool) (reply : ProviderReply) : option json :=
  match reply with
  | ReplyThrows => None
  | ReplyEmpty => None
  | ReplyText None => None
  | ReplyText (Some j) =>
      if common_fields_ok j && goal_fields_ok isInitialTurn j then Some j else None
  end.

(** The body of the retry loop for one value of [attempt]; [remaining]
    counts the iterations left, [attempt] included. *)
Fixpoint llm_attempts (provider : string) (p : Prompt) (isInitialTurn : bool)
    (maxRetries : Z) (remaining : nat) (attempt : Z) : Prog json :=
  match remaining with
  | O => Throw (LlmFailedAfterRetries maxRetries)
  | S remaining' =>
      outcome <- (if known_provider provider
                  then reply <- await (ProviderCall provider p) ;;
                       Ret (checked isInitialTurn reply)
                  else Ret None) ;;
      match outcome with
      | Some parsedJson => Ret parsedJson
      | None =>
          (if attempt <? maxRetries then await (Sleep (500 * attempt)) else Ret tt) ;;;
          llm_attempts provider p isInitialTurn maxRetries remaining' (attempt + 1)
      end
  end.

(** The switch that picks the default model.  The model itself is not
    kept (one provider call stands for a call with any model); what is
    kept is how the switch can fail: the file declares OPENAI_MODEL,
    GOOGLE_MODEL, ANTHROPIC_MODEL and INITIAL_GOOGLE_MODEL, but neither
    INITIAL_OPENAI_MODEL nor INITIAL_ANTHROPIC_MODEL, so reading one of
    these two throws a ReferenceError. *)
Definition default_model (providerToUse : string) (isInitialTurn : bool)
  : Exn + unit :=
  if String.eqb providerToUse "openai" then
    if isInitialTurn then inl (NotDefined "INITIAL_OPENAI_MODEL") else inr tt
  else if String.eqb providerToUse "google" then inr tt
  else if String.eqb providerToUse "anthropic" then
    if isInitialTurn then inl (NotDefined "INITIAL_ANTHROPIC_MODEL") else inr tt
  else inl InvalidLlmProvider.

Definition callLLM (cfg : Config) (p : Prompt) (maxRetries : Z)
    (isInitialTurn : bool) (providerOverride modelOverride : option string)
  : Prog json :=
  let providerToUse :=
    if falsy providerOverride
    then (if isInitialTurn then INITIAL_LLM_PROVIDER cfg else ACTIVE_LLM_PROVIDER cfg)
    else default "" providerOverride in
  match (if falsy modelOverride then default_model providerToUse isInitialTurn
         else inr tt) with
  | inl e => Throw e
  | inr _ =>
      llm_attempts providerToUse p isInitialTurn maxRetries (Z.to_nat maxRetries) 1
  end.

(** ** Image helpers *)

Definition placeholder_missing_prompt (ratio : string) : string :=
  "https://via.placeholder.com/1024x576.png?text=Missing+Prompt&ratio="
  +:+ replace_colon ratio.

Definition placeholder_failed_ratio (ratio : string) : string :=
  "https://via.placeholder.com/1024x576.png?text=Image+Generation+Failed&ratio="
  +:+ replace_colon ratio.

Definition placeholder_failed : string :=
  "https://via.placeholder.com/1024x576.png?text=Image+Generation+Failed".

(** The image data is [bytesBase64Encoded] of the first prediction; an
    empty one counts as missing. *)
Definition generateImageWithImagen (cfg : Config) (prompt : string)
    (aspectRatioOverride : option string) : Prog string :=
  let effectiveAspectRatio :=
    if falsy aspectRatioOverride then IMAGEN_ASPECT_RATIO cfg
    else default "" aspectRatioOverride in
  if is_blank prompt then Ret (placeholder_missing_prompt effectiveAspectRatio)
  else
    reply <- await (ImageCall "google" prompt None) ;;
    match reply with
    | ImageData b64 =>
        if String.eqb b64 "" then Ret (placeholder_failed_ratio effectiveAspectRatio)
        else Ret (data_url b64)
    | ImageNoData => Ret (placeholder_failed_ratio effectiveAspectRatio)
    | ImageThrows => Ret (placeholder_failed_ratio effectiveAspectRatio)
    end.

(** Here the first entry is the first part of the first candidate.  It
    lacks the image data when it has no [inlineData]: reading [.data] of
    that throws inside the try block.  [ImageData imageData] is a part
    with [inlineData], [imageData] being what the template literal prints
    for its [data]. *)
Definition generateImageWithGoogleFlash (prompt : string)
    (base64Image : option string) : Prog string :=
  reply <- await (ImageCall "google-flash" prompt
                    (if falsy base64Image then None else base64Image)) ;;
  match reply with
  | ImageData imageData => Ret (data_url imageData)
  | ImageNoData => Ret placeholder_failed
  | ImageThrows => Ret placeholder_failed
  end.

(** The image data is [b64_json] of the first entry.  No try/catch here
    and no test of what was read: a failed request leaves the function as
    an exception, and a first entry without a [b64_json] field is printed
    by the template literal as the word undefined. *)
Definition generateImageWithOpenAI (prompt : string) : Prog string :=
  reply <- await (ImageCall "openai" prompt None) ;;
  match reply with
  | ImageData image_base64 => Ret (data_url image_base64)
  | ImageNoData => Ret (data_url "undefined")
  | ImageThrows => Throw ImageCallFailed
  end.

Definition generateImageWithAppropriateProvider (cfg : Config) (turnData : json)
    (base64PreviousImage : option string) : Prog string :=
  let image_prompt := as_string (prop turnData "image_prompt") in
  if String.eqb (ACTIVE_IMAGE_PROVIDER cfg) "google" then
    generateImageWithImagen cfg image_prompt None
  else if String.eqb (ACTIVE_IMAGE_PROVIDER cfg) "google-flash" then
    if as_bool (prop turnData "isSameLocation") && negb (falsy base64PreviousImage)
    then generateImageWithGoogleFlash image_prompt base64PreviousImage
    else generateImageWithGoogleFlash image_prompt None
  else if String.eqb (ACTIVE_IMAGE_PROVIDER cfg) "openai" then
    generateImageWithOpenAI image_prompt
  else Throw InvalidImageProvider.

(** ** getFullSessionState *)

Definition getFullSessionState (sessionId : string) : Prog (option SessionState) :=
  session <- await (SelectSession sessionId) ;;
  match session with
  | None => Ret None
  | Some session =>
      players <- await (SelectPlayers sessionId) ;;
      history <- await (SelectTurns sessionId) ;;
      Ret (Some (mkState sessionId (theme session)
                   (truthy (is_multiplayer session))
                   (current_player_index session)
                   players history
                   (game_goal session)
                   (default [] (goal_prerequisites session))
                   (default [] (met_prerequisites session))
                   (truthy (is_goal_met session))))
  end.

(** ** POST /api/game/action *)

Record Request : Type := mkRequest {
  sessionId : option string;
  action : option string;
  (** [None]: the field is absent; [Some None]: parseInt gives NaN. *)
  turnIndex : option (option Z);
  requestUserId : option string
}.

(** [sessionConnections?.has(userId) ?? false] *)
Definition has_socket (sessionConnections : option (gmap string nat))
    (userId : string) : bool :=
  match sessionConnections with
  | Some m => bool_decide (is_Some (m !! userId))
  | None => false
  end.

(** [sourceTurnIndex < 0 || sourceTurnIndex > latestDbIndex]; both
    comparisons are false on NaN. *)
Definition out_of_range (sourceTurnIndex : option Z) (latestDbIndex : Z) : bool :=
  match sourceTurnIndex with
  | Some n => (n <? 0) || (latestDbIndex <? n)
  | None => false
  end.

Definition base64_of_previous (previousImageUrl : option string) : option string :=
  match previousImageUrl with
  | Some url =>
      if negb (String.eqb url "") && String.prefix "data:image/png;base64," url
      then split_comma_1 url
      else None
  | None => None
  end.

Definition goal_context (session : SessionRow)
  : option (string * list string * list string) :=
  match game_goal session, goal_prerequisites session, met_prerequisites session with
  | Some g, Some pre, Some met =>
      if String.eqb g "" then None else Some (g, pre, met)
  | _, _, _ => None
  end.

(** The while loop of the skip branch.  [checks_left] is
    [numPlayers - checkedCount]; the result is [-1] when the loop ends
    without a connected player. *)
Fixpoint skip_scan (players : list PlayerRow)
    (sessionConnections : option (gmap string nat)) (numPlayers : Z)
    (checks_left : nat) (currentCheckIndex : Z) : Z :=
  match checks_left with
  | O => -1
  | S checks_left' =>
      let currentCheckIndex := Z.rem (currentCheckIndex + 1) numPlayers in
      match List.find (fun p => player_index p =? currentCheckIndex) players with
      | Some playerToCheck =>
          if has_socket sessionConnections (user_id playerToCheck)
          then currentCheckIndex
          else skip_scan players sessionConnections numPlayers checks_left'
                 currentCheckIndex
      | None =>
          skip_scan players sessionConnections numPlayers checks_left'
            currentCheckIndex
      end
  end.

(** Branch 4a: the current player is connected. *)
Definition process_action (cfg : Config) (sessionId : string)
    (session : SessionRow) (players : list PlayerRow)
    (requestingPlayer : PlayerRow) (requestUserId : string) (action : string)
    (sourceTurnIndex : option Z) : Prog Response :=
  let currentPlayerIndex := current_player_index session in
  await_or_throw SqlBegin ;;;
  try_catch
    (maxTurnRow <- await (SelectMaxTurn sessionId) ;;
     let latestDbIndex := default (-1) maxTurnRow in
     if out_of_range sourceTurnIndex latestDbIndex
     then Throw (InvalidTurnIndex sourceTurnIndex latestDbIndex)
     else
       historyRows <- await (SelectHistoryUpTo sessionId sourceTurnIndex) ;;
       match sourceTurnIndex, historyRows with
       | Some source, _ :: _ =>
           previousImageUrl <- await (SelectImageUrl sessionId sourceTurnIndex) ;;
           let base64PreviousImage := base64_of_previous previousImageUrl in
           let combinedTurnPrompt :=
             mkPrompt historyRows
               (map (fun p => (p, String.eqb (user_id p) requestUserId)) players)
               (goal_context session) action in
           nextTurnData <- callLLM cfg combinedTurnPrompt 3 false None None ;;
           let updatedMetPrerequisites :=
             map json_string (as_array (prop nextTurnData "updated_met_prerequisites")) in
           let isGoalMetThisTurn := as_bool (prop nextTurnData "is_goal_met_this_turn") in
           newImageUrl <-
             generateImageWithAppropriateProvider cfg nextTurnData base64PreviousImage ;;
           (* Branching check: the body of the source's [if] is empty. *)
           let newTurnIndex := source + 1 in
           newTurnId <- await Uuid ;;
           await_or_throw
             (InsertTurn
                (mkTurn newTurnId sessionId newTurnIndex
                   (as_string (prop nextTurnData "narrative"))
                   newImageUrl
                   (as_string (prop nextTurnData "image_prompt"))
                   (map json_string (as_array (prop nextTurnData "suggested_actions")))
                   (Some action)
                   (as_string (prop nextTurnData "timeOfDay"))
                   (if as_bool (prop nextTurnData "isSameLocation") then 1 else 0)
                   (as_array (prop nextTurnData "characters"))
                   (Some requestUserId)
                   (Some (player_index requestingPlayer))
                   0)) ;;;
           let nextPlayerIndex :=
             if truthy (is_multiplayer session)
             then Some (Z.rem (js_num currentPlayerIndex + 1) (Z.of_nat (length players)))
             else currentPlayerIndex in
           let finalGoalMetStatus := isGoalMetThisTurn || (is_goal_met session =? 1) in
           await (UpdateSessionAfterTurn sessionId nextPlayerIndex
                    updatedMetPrerequisites (if finalGoalMetStatus then 1 else 0)) ;;;
           await_or_throw SqlCommit ;;;
           responsePayload <- getFullSessionState sessionId ;;
           match responsePayload with
           | None => Throw StateUnavailable
           | Some responsePayload =>
               await (Emit sessionId responsePayload) ;;;
               Ret (Updated responsePayload)
           end
       | _, _ => Throw NoHistoryFound
       end)
    (fun actionError => await_or_throw SqlRollback ;;; Throw actionError).

(** Branch 4b: the current player is disconnected. *)
Definition skip_turn (sessionId : string) (session : SessionRow)
    (players : list PlayerRow) : Prog Response :=
  let currentPlayerIndex := current_player_index session in
  await_or_throw SqlBegin ;;;
  try_catch
    (sessionConnections <- await (SessionSocketsGet sessionId) ;;
     let numPlayers := Z.of_nat (length players) in
     let nextConnectedPlayerIndex :=
       skip_scan players sessionConnections numPlayers (length players)
         (js_num currentPlayerIndex) in
     if negb (nextConnectedPlayerIndex =? -1) then
       await (UpdateSessionIndex sessionId nextConnectedPlayerIndex) ;;;
       await_or_throw SqlCommit ;;;
       updatedState <- getFullSessionState sessionId ;;
       match updatedState with
       | None => Throw StateUnavailable
       | Some updatedState =>
           await (Emit sessionId updatedState) ;;;
           Ret (TurnSkipped updatedState)
       end
     else
       await_or_throw SqlRollback ;;;
       Ret NoActivePlayers)
    (fun skipError => await_or_throw SqlRollback ;;; Throw skipError).

(** The outer try block, from the session fetch on. *)
Definition handle (cfg : Config) (sessionId : string) (action : string)
    (sourceTurnIndex : option Z) (requestUserId : string) : Prog Response :=
  session <- await (SelectSession sessionId) ;;
  match session with
  | None => Ret SessionNotFound
  | Some session =>
      players <- await (SelectPlayers sessionId) ;;
      match players with
      | [] => Throw NoPlayersFound
      | _ :: _ =>
          match List.find (fun p => String.eqb (user_id p) requestUserId) players with
          | None => Ret NotAPlayer
          | Some requestingPlayer =>
              if truthy (is_multiplayer session)
                 && negb (same_index (current_player_index session)
                            (Some (player_index requestingPlayer)))
              then Ret NotYourTurn
              else
                let currentPlayerIndex := current_player_index session in
                let currentPlayerInfo :=
                  List.find (fun p => same_index (Some (player_index p)) currentPlayerIndex)
                    players in
                isCurrentPlayerConnected <-
                  (match truthy (is_multiplayer session), currentPlayerInfo with
                   | true, Some info =>
                       sessionConnections <- await (SessionSocketsGet sessionId) ;;
                       Ret (has_socket sessionConnections (user_id info))
                   | true, None => Ret false
                   | false, _ => Ret true
                   end) ;;
                if (isCurrentPlayerConnected : bool)
                then process_action cfg sessionId session players requestingPlayer
                       requestUserId action sourceTurnIndex
                else skip_turn sessionId session players
          end
      end
  end.

(** The route: the two field checks, then the outer try/catch, whose
    handler asks for a ROLLBACK whatever its outcome and answers 500. *)
Definition post_action (cfg : Config) (req : Request) : Prog Response :=
  match sessionId req, action req, turnIndex req with
  | Some sid, Some act, Some sourceTurnIndex =>
      if String.eqb sid "" then Ret BadRequest
      else if falsy (requestUserId req) then Ret Unauthorized
      else
        try_catch
          (handle cfg sid act sourceTurnIndex (default "" (requestUserId req)))
          (fun error => Await SqlRollback (fun _ => Ret (Failed error)))
  | _, _, _ => Ret BadRequest
  end.

(** One request served with nothing interleaved: the response and the
    process state it leaves. *)
Definition submitAction (cfg : Config) (req : Request) (w : World)
  : (Exn + Response) * World :=
  run (post_action cfg req) w.

(** ** Interleaved handlers

    The Node event loop runs one handler until its next await and may
    then resume any other pending handler.  [seen] records, for each
    session row a handler has fetched, which handler fetched it. *)

Record Pool : Type := mkPool {
  handlers : list (Prog Response);
  process : World;
  seen : list (nat * string * option SessionRow)
}.

Definition observe {X : Type} (i : nat) (op : Op X)
  : X -> list (nat * string * option SessionRow) :=
  match op in Op X return X -> list (nat * string * option SessionRow) with
  | SelectSession sid => fun row => [(i, sid, row)]
  | _ => fun _ => []
  end.

(** Handler [i] is resumed and runs up to its next await. *)
Definition resume (i : nat) (c : Pool) : option Pool :=
  match handlers c !! i with
  | Some (Await op k) =>
      let '(x, w') := exec op (process c) in
      Some (mkPool (<[i := k x]> (handlers c)) w' (seen c ++ observe i op x))
  | _ => None
  end.

Fixpoint schedule (order : list nat) (c : Pool) : option Pool :=
  match order with
  | [] => Some c
  | i :: rest =>
      match resume i c with
      | Some c' => schedule rest c'
      | None => None
      end
  end.

Definition pending (c : Pool) (i : nat) : bool :=
  match handlers c !! i with
  | Some (Await _ _) => true
  | _ => false
  end.

(** Handler [i] has fetched the row of session [sid] and has not
    answered yet. *)
Definition in_flight (c : Pool) (sid : string) (i : nat) : bool :=
  pending c i && existsb (fun o => Nat.eqb o.1.1 i && String.eqb o.1.2 sid) (seen c).

Definition arrive (cfg : Config) (reqs : list Request) (w : World) : Pool :=
  mkPool (map (post_action cfg) reqs) w [].

(** ** Ledger and log predicates used in the statements *)

Definition is_request (e : Event) : bool :=
  match e with Requested _ _ => true | _ => false end.

(** Number of provider calls recorded in a log. *)
Fixpoint calls (l : list Event) : nat :=
  match l with
  | [] => O
  | e :: rest => if is_request e then S (calls rest) else calls rest
  end.

(** The events of [n] consecutive attempts, the first numbered [attempt]:
    a wait of 500ms times the attempt number separates two attempts. *)
Fixpoint attempt_events (provider : string) (p : Prompt) (n : nat) (attempt : Z)
  : list Event :=
  match n with
  | O => []
  | S O => [Requested provider p]
  | S n' => Requested provider p :: Slept (500 * attempt)
            :: attempt_events provider p n' (attempt + 1)
  end.

(** The output required of the generator for a turn after the first, as
    the specification lists it (external interfaces: narrative, image
    prompt, suggested actions, time of day, same-location flag,
    characters, updated met prerequisites, goal-met flag), under the keys
    of the wire format.  It is written on the parsed value alone, without
    the tests of callLLM, to be compared with them. *)
Definition has_string (o : json) (k : string) : Prop :=
  exists s, prop o k = Some (JStr s).

Definition has_boolean (o : json) (k : string) : Prop :=
  exists b, prop o k = Some (JBool b).

Definition has_strings (o : json) (k : string) : Prop :=
  exists items, prop o k = Some (JArr (map JStr items)).

Definition character_fields (c : json) : Prop :=
  has_string c "name" /\ has_string c "description"
  /\ has_string c "appearance" /\ has_string c "opinionOfPlayer".

Definition required_fields (j : json) : Prop :=
  has_string j "narrative"
  /\ has_string j "image_prompt"
  /\ has_strings j "suggested_actions"
  /\ has_string j "timeOfDay"
  /\ has_boolean j "isSameLocation"
  /\ (exists items, prop j "characters" = Some (JArr items)
                    /\ Forall character_fields items)
  /\ has_strings j "updated_met_prerequisites"
  /\ has_boolean j "is_goal_met_this_turn".

(** The checked value of the [i]-th scripted reply; a missing reply is a
    call that throws. *)
Definition reply_at (w : World) (i : nat) : option json :=
  checked false (nth i (provider_replies w) ReplyThrows).

(** The reply callLLM returns with three attempts, if any. *)
Definition accepted_reply (w : World) : option json :=
  match reply_at w 0, reply_at w 1, reply_at w 2 with
  | Some j, _, _ => Some j
  | None, Some j, _ => Some j
  | None, None, r => r
  end.

Definition reported_met (j : json) : list string :=
  map json_string (as_array (prop j "updated_met_prerequisites")).

Definition reported_goal (j : json) : bool :=
  as_bool (prop j "is_goal_met_this_turn").

(** Turn indices of a session. *)
Definition indices (d : Db) (sid : string) : list Z :=
  map turn_index (turns_of d sid).

(** The ledger of [sid] holds exactly one turn for each index from 0 to
    its largest index. *)
Definition ledger_ok (d : Db) (sid : string) : Prop :=
  NoDup (indices d sid) /\
  forall latest n, select_max_turn d sid = Some latest ->
    0 <= n <= latest -> n ∈ indices d sid.

(** ** Views of the store and of a request used in the statements *)

(** The document getFullSessionState builds from a given store. *)
Definition state_of (d : Db) (sid : string) : option SessionState :=
  (fun session =>
     mkState sid (theme session) (truthy (is_multiplayer session))
       (current_player_index session) (select_players d sid) (select_turns d sid)
       (game_goal session) (default [] (goal_prerequisites session))
       (default [] (met_prerequisites session)) (truthy (is_goal_met session)))
  <$> sessions d !! sid.

(** [nextPlayerIndex] and [finalGoalMetStatus ? 1 : 0] of branch 4a. *)
Definition next_player (session : SessionRow) (players : list PlayerRow) : option Z :=
  if truthy (is_multiplayer session)
  then Some (Z.rem (js_num (current_player_index session) + 1) (Z.of_nat (length players)))
  else current_player_index session.

Definition final_goal (session : SessionRow) (j : json) : Z :=
  if reported_goal j || (is_goal_met session =? 1) then 1 else 0.

(** [nextConnectedPlayerIndex] of branch 4b for the presence map of [w]. *)
Definition scan_from (w : World) (sid : string) (s : SessionRow)
    (players : list PlayerRow) : Z :=
  skip_scan players (sessionSockets w !! sid) (Z.of_nat (length players))
    (length players) (js_num (current_player_index s)).

(** [requestingPlayer] *)
Definition requester (d : Db) (sid uid : string) : option PlayerRow :=
  List.find (fun p => String.eqb (user_id p) uid) (select_players d sid).

(** [isCurrentPlayerConnected] of a multiplayer session. *)
Definition current_player_connected (w : World) (sid : string) (s : SessionRow) : bool :=
  match List.find (fun p => same_index (Some (player_index p)) (current_player_index s))
          (select_players (db w) sid) with
  | Some info => has_socket (sessionSockets w !! sid) (user_id info)
  | None => false
  end.

(** The request passes the two field checks of the route. *)
Definition well_formed (req : Request) (sid act : string) (src : option Z)
    (uid : string) : Prop :=
  sessionId req = Some sid /\ sid <> "" /\ action req = Some act
  /\ turnIndex req = Some src /\ requestUserId req = Some uid /\ uid <> "".

Definition met_of (d : Db) (sid : string) : list string :=
  default [] (sessions d !! sid ≫= met_prerequisites).

Definition goal_flag (d : Db) (sid : string) : option Z :=
  is_goal_met <$> sessions d !! sid.

Definition index_of (d : Db) (sid : string) : option Z :=
  sessions d !! sid ≫= current_player_index.

Definition last_image (d : Db) : option string := image_url <$> last (turns d).

(** What does not move when only the generator is called. *)
Definition same_store (w w' : World) : Prop :=
  db w' = db w /\ txn w' = txn w /\ sessionSockets w' = sessionSockets w
  /\ uuids w' = uuids w.

(** What does not move when only the image service is called. *)
Definition image_frame (w w' : World) : Prop :=
  db w' = db w /\ txn w' = txn w /\ sessionSockets w' = sessionSockets w
  /\ uuids w' = uuids w /\ clock w' = clock w
  /\ calls (log w') = calls (log w).

(** ** Four statements of the specification that the handler does not meet *)

(** The met-set after a new turn is the union of the previous met-set
    and the generator's list. *)
Definition met_union_law (cfg : Config) (req : Request) (w : World) : Prop :=
  forall sid st w' j,
    sessionId req = Some sid ->
    submitAction cfg req w = (inr (Updated st), w') ->
    accepted_reply w = Some j ->
    forall x, x ∈ met_of (db w') sid <-> (x ∈ met_of (db w) sid \/ x ∈ reported_met j).

(** The goal flag is set only if every prerequisite was in the met-set
    before the action. *)
Definition goal_needs_prior_prerequisites (cfg : Config) (req : Request) (w : World)
  : Prop :=
  forall sid s st w',
    sessionId req = Some sid -> sessions (db w) !! sid = Some s ->
    submitAction cfg req w = (inr (Updated st), w') ->
    goal_flag (db w') sid = Some 1 ->
    forall x, x ∈ default [] (goal_prerequisites s) -> x ∈ met_of (db w) sid.

(** A submission against an index below the latest one is refused. *)
Definition stale_is_rejected (cfg : Config) (req : Request) (w : World) : Prop :=
  forall sid n latest resp w',
    sessionId req = Some sid -> turnIndex req = Some (Some n) ->
    select_max_turn (db w) sid = Some latest -> n < latest ->
    submitAction cfg req w = (inr resp, w') ->
    status resp <> 200 /\ ledger_ok (db w') sid.

(** No two handlers are ever in flight on the same session. *)
Definition one_at_a_time (cfg : Config) (reqs : list Request) (w : World) : Prop :=
  forall order c sid i k,
    schedule order (arrive cfg reqs w) = Some c -> i <> k ->
    ~ (in_flight c sid i = true /\ in_flight c sid k = true).

(** ** A small game used for the concrete runs *)

Module Scenario.

Definition cfg_imagen : Config := mkConfig "openai" "openai" "google" "16:9".
Definition cfg_openai_images : Config := mkConfig "openai" "openai" "openai" "16:9".

Definition seat (u : string) (i : Z) : PlayerRow := mkPlayer "S" u i u "they" None.

Definition opening : TurnRow :=
  mkTurn "t0" "S" 0 "You wake in a cellar." "data:image/png;base64,AAAA"
    "a cellar" ["look"; "shout"] None "night" 1 [] None None 0.

Definition second : TurnRow :=
  mkTurn "t1" "S" 1 "The door creaks." "data:image/png;base64,BBBB"
    "a door" ["leave"] (Some "search the room") "night" 1 [] (Some "u0") (Some 0) 5.

Definition solo : SessionRow :=
  mkSession "Fantasy" 0 None None (Some "Find the crown")
    (Some ["find the key"; "open the vault"]) (Some ["find the key"]) 0 0.

Definition party : SessionRow :=
  mkSession "Fantasy" 1 (Some 4) (Some 0) (Some "Find the crown")
    (Some ["find the key"; "open the vault"]) (Some ["find the key"]) 0 0.

Definition roster4 : list PlayerRow :=
  [seat "u0" 0; seat "u1" 1; seat "u2" 2; seat "u3" 3].

Definition db_solo : Db := mkDb {[ "S" := solo ]} [seat "u0" 0] [opening].
Definition db_solo2 : Db := mkDb {[ "S" := solo ]} [seat "u0" 0] [opening; second].
Definition db_party : Db := mkDb {[ "S" := party ]} roster4 [opening].
Definition db_party2 : Db := mkDb {[ "S" := party ]} roster4 [opening; second].

(** The presence map in which exactly [users] hold a socket on "S". *)
Definition online (users : list string) : gmap string (gmap string nat) :=
  {[ "S" := list_to_map (map (fun u => (u, 1%nat)) users) ]}.

(** A well-formed generator reply that reports [met] and [goal]. *)
Definition reply (met : list string) (goal : bool) : json :=
  JObj [("narrative", JStr "The vault opens."); ("image_prompt", JStr "a vault");
        ("suggested_actions", JArr [JStr "enter"]); ("timeOfDay", JStr "night");
        ("isSameLocation", JBool true); ("characters", JArr []);
        ("updated_met_prerequisites", JArr (map JStr met));
        ("is_goal_met_this_turn", JBool goal)].

Definition world (d : Db) (users : list string) (replies : list ProviderReply)
    (images : list ImageReply) : World :=
  mkWorld d None (online users) replies images ["t9"] 100 [].

Definition request (u : string) (i : Z) : Request :=
  mkRequest (Some "S") (Some "open the vault") (Some (Some i)) (Some u).

(** Single player; the generator drops "find the key" from its list and
    signals the goal. *)
Definition w_drop : World :=
  world db_solo [] [ReplyText (Some (reply ["open the vault"] true))] [ImageData "CCCC"].

(** Four players, player 0 to move and connected. *)
Definition w_party_turn : World :=
  world db_party ["u0"; "u1"] [ReplyText (Some (reply ["find the key"] false))]
    [ImageData "CCCC"].

(** Four players, two turns, player 0 to move and not connected. *)
Definition w_stale_skip : World :=
  world db_party2 ["u1"; "u3"] [ReplyText (Some (reply ["find the key"] false))]
    [ImageData "CCCC"].

(** Single player, two turns in the ledger. *)
Definition w_stale : World :=
  world db_solo2 [] [ReplyText (Some (reply ["find the key"] false))] [ImageData "CCCC"].

(** The generator throws, answers nothing, then answers text that does
    not parse. *)
Definition w_generator_down : World :=
  world db_solo [] [ReplyThrows; ReplyEmpty; ReplyText None] [ImageData "CCCC"].

(** Replies that parse and still fail: the first has no narrative, the
    second a character without opinionOfPlayer, the third a goal flag that
    is not a boolean. *)
Definition no_narrative : json :=
  JObj [("image_prompt", JStr "a vault");
        ("suggested_actions", JArr [JStr "enter"]); ("timeOfDay", JStr "night");
        ("isSameLocation", JBool true); ("characters", JArr []);
        ("updated_met_prerequisites", JArr [JStr "find the key"]);
        ("is_goal_met_this_turn", JBool false)].

Definition half_character : json :=
  JObj [("narrative", JStr "The vault opens."); ("image_prompt", JStr "a vault");
        ("suggested_actions", JArr [JStr "enter"]); ("timeOfDay", JStr "night");
        ("isSameLocation", JBool true);
        ("characters",
         JArr [JObj [("name", JStr "Warden"); ("description", JStr "the keeper");
                     ("appearance", JStr "grey cloak")]]);
        ("updated_met_prerequisites", JArr [JStr "find the key"]);
        ("is_goal_met_this_turn", JBool false)].

Definition goal_as_text : json :=
  JObj [("narrative", JStr "The vault opens."); ("image_prompt", JStr "a vault");
        ("suggested_actions", JArr [JStr "enter"]); ("timeOfDay", JStr "night");
        ("isSameLocation", JBool true); ("characters", JArr []);
        ("updated_met_prerequisites", JArr [JStr "find the key"]);
        ("is_goal_met_this_turn", JStr "no")].

Definition w_generator_sloppy : World :=
  world db_solo []
    [ReplyText (Some no_narrative); ReplyText (Some half_character);
     ReplyText (Some goal_as_text)]
    [ImageData "CCCC"].

(** Four players, player 0 to move; only players 1 and 3 are connected. *)
Definition w_absent : World :=
  world db_party ["u1"; "u3"] [ReplyText (Some (reply ["find the key"] false))]
    [ImageData "CCCC"].

Definition w_nobody : World :=
  world db_party [] [ReplyText (Some (reply ["find the key"] false))]
    [ImageData "CCCC"].

(** The image request throws. *)
Definition w_image_down : World :=
  world db_solo [] [ReplyText (Some (reply ["find the key"] false))] [ImageThrows].

End Scenario.

Import Scenario.

(** * The routes around the turn coordinator

    The definitions below embed the rest of backend/server.js that can be
    told from its text: the websocket listeners that keep the presence
    registry, the lobby routes (start, join, invite, history, delete) and
    the character portrait route.  The lobby routes are written in a
    state-and-exception monad over the process state; a helper of the turn
    coordinator is run inside it with [lift]. *)

(** ** Further views used in the statements *)

Definition won : SessionRow :=
  mkSession "Fantasy" 0 None None (Some "Find the crown")
    (Some ["find the key"; "open the vault"])
    (Some ["find the key"; "open the vault"]) 1 0.

Definition w_won : World :=
  world (mkDb {[ "S" := won ]} [seat "u0" 0] [opening]) []
    [ReplyText (Some (reply [] false))] [ImageData "CCCC"].

(** ** The action branch, forwards *)

(** The request reaches branch 4a: it is well formed, the requester is on
    the roster and, on a multiplayer session, is the current player and
    holds a socket. *)
Definition reaches_action (w : World) (req : Request) (sid act : string)
    (src : option Z) (uid : string) (s : SessionRow) (rp : PlayerRow) : Prop :=
  well_formed req sid act src uid
  /\ sessions (db w) !! sid = Some s
  /\ requester (db w) sid uid = Some rp
  /\ (truthy (is_multiplayer s) = true ->
      current_player_index s = Some (player_index rp)
      /\ current_player_connected w sid s = true).

(** ** Image generation *)

(** The exception generateImageWithAppropriateProvider ends with, given
    the reply the image service would give: the two Google helpers catch
    what is thrown, the OpenAI helper lets a failed call through. *)
Definition image_exception (cfg : Config) (first : ImageReply) : option Exn :=
  if String.eqb (ACTIVE_IMAGE_PROVIDER cfg) "google" then None
  else if String.eqb (ACTIVE_IMAGE_PROVIDER cfg) "google-flash" then None
  else if String.eqb (ACTIVE_IMAGE_PROVIDER cfg) "openai" then
    match first with ImageThrows => Some ImageCallFailed | _ => None end
  else Some InvalidImageProvider.

(** Whether the dispatch sends a request to the image service at all. *)
Definition image_is_requested (cfg : Config) (turnData : json) : bool :=
  if String.eqb (ACTIVE_IMAGE_PROVIDER cfg) "google"
  then negb (is_blank (as_string (prop turnData "image_prompt")))
  else String.eqb (ACTIVE_IMAGE_PROVIDER cfg) "google-flash"
       || String.eqb (ACTIVE_IMAGE_PROVIDER cfg) "openai".

Definition is_image_request (e : Event) : bool :=
  match e with ImageRequested _ _ => true | _ => false end.

Fixpoint image_requests (l : list Event) : nat :=
  match l with
  | [] => O
  | e :: rest => if is_image_request e then S (image_requests rest) else image_requests rest
  end.

(** An image reference the helpers can return. *)
Definition image_reference (cfg : Config) (url : string) : Prop :=
  (exists b64, url = data_url b64)
  \/ url = placeholder_failed
  \/ url = placeholder_failed_ratio (IMAGEN_ASPECT_RATIO cfg)
  \/ url = placeholder_missing_prompt (IMAGEN_ASPECT_RATIO cfg).

Definition ascending {A : Type} (key : A -> Z) (l : list A) : Prop :=
  StronglySorted (fun a b => key a <= key b) l.

(** The identifier uuidv4() is about to return is not yet a turn id. *)
Definition fresh_turn_id (w : World) : Prop :=
  turn_id_taken (db w)
    (mkTurn (hd "" (uuids w)) "" 0 "" "" "" [] None "" 0 [] None None 0) = false.

(** ** Websocket presence *)

(** A connected socket: its id and the two fields of [socket.data] the
    handlers use. *)
Record Socket : Type := mkSocket {
  socket_id : nat;
  data_userId : option string;
  data_sessionId : option string
}.

(** What [googleClient.verifyIdToken] does: throw, or give a ticket whose
    payload has the subject [sub] ([None]: no payload, or no [sub]). *)
Inductive Ticket : Type :=
| TicketThrows (message : string)
| TicketPayload (sub : option string).

(** The payload of an authenticate event, destructured by the listener
    into [token] and [sessionId]. *)
Record AuthData : Type := mkAuthData {
  a_token : option string;
  a_sessionId : option string
}.

(** What the authenticate listener sends back. *)
Inductive SocketSignal : Type :=
| Authenticated
| AuthError (message : string).

(** What the disconnect listener broadcasts to the room. *)
Inductive RoomNotice : Type :=
| PlayerLeft (sessionId userId : string).

Definition set_sessionSockets (w : World) (m : gmap string (gmap string nat)) : World :=
  mkWorld (db w) (txn w) m (provider_replies w) (image_replies w)
    (uuids w) (clock w) (log w).

(** SELECT 1 FROM session_players WHERE session_id = ? AND user_id = ? *)
Definition is_member (d : Db) (sid uid : string) : bool :=
  existsb (fun p => String.eqb (p_session_id p) sid && String.eqb (user_id p) uid)
    (session_players d).

(** [socket.on("disconnect", ...)] *)
Definition on_disconnect (socket : Socket) (w : World) : list RoomNotice * World :=
  if falsy (data_userId socket) || falsy (data_sessionId socket)
  then ([], w)
  else
    let userId := default "" (data_userId socket) in
    let sessionId := default "" (data_sessionId socket) in
    match sessionSockets w !! sessionId with
    | None => ([], w)
    | Some userMap =>
        let deleted := bool_decide (is_Some (userMap !! userId)) in
        let userMap' := delete userId userMap in
        (if deleted then [PlayerLeft sessionId userId] else [],
         set_sessionSockets w
           (if Nat.eqb (size userMap') 0
            then delete sessionId (sessionSockets w)
            else <[sessionId := userMap']> (sessionSockets w)))
    end.

(** [socket.emit("auth_error", ...)] followed by [socket.disconnect(true)]:
    the socket closes at once, which runs its disconnect listener before
    the call returns. *)
Definition refuse (message : string) (socket : Socket) (w : World)
  : SocketSignal * list RoomNotice * Socket * World :=
  let '(notices, w') := on_disconnect socket w in
  (AuthError message, notices, socket, w').

(** [socket.on("authenticate", ...)].  [data] is [None] for an event sent
    without a payload: destructuring it throws outside the try block of
    the async listener, and the rejection, which nothing handles, ends the
    process; the result is then [None].  Otherwise the result is what was
    sent back, what the room was told, the socket and the process state
    the listener leaves. *)
Definition on_authenticate (data : option AuthData) (ticket : Ticket)
    (socket : Socket) (w : World)
  : option (SocketSignal * list RoomNotice * Socket * World) :=
  match data with
  | None => None
  | Some data =>
      let token := a_token data in
      let sessionId := a_sessionId data in
      Some
        (if falsy token || falsy sessionId
         then refuse "Authentication failed: Token and sessionId required." socket w
         else
           let sessionId := default "" sessionId in
           match ticket with
           | TicketThrows message =>
               refuse ("Authentication failed: " +:+ message) socket w
           | TicketPayload sub =>
               if falsy sub
               then refuse "Authentication failed: Invalid token payload." socket w
               else
                 let userId := default "" sub in
                 if negb (is_member (db w) sessionId userId)
                 then refuse
                        "Authentication failed: User not part of the specified session."
                        socket w
                 else
                   let created :=
                     match sessionSockets w !! sessionId with
                     | Some _ => sessionSockets w
                     | None => <[sessionId := ∅]> (sessionSockets w)
                     end in
                   (Authenticated, [],
                    mkSocket (socket_id socket) (Some userId) (Some sessionId),
                    set_sessionSockets w
                      (alter (insert userId (socket_id socket)) sessionId created))
           end)
  end.

(** Every session entry of the registry holds at least one socket. *)
Definition no_empty_rooms (m : gmap string (gmap string nat)) : Prop :=
  forall sid users, m !! sid = Some users -> users <> ∅.

(** Whoever holds a socket on a session is on its roster. *)
Definition registry_sound (w : World) : Prop :=
  forall sid uid,
    has_socket (sessionSockets w !! sid) uid = true -> is_member (db w) sid uid = true.

(** ** The lobby routes *)

(** The routes around the turn coordinator also use two columns of
    [sessions] it never reads: [user_id], the creator, and the UNIQUE
    [invite_code].  [owners] gives the creator of a session id and
    [invites] the session id that carries a code.  [site_txn] is their
    value at BEGIN.  Rows of [users] are not modelled: authenticateToken
    inserts the caller before any route runs. *)
Record Site : Type := mkSite {
  site_world : World;
  owners : gmap string string;
  invites : gmap string string;
  site_txn : option (gmap string string * gmap string string)
}.

Definition set_world (s : Site) (w : World) : Site :=
  mkSite w (owners s) (invites s) (site_txn s).

Inductive LobbyExn : Type :=
| Core (e : Exn)
| SqlConstraintPlayerUser
| SqlConstraintPlayerIndex
| SqlConstraintSessionId
| SqlConstraintInviteCode
| SqlForeignKeySession
| InvalidGoalData.

(** A route handler: state passing with exceptions. *)
Definition Lobby (A : Type) : Type := Site -> (LobbyExn + A) * Site.

Definition lret {A : Type} (a : A) : Lobby A := fun s => (inr a, s).

Definition lthrow {A : Type} (e : LobbyExn) : Lobby A := fun s => (inl e, s).

Definition lbind {A B : Type} (m : Lobby A) (k : A -> Lobby B) : Lobby B :=
  fun s => match m s with
           | (inl e, s') => (inl e, s')
           | (inr a, s') => k a s'
           end.

Definition lcatch {A : Type} (m : Lobby A) (h : LobbyExn -> Lobby A) : Lobby A :=
  fun s => match m s with
           | (inl e, s') => h e s'
           | (inr a, s') => (inr a, s')
           end.

(** A helper of the turn coordinator called from a route. *)
Definition lift {A : Type} (p : Prog A) : Lobby A :=
  fun s => match run p (site_world s) with
           | (inl e, w) => (inl (Core e), set_world s w)
           | (inr a, w) => (inr a, set_world s w)
           end.

Notation "x <~ m ;; k" := (lbind m (fun x => k))
  (at level 100, m at next level, right associativity).
Notation "m ;;> k" := (lbind m (fun _ => k))
  (at level 100, right associativity).

Definition sql_begin : Lobby unit :=
  fun s => match exec SqlBegin (site_world s) with
           | (inl e, w) => (inl (Core e), set_world s w)
           | (inr _, w) => (inr tt, mkSite w (owners s) (invites s)
                                      (Some (owners s, invites s)))
           end.

Definition sql_commit : Lobby unit :=
  fun s => match exec SqlCommit (site_world s) with
           | (inl e, w) => (inl (Core e), set_world s w)
           | (inr _, w) => (inr tt, mkSite w (owners s) (invites s) None)
           end.

Definition sql_rollback : Lobby unit :=
  fun s => match exec SqlRollback (site_world s) with
           | (inl e, w) => (inl (Core e), set_world s w)
           | (inr _, w) =>
               (inr tt, match site_txn s with
                        | Some (o, i) => mkSite w o i None
                        | None => mkSite w (owners s) (invites s) None
                        end)
           end.

(** [try { await db.run("ROLLBACK") } catch (rbError) { ... }] *)
Definition rollback_quietly : Lobby unit := lcatch sql_rollback (fun _ => lret tt).

(** Rows of session_players of one session, in table order. *)
Definition roster (d : Db) (sid : string) : list PlayerRow :=
  filter (fun p => p_session_id p = sid) (session_players d).

(** SELECT ... FROM sessions WHERE invite_code = ? *)
Definition select_session_by_invite (inviteCode : string)
  : Lobby (option (string * SessionRow)) :=
  fun s => (inr (invites s !! inviteCode
                 ≫= fun sid => pair sid <$> sessions (db (site_world s)) !! sid), s).

(** SELECT 1 FROM session_players WHERE session_id = ? AND user_id = ? *)
Definition select_membership (sid uid : string) : Lobby bool :=
  fun s => (inr (is_member (db (site_world s)) sid uid), s).

(** SELECT COUNT( * ) FROM session_players WHERE session_id = ? *)
Definition count_players (sid : string) : Lobby Z :=
  fun s => (inr (Z.of_nat (length (roster (db (site_world s)) sid))), s).

(** INSERT INTO session_players: the foreign key to sessions and the two
    UNIQUE constraints are checked.  When both constraints fail the one on
    (session_id, user_id) is reported; the routes never reach that case. *)
Definition seat_taken (d : Db) (row : PlayerRow) : bool :=
  existsb (fun p => String.eqb (p_session_id p) (p_session_id row)
                    && (player_index p =? player_index row)) (session_players d).

Definition insert_player (d : Db) (row : PlayerRow) : LobbyExn + Db :=
  match sessions d !! p_session_id row with
  | None => inl SqlForeignKeySession
  | Some _ =>
      if is_member d (p_session_id row) (user_id row) then inl SqlConstraintPlayerUser
      else if seat_taken d row then inl SqlConstraintPlayerIndex
      else inr (mkDb (sessions d) (session_players d ++ [row]) (turns d))
  end.

Definition insert_player_row (row : PlayerRow) : Lobby unit :=
  fun s => match insert_player (db (site_world s)) row with
           | inl e => (inl e, s)
           | inr d => (inr tt, set_world s (set_db (site_world s) d (txn (site_world s))))
           end.

(** [x || null] on an optional string. *)
Definition or_null (x : option string) : option string :=
  if falsy x then None else x.

(** *** POST /api/game/join *)

Record JoinRequest : Type := mkJoin {
  j_inviteCode : option string;
  j_characterName : option string;
  j_characterGender : option string;
  j_characterImageUrl : option string;
  j_userId : option string
}.

Inductive JoinResponse : Type :=
| JoinBadRequest (error : string)
| JoinUnauthorized
| InviteNotFound
| NotMultiplayer
| AlreadyJoined (sessionId : string)
| SessionFull
| Joined (sessionId : string)
| JoinConflict
| JoinFailed (e : LobbyExn).

Definition join_status (r : JoinResponse) : Z :=
  match r with
  | JoinBadRequest _ => 400
  | JoinUnauthorized => 401
  | InviteNotFound => 404
  | NotMultiplayer => 400
  | AlreadyJoined _ => 200
  | SessionFull => 403
  | Joined _ => 200
  | JoinConflict => 409
  | JoinFailed _ => 500
  end.

Definition join_body (inviteCode characterName characterGender : string)
    (characterImageUrl : option string) (userId : string) : Lobby JoinResponse :=
  sql_begin ;;>
  session <~ select_session_by_invite inviteCode ;;
  match session with
  | None => sql_rollback ;;> lret InviteNotFound
  | Some (sessionId, session) =>
      if negb (truthy (is_multiplayer session))
      then sql_rollback ;;> lret NotMultiplayer
      else
        existingPlayer <~ select_membership sessionId userId ;;
        if (existingPlayer : bool)
        then sql_rollback ;;> lret (AlreadyJoined sessionId)
        else
          playerCount <~ count_players sessionId ;;
          if js_num (max_players session) <=? playerCount
          then sql_rollback ;;> lret SessionFull
          else
            let nextPlayerIndex := playerCount in
            insert_player_row
              (mkPlayer sessionId userId nextPlayerIndex characterName characterGender
                 (or_null characterImageUrl)) ;;>
            sql_commit ;;>
            updatedSessionState <~ lift (getFullSessionState sessionId) ;;
            match updatedSessionState with
            | Some st => lift (await (Emit sessionId st))
            | None => lret tt
            end ;;>
            lret (Joined sessionId)
  end.

Definition post_join (req : JoinRequest) : Lobby JoinResponse :=
  if falsy (j_inviteCode req) then lret (JoinBadRequest "Invite code is required.")
  else if falsy (j_characterName req)
  then lret (JoinBadRequest "Character name is required.")
  else if falsy (j_characterGender req)
  then lret (JoinBadRequest "Character gender is required.")
  else if falsy (j_userId req) then lret JoinUnauthorized
  else
    lcatch
      (join_body (default "" (j_inviteCode req)) (default "" (j_characterName req))
         (default "" (j_characterGender req)) (j_characterImageUrl req)
         (default "" (j_userId req)))
      (fun error =>
         rollback_quietly ;;>
         match error with
         | SqlConstraintPlayerUser => lret JoinConflict
         | _ => lret (JoinFailed error)
         end).

(** *** GET /api/invite/:inviteCode *)

Record InviteInfo : Type := mkInvite {
  i_sessionId : string;
  i_theme : string;
  i_isFull : bool;
  i_playerCount : Z;
  i_maxPlayers : option Z
}.

Inductive InviteResponse : Type :=
| InviteBadRequest
| InviteUnknown
| InviteNotMultiplayer
| InviteOk (info : InviteInfo)
| InviteFailed.

Definition get_invite (inviteCode : option string) : Lobby InviteResponse :=
  if falsy inviteCode then lret InviteBadRequest
  else
    lcatch
      (session <~ select_session_by_invite (default "" inviteCode) ;;
       match session with
       | None => lret InviteUnknown
       | Some (sessionId, session) =>
           if negb (truthy (is_multiplayer session)) then lret InviteNotMultiplayer
           else
             playerCount <~ count_players sessionId ;;
             let isFull := js_num (max_players session) <=? playerCount in
             lret (InviteOk (mkInvite sessionId (theme session) isFull playerCount
                               (max_players session)))
       end)
      (fun _ => lret InviteFailed).

(** *** GET /api/games/history/:sessionId *)

Inductive HistoryResponse : Type :=
| HistoryUnauthorized
| HistoryBadRequest
| HistoryNotFound
| HistoryDenied
| HistoryOk (payload : SessionState).

Definition get_history (userId sessionId : option string) : Lobby HistoryResponse :=
  if falsy userId then lret HistoryUnauthorized
  else if falsy sessionId then lret HistoryBadRequest
  else
    let userId := default "" userId in
    let sessionId := default "" sessionId in
    sessionRow <~ lift (await (SelectSession sessionId)) ;;
    match sessionRow with
    | None => lret HistoryNotFound
    | Some sessionRow =>
        playerCheck <~ select_membership sessionId userId ;;
        if negb playerCheck then lret HistoryDenied
        else
          players <~ lift (await (SelectPlayers sessionId)) ;;
          sessionHistoryRows <~ lift (await (SelectTurns sessionId)) ;;
          lret (HistoryOk
                  (mkState sessionId (theme sessionRow)
                     (truthy (is_multiplayer sessionRow))
                     (current_player_index sessionRow)
                     players sessionHistoryRows
                     (game_goal sessionRow)
                     (default [] (goal_prerequisites sessionRow))
                     (default [] (met_prerequisites sessionRow))
                     (truthy (is_goal_met sessionRow))))
    end.

(** *** DELETE /api/games/history/:sessionId *)

(** SELECT session_id FROM sessions WHERE session_id = ? AND user_id = ? *)
Definition owned_by (s : Site) (sid uid : string) : bool :=
  bool_decide (is_Some (sessions (db (site_world s)) !! sid))
  && bool_decide (owners s !! sid = Some uid).

Definition select_owned (sid uid : string) : Lobby bool :=
  fun s => (inr (owned_by s sid uid), s).

(** DELETE FROM sessions WHERE session_id = ? AND user_id = ?; the rows of
    turns and session_players go with it (ON DELETE CASCADE, with
    PRAGMA foreign_keys = ON).  Returns [result.changes]. *)
Definition delete_rows (d : Db) (sid : string) : Db :=
  mkDb (delete sid (sessions d))
       (filter (fun p => p_session_id p <> sid) (session_players d))
       (filter (fun t => t_session_id t <> sid) (turns d)).

Definition delete_session (sid uid : string) : Lobby Z :=
  fun s => if owned_by s sid uid
           then (inr 1,
                 mkSite (set_db (site_world s) (delete_rows (db (site_world s)) sid) (txn (site_world s)))
                   (delete sid (owners s))
                   (filter (fun kv => kv.2 <> sid) (invites s))
                   (site_txn s))
           else (inr 0, s).

Inductive DeleteResponse : Type :=
| DeleteUnauthorized
| DeleteBadRequest
| DeleteNotFound
| Deleted
| DeleteNothing
| DeleteFailed.

Definition delete_status (r : DeleteResponse) : Z :=
  match r with
  | DeleteUnauthorized => 401
  | DeleteBadRequest => 400
  | DeleteNotFound => 404
  | Deleted => 200
  | DeleteNothing => 404
  | DeleteFailed => 500
  end.

Definition delete_history (userId sessionId : option string) : Lobby DeleteResponse :=
  if falsy userId then lret DeleteUnauthorized
  else if falsy sessionId then lret DeleteBadRequest
  else
    let userId := default "" userId in
    let sessionId := default "" sessionId in
    lcatch
      (sessionRow <~ select_owned sessionId userId ;;
       if negb sessionRow then lret DeleteNotFound
       else
         sql_begin ;;>
         changes <~ delete_session sessionId userId ;;
         sql_commit ;;>
         if 0 <? changes then lret Deleted else lret DeleteNothing)
      (fun _ => rollback_quietly ;;> lret DeleteFailed).

(** No transaction is open. *)
Definition idle (s : Site) : Prop := txn (site_world s) = None /\ site_txn s = None.

(** The site between BEGIN and the first write. *)
Definition opened (s : Site) : Site :=
  mkSite (set_db (site_world s) (db (site_world s)) (Some (db (site_world s)))) (owners s) (invites s)
    (Some (owners s, invites s)).

(** The site after a successful join. *)
Definition joined (s : Site) (row : PlayerRow) (st : SessionState) : Site :=
  mkSite
    (add_log
       (set_db (site_world s)
          (mkDb (sessions (db (site_world s))) (session_players (db (site_world s)) ++ [row])
             (turns (db (site_world s)))) None)
       (Emitted (p_session_id row) st))
    (owners s) (invites s) None.

(** ** Roster invariants *)

(** The seats of a session are numbered 0, 1, ..., n-1. *)
Definition seats_ok (d : Db) (sid : string) : Prop :=
  player_index <$> roster d sid ≡ₚ Z.of_nat <$> seq 0 (length (roster d sid)).

(** A multiplayer session holds at most [max_players] players. *)
Definition within_capacity (d : Db) (sid : string) : Prop :=
  forall session,
    sessions d !! sid = Some session -> truthy (is_multiplayer session) = true ->
    Z.of_nat (length (roster d sid)) <= js_num (max_players session).

(** Nobody sits twice in a session. *)
Definition one_seat_each (d : Db) (sid : string) : Prop :=
  NoDup (user_id <$> roster d sid).

(** *** A lobby to try the routes on *)

Definition db_open : Db := mkDb {[ "S" := party ]} [seat "u0" 0; seat "u1" 1] [opening].

Definition lobby (d : Db) : Site :=
  mkSite (world d ["u0"] [] []) {[ "S" := "u0" ]} {[ "INV-1A2B3C4D" := "S" ]} None.

Definition newcomer : JoinRequest :=
  mkJoin (Some "INV-1A2B3C4D") (Some "Mira") (Some "she") None (Some "u9").

(** The site after the creator deleted session [sid]. *)
Definition without (s : Site) (sid : string) : Site :=
  mkSite (set_db (site_world s) (delete_rows (db (site_world s)) sid) None)
    (delete sid (owners s)) (filter (fun kv => kv.2 <> sid) (invites s)) None.

(** *** POST /api/game/start *)

Record StartRequest : Type := mkStart {
  s_theme : option string;
  s_characterName : option string;
  s_characterGender : option string;
  s_characterImageUrl : option string;
  (** [!!isMultiplayer] *)
  s_isMultiplayer : bool;
  (** [parseInt(maxPlayers, 10)]; [None] is NaN. *)
  s_maxPlayers : option Z;
  s_userId : option string
}.

(** [currentTurn] of the 201 payload ([actionTaken] is always null). *)
Record TurnView : Type := mkView {
  v_turnIndex : Z;
  v_scenarioText : string;
  v_imageUrl : string;
  v_imagePrompt : string;
  v_suggestedActions : list string;
  v_timeOfDay : string;
  v_isSameLocation : bool;
  v_characters : list json
}.

Inductive StartResponse : Type :=
| StartBadRequest (error : string)
| StartUnauthorized
| Started (sessionId : string) (currentTurn : TurnView) (inviteCode : option string)
| StartFailed (e : LobbyExn).

Definition start_status (r : StartResponse) : Z :=
  match r with
  | StartBadRequest _ => 400
  | StartUnauthorized => 401
  | Started _ _ _ => 201
  | StartFailed _ => 500
  end.

(** [!v] for a parsed JSON value. *)
Definition json_falsy (v : option json) : bool :=
  match v with
  | None => true
  | Some JNull => true
  | Some (JBool b) => negb b
  | Some (JNum n) => n =? 0
  | Some (JStr s) => String.eqb s ""
  | Some (JArr _) => false
  | Some (JObj _) => false
  end.

(** [parseInt(maxPlayers, 10) || 4] *)
Definition or_four (parsed : option Z) : Z :=
  match parsed with
  | None => 4
  | Some n => if n =? 0 then 4 else n
  end.

Definition to_upper (c : ascii) : ascii :=
  let n := nat_of_ascii c in
  if Nat.leb 97 n && Nat.leb n 122 then ascii_of_nat (n - 32) else c.

(** [toUpperCase] on the characters a uuid is made of. *)
Fixpoint toUpperCase (s : string) : string :=
  match s with
  | EmptyString => EmptyString
  | String c rest => String (to_upper c) (toUpperCase rest)
  end.

Definition invite_of (uuid : string) : string :=
  "INV-" +:+ toUpperCase (substring 0 8 uuid).

Definition initialUserInstruction (isGameMultiplayer : bool)
    (theme characterName characterGender : string) : string :=
  if isGameMultiplayer
  then "Start a new game in the " +:+ theme +:+ " genre for character " +:+ characterName
       +:+ " (" +:+ characterGender
       +:+ "). There will be additional player characters in this player's party, which will be provided to you shortly, do not mention them for now. Generate the initial scenario, goal, and prerequisites."
  else "Start a new game in the " +:+ theme +:+ " genre for character " +:+ characterName
       +:+ " (" +:+ characterGender
       +:+ "). This will be the only player character in the game. Generate the initial scenario, goal, and prerequisites.".

(** The switch on ACTIVE_IMAGE_PROVIDER of the start route. *)
Definition initial_image (cfg : Config) (image_prompt : string) : Prog string :=
  if String.eqb (ACTIVE_IMAGE_PROVIDER cfg) "google" then
    generateImageWithImagen cfg image_prompt None
  else if String.eqb (ACTIVE_IMAGE_PROVIDER cfg) "google-flash" then
    generateImageWithGoogleFlash image_prompt None
  else if String.eqb (ACTIVE_IMAGE_PROVIDER cfg) "openai" then
    generateImageWithOpenAI image_prompt
  else Throw InvalidImageProvider.

(** INSERT INTO sessions: the primary key and the UNIQUE invite_code are
    checked; last_updated_at is datetime("now"). *)
Definition insert_session (sid uid : string) (row : SessionRow)
    (inviteCode : option string) : Lobby unit :=
  fun s =>
    let w := site_world s in
    match sessions (db w) !! sid with
    | Some _ => (inl SqlConstraintSessionId, s)
    | None =>
        match inviteCode ≫= fun code => invites s !! code with
        | Some _ => (inl SqlConstraintInviteCode, s)
        | None =>
            (inr tt,
             mkSite
               (set_db w
                  (mkDb (<[sid := mkSession (theme row) (is_multiplayer row)
                                    (max_players row) (current_player_index row)
                                    (game_goal row) (goal_prerequisites row)
                                    (met_prerequisites row) (is_goal_met row) (clock w)]>
                           (sessions (db w)))
                     (session_players (db w)) (turns (db w)))
                  (txn w))
               (<[sid := uid]> (owners s))
               (match inviteCode with
                | Some code => <[code := sid]> (invites s)
                | None => invites s
                end)
               (site_txn s))
        end
    end.

(** The body of the route's try block.  The prompt has no history and no
    goal context; it lists the creator as the only, acting player and
    carries the instruction where a later turn carries the action. *)
Definition start_body (cfg : Config) (INITIAL_GOOGLE_MODEL : string)
    (theme characterName characterGender : string) (characterImageUrl : option string)
    (userId : string) (isGameMultiplayer : bool) (gameMaxPlayers : Z)
    (sessionId turnId : string) (inviteCode : option string) : Lobby StartResponse :=
  let promptForLLM :=
    mkPrompt []
      [(mkPlayer sessionId userId 0 characterName characterGender
          (or_null characterImageUrl), true)]
      None
      (initialUserInstruction isGameMultiplayer theme characterName characterGender) in
  initialTurnData <~ lift (callLLM cfg promptForLLM 3 true
                             (Some (INITIAL_LLM_PROVIDER cfg))
                             (Some INITIAL_GOOGLE_MODEL)) ;;
  let gameGoal := prop initialTurnData "game_goal" in
  let goalPrerequisites :=
    if json_falsy (prop initialTurnData "goal_prerequisites") then Some (JArr [])
    else prop initialTurnData "goal_prerequisites" in
  if json_falsy gameGoal || negb (is_string gameGoal) || is_blank (as_string gameGoal)
     || negb (is_array_of (fun _ => true) goalPrerequisites)
  then lthrow InvalidGoalData
  else
    imageUrl <~ lift (initial_image cfg (as_string (prop initialTurnData "image_prompt"))) ;;
    sql_begin ;;>
    insert_session sessionId userId
      (mkSession theme (if isGameMultiplayer then 1 else 0)
         (if isGameMultiplayer then Some gameMaxPlayers else None)
         (if isGameMultiplayer then Some 0 else None)
         (Some (as_string gameGoal))
         (Some (map json_string (as_array goalPrerequisites)))
         (Some []) 0 0)
      inviteCode ;;>
    insert_player_row
      (mkPlayer sessionId userId 0 characterName characterGender
         (or_null characterImageUrl)) ;;>
    lift (await_or_throw
            (InsertTurn
               (mkTurn turnId sessionId 0
                  (as_string (prop initialTurnData "narrative"))
                  imageUrl
                  (as_string (prop initialTurnData "image_prompt"))
                  (map json_string (as_array (prop initialTurnData "suggested_actions")))
                  None
                  (as_string (prop initialTurnData "timeOfDay"))
                  (if as_bool (prop initialTurnData "isSameLocation") then 1 else 0)
                  (as_array (prop initialTurnData "characters"))
                  None None 0))) ;;>
    sql_commit ;;>
    lret (Started sessionId
            (mkView 0 (as_string (prop initialTurnData "narrative")) imageUrl
               (as_string (prop initialTurnData "image_prompt"))
               (map json_string (as_array (prop initialTurnData "suggested_actions")))
               (as_string (prop initialTurnData "timeOfDay"))
               (as_bool (prop initialTurnData "isSameLocation"))
               (as_array (prop initialTurnData "characters")))
            inviteCode).

Definition post_start (cfg : Config) (INITIAL_GOOGLE_MODEL : string)
    (req : StartRequest) : Lobby StartResponse :=
  if falsy (s_theme req) then lret (StartBadRequest "Theme is required.")
  else if falsy (s_characterName req)
  then lret (StartBadRequest "Character name is required.")
  else if falsy (s_characterGender req)
  then lret (StartBadRequest "Character gender is required.")
  else if falsy (s_userId req) then lret StartUnauthorized
  else
    let isGameMultiplayer := s_isMultiplayer req in
    let gameMaxPlayers := if isGameMultiplayer then or_four (s_maxPlayers req) else 1 in
    if isGameMultiplayer && ((gameMaxPlayers <? 2) || (8 <? gameMaxPlayers))
    then lret (StartBadRequest "Multiplayer games must have between 2 and 8 players.")
    else
      sessionId <~ lift (await Uuid) ;;
      turnId <~ lift (await Uuid) ;;
      inviteCode <~ (if isGameMultiplayer
                     then uuid <~ lift (await Uuid) ;; lret (Some (invite_of uuid))
                     else lret None) ;;
      lcatch
        (start_body cfg INITIAL_GOOGLE_MODEL (default "" (s_theme req))
           (default "" (s_characterName req)) (default "" (s_characterGender req))
           (s_characterImageUrl req) (default "" (s_userId req))
           isGameMultiplayer gameMaxPlayers sessionId turnId inviteCode)
        (fun error => rollback_quietly ;;> lret (StartFailed error)).

(** What the calls to the generator, to the image service and to uuidv4
    leave alone. *)
Definition store_kept (w w' : World) : Prop :=
  db w' = db w /\ txn w' = txn w /\ sessionSockets w' = sessionSockets w.

(** The site after the three rows of a new session are committed. *)
Definition founded (s : Site) (sid uid : string) (row : SessionRow)
    (inviteCode : option string) (creator : PlayerRow) (turn0 : TurnRow) : Site :=
  let w := site_world s in
  mkSite
    (set_db w
       (mkDb (<[sid := mkSession (theme row) (is_multiplayer row) (max_players row)
                         (current_player_index row) (game_goal row)
                         (goal_prerequisites row) (met_prerequisites row)
                         (is_goal_met row) (clock w)]> (sessions (db w)))
          (session_players (db w) ++ [creator])
          (turns (db w) ++ [stamp turn0 (clock w)]))
       None)
    (<[sid := uid]> (owners s))
    (match inviteCode with
     | Some code => <[code := sid]> (invites s)
     | None => invites s
     end)
    None.

(** Every row of session_players and of turns belongs to a session (the
    two foreign keys with ON DELETE CASCADE). *)
Definition no_orphans (d : Db) : Prop :=
  (forall p, p ∈ session_players d -> is_Some (sessions d !! p_session_id p))
  /\ (forall t, t ∈ turns d -> is_Some (sessions d !! t_session_id t)).

(** On a multiplayer session the turn pointer is the index of a seat. *)
Definition pointer_ok (d : Db) (sid : string) : Prop :=
  forall session,
    sessions d !! sid = Some session -> truthy (is_multiplayer session) = true ->
    exists p, p ∈ roster d sid /\ current_player_index session = Some (player_index p).

(** *** POST /api/images/generate/character *)

(** [s.trimStart()]: the white space in front is taken off one code point
    at a time, by the tests [is_blank] uses. *)
Fixpoint trim_start (s : string) : string :=
  match s with
  | EmptyString => EmptyString
  | String c1 s1 =>
      if is_space c1 then trim_start s1
      else
        match s1 with
        | EmptyString => s
        | String c2 s2 =>
            if is_space2 c1 c2 then trim_start s2
            else
              match s2 with
              | EmptyString => s
              | String c3 s3 => if is_space3 c1 c2 c3 then trim_start s3 else s
              end
        end
  end.

(** [s.trimEnd()]: the string is cut where what remains is white space
    only.  In a well-formed encoding no code point but a white one ends
    with the bytes of white space, so the cut falls between code points. *)
Fixpoint trim_end (s : string) : string :=
  match s with
  | EmptyString => EmptyString
  | String c rest => if is_blank s then EmptyString else String c (trim_end rest)
  end.

(** [s.trim()] *)
Definition trim (s : string) : string := trim_end (trim_start s).


Section Portraits.

(** [String.prototype.toLowerCase] is the lower-case mapping of Unicode.
    Its tables are not reproduced: the route is embedded for any function
    on strings in its place, and nothing below depends on which. *)
Variable toLowerCase : string -> string.

(** The switch on [theme?.toLowerCase()]. *)
Definition styleKeywords (theme : string) : string :=
  let t := toLowerCase theme in
  if String.eqb t "fantasy"
  then "fantasy art, digital painting, detailed illustration, character portrait"
  else if String.eqb t "sci-fi"
  then "sci-fi art, futuristic, detailed concept art, character portrait"
  else if String.eqb t "cyberpunk noir"
  then "cyberpunk art, noir film style, neon lighting, rain, character portrait"
  else if String.eqb t "mystery"
  then "photorealistic, dramatic lighting, suspenseful, character portrait"
  else if String.eqb t "horror"
  then "horror art, dark fantasy, atmospheric, unsettling, character portrait"
  else if String.eqb t "western"
  then "western art, realistic painting, dusty, character portrait"
  else "digital painting, detailed, character concept art".

Definition generateCharacterPrompt (theme name gender : string)
    (description : option string) : string :=
  let prompt :=
    gender +:+ " character named " +:+ name +:+ ", " +:+ theme +:+ ". "
    +:+ styleKeywords theme +:+ "." in
  if negb (falsy description) && negb (String.eqb (trim (default "" description)) "")
  then prompt +:+ " Additional details: " +:+ trim (default "" description) +:+ "."
  else prompt.


End Portraits.

(** What toLowerCase does to a string of ASCII characters; it stands for
    the mapping in the concrete runs. *)
Definition to_lower (c : ascii) : ascii :=
  let n := nat_of_ascii c in
  if Nat.leb 65 n && Nat.leb n 90 then ascii_of_nat (n + 32) else c.

Fixpoint lower_ascii (s : string) : string :=
  match s with
  | EmptyString => EmptyString
  | String c rest => String (to_lower c) (lower_ascii rest)
  end.

(** U+00A0, the no-break space. *)
Definition nbsp : string := String "194"%char (String "160"%char EmptyString).

(** Whether [f] holds of every byte of [s]. *)
Fixpoint every_byte (f : ascii -> bool) (s : string) : bool :=
  match s with
  | EmptyString => true
  | String c rest => f c && every_byte f rest
  end.

(** The bytes white space is encoded with: the six ASCII ones and bytes
    above 127. *)
Definition white_byte (c : ascii) : bool :=
  is_space c || Nat.leb 128 (nat_of_ascii c).

(** A generator reply for a first turn. *)
Definition first_reply : json :=
  JObj [("narrative", JStr "You wake in a cellar."); ("image_prompt", JStr "a cellar");
        ("suggested_actions", JArr [JStr "look"; JStr "shout"]); ("timeOfDay", JStr "night");
        ("isSameLocation", JBool false); ("characters", JArr []);
        ("game_goal", JStr "Find the crown");
        ("goal_prerequisites", JArr [JStr "find the key"; JStr "open the vault"])].

(** An empty store with three identifiers to hand out. *)
Definition vacant : Site :=
  mkSite (mkWorld (mkDb ∅ [] []) None ∅ [ReplyText (Some first_reply)] [ImageData "AAAA"]
            ["s-1"; "t-1"; "1a2b3c4d-0000"] 100 [])
    ∅ ∅ None.

Definition founder : StartRequest :=
  mkStart (Some "Fantasy") (Some "Mira") (Some "she") None true None (Some "u9").

(** ** Tactics *)

(** Closes a goal about a failure inside the transaction: the inner
    catch block rolls back and rethrows. *)
Ltac rolled_back Hfail :=
  match goal with
  | |- exists w' r, run (await_or_throw SqlRollback ;;; Throw ?e) ?w2 = (r, w') /\ _ =>
      let w' := fresh "w'" in
      let r := fresh "r" in
      let Hrun := fresh "Hrun" in
      let Ht := fresh "Ht" in
      let Hleft := fresh "Hleft" in
      destruct (Hfail e w2) as (w' & r & Hrun & Ht & Hleft);
      [ | | exists w', r; (split; [exact Hrun |]); (split; [exact Ht |]);
            left; exact Hleft ]
  end.

(** Runs the sample request of user [u] at index 0 in world [w] to its
    new-turn answer. *)
Ltac run_to_update u w st H :=
  assert (exists st', submitAction cfg_imagen (request u 0) w
                      = (inr (Updated st'), (submitAction cfg_imagen (request u 0) w).2))
    as [st H] by (eexists; vm_compute; reflexivity).

(** * Properties *)

(** ** The two interpreters of a handler *)

Lemma run_bind {A B : Type} (p : Prog A) (f : A -> Prog B) (w : World) :
  run (bind p f) w =
  match run p w with
  | (inl e, w') => (inl e, w')
  | (inr a, w') => run (f a) w'
  end.
Proof.
  revert w. induction p as [a | e | X op k IH]; intros w; simpl; try reflexivity.
  destruct (exec op w) as [x w']. apply IH.
Qed.

Lemma run_try_catch {A : Type} (p : Prog A) (h : Exn -> Prog A) (w : World) :
  run (try_catch p h) w =
  match run p w with
  | (inl e, w') => run (h e) w'
  | (inr a, w') => (inr a, w')
  end.
Proof.
  revert w. induction p as [a | e | X op k IH]; intros w; simpl; try reflexivity.
  destruct (exec op w) as [x w']. apply IH.
Qed.

Lemma calls_app (l1 l2 : list Event) : calls (l1 ++ l2) = (calls l1 + calls l2)%nat.
Proof.
  induction l1 as [| e l1 IH]; simpl; [reflexivity |].
  destruct (is_request e); simpl; rewrite IH; reflexivity.
Qed.

Lemma same_store_refl w : same_store w w.
Proof. repeat split. Qed.

(** ** callLLM *)

Lemma exec_provider_call (provider : string) (p : Prompt) (w : World) :
  exec (ProviderCall provider p) w =
  (nth 0 (provider_replies w) ReplyThrows,
   mkWorld (db w) (txn w) (sessionSockets w) (tail (provider_replies w))
     (image_replies w) (uuids w) (clock w) (log w ++ [Requested provider p])).
Proof. destruct w as [d t s pr ir u c l]. destruct pr; reflexivity. Qed.

Lemma nth_tail {A : Type} (l : list A) (i : nat) (d : A) :
  nth i (tail l) d = nth (S i) l d.
Proof. destruct l; simpl; [destruct i |]; reflexivity. Qed.

Lemma attempt_events_step provider p n attempt :
  (1 <= n)%nat ->
  attempt_events provider p (S n) attempt =
  Requested provider p :: Slept (500 * attempt)
    :: attempt_events provider p n (attempt + 1).
Proof. destruct n; [lia | reflexivity]. Qed.

Lemma llm_attempts_run (provider : string) (p : Prompt) (maxRetries : Z) :
  known_provider provider = true ->
  forall (remaining : nat) (attempt : Z) (w : World),
    attempt + Z.of_nat remaining = maxRetries + 1 ->
    exists (n : nat) (w' : World) (r : Exn + json),
      run (llm_attempts provider p false maxRetries remaining attempt) w = (r, w')
      /\ (n <= remaining)%nat
      /\ log w' = log w ++ attempt_events provider p n attempt
      /\ same_store w w'
      /\ image_replies w' = image_replies w
      /\ (forall i, (S i < n)%nat -> reply_at w i = None)
      /\ ((exists j, r = inr j /\ (1 <= n)%nat /\ reply_at w (n - 1) = Some j)
          \/ (r = inl (LlmFailedAfterRetries maxRetries) /\ n = remaining
              /\ forall i, (i < n)%nat -> reply_at w i = None)).
Proof.
  intros Hk. induction remaining as [| remaining IH]; intros attempt w Hsum.
  - exists 0%nat, w, (inl (LlmFailedAfterRetries maxRetries)). simpl.
    rewrite app_nil_r. repeat split; try lia; try (intros; lia).
    right. repeat split. intros; lia.
  - cbn [llm_attempts]. rewrite Hk. cbn [bind await run].
    rewrite exec_provider_call.
    set (w1 := mkWorld _ _ _ _ _ _ _ _).
    destruct (checked false (nth 0 (provider_replies w) ReplyThrows)) as [j |] eqn:Hc.
    + exists 1%nat, w1, (inr j). simpl. repeat split; try lia; try (intros; lia).
      left. exists j. repeat split; [lia | exact Hc].
    + destruct (attempt <? maxRetries) eqn:Hlt.
      * apply Z.ltb_lt in Hlt.
        cbn [bind await run exec].
        set (w2 := add_log (advance_clock w1 (500 * attempt)) (Slept (500 * attempt))).
        destruct (IH (attempt + 1) w2 ltac:(lia)) as (n & w' & r & Hrun & Hn & Hlog & Hst & Him & Hnone & Hres).
        assert (Hat : forall i, reply_at w2 i = reply_at w (S i)).
        { intros i. unfold reply_at. simpl. rewrite nth_tail. reflexivity. }
        assert (Hn1 : (1 <= n)%nat).
        { destruct Hres as [(j & _ & ? & _) | (_ & -> & _)]; lia. }
        exists (S n), w', r. rewrite Hrun. split; [reflexivity |].
        split; [lia |]. split.
        { rewrite Hlog. rewrite attempt_events_step by exact Hn1. simpl.
          rewrite <- !app_assoc. reflexivity. }
        split. { destruct Hst as (a & b & c & d). repeat split; assumption. }
        split. { exact Him. }
        split.
        { intros [| i] Hi; [exact Hc |]. rewrite <- Hat. apply Hnone. lia. }
        destruct Hres as [(j & -> & Hj1 & Hj) | (-> & -> & Hall)].
        -- left. exists j. repeat split; [lia |].
           rewrite Hat in Hj. replace (S n - 1)%nat with (S (n - 1)) by lia. exact Hj.
        -- right. repeat split. intros [| i] Hi; [exact Hc |].
           rewrite <- Hat. apply Hall. lia.
      * apply Z.ltb_ge in Hlt. assert (remaining = 0%nat) as -> by lia.
        simpl. exists 1%nat, w1, (inl (LlmFailedAfterRetries maxRetries)).
        simpl. repeat split; try lia; try (intros; lia).
        right. repeat split. intros [| i] Hi; [exact Hc | lia].
Qed.

(** After the first turn every model the switch reads is declared: the
    call fails at once for an unknown provider only. *)
Lemma callLLM_later (cfg : Config) (p : Prompt) (maxRetries : Z) :
  callLLM cfg p maxRetries false None None
  = if known_provider (ACTIVE_LLM_PROVIDER cfg)
    then llm_attempts (ACTIVE_LLM_PROVIDER cfg) p false maxRetries
           (Z.to_nat maxRetries) 1
    else Throw InvalidLlmProvider.
Proof.
  unfold callLLM, default_model, known_provider. cbn [falsy].
  destruct (String.eqb (ACTIVE_LLM_PROVIDER cfg) "openai"); [reflexivity |].
  destruct (String.eqb (ACTIVE_LLM_PROVIDER cfg) "google"); [reflexivity |].
  destruct (String.eqb (ACTIVE_LLM_PROVIDER cfg) "anthropic"); reflexivity.
Qed.

Lemma callLLM_run (cfg : Config) (p : Prompt) (w : World) :
  known_provider (ACTIVE_LLM_PROVIDER cfg) = true ->
  exists (n : nat) (w' : World) (r : Exn + json),
    run (callLLM cfg p 3 false None None) w = (r, w')
    /\ (1 <= n <= 3)%nat
    /\ log w' = log w ++ attempt_events (ACTIVE_LLM_PROVIDER cfg) p n 1
    /\ same_store w w'
    /\ image_replies w' = image_replies w
    /\ (forall i, (S i < n)%nat -> reply_at w i = None)
    /\ ((exists j, r = inr j /\ reply_at w (n - 1) = Some j)
        \/ (r = inl (LlmFailedAfterRetries 3) /\ n = 3%nat
            /\ forall i, (i < 3)%nat -> reply_at w i = None)).
Proof.
  intros Hk. rewrite callLLM_later, Hk.
  destruct (llm_attempts_run (ACTIVE_LLM_PROVIDER cfg) p 3 Hk (Z.to_nat 3) 1 w ltac:(reflexivity))
    as (n & w' & r & Hrun & Hn & Hlog & Hst & Him & Hnone & Hres).
  change (Z.to_nat 3) with 3%nat in *.
  exists n, w', r.
  split; [exact Hrun |]. split.
  { destruct Hres as [(j & _ & ? & _) | (_ & -> & _)]; lia. }
  split; [exact Hlog |]. split; [exact Hst |]. split; [exact Him |].
  split; [exact Hnone |].
  destruct Hres as [(j & -> & ? & Hj) | (-> & -> & Hall)].
  - left. eauto.
  - right. repeat split. exact Hall.
Qed.

(** ** The image helpers *)

Lemma exec_image_call (provider prompt : string) (previous : option string) (w : World) :
  exec (ImageCall provider prompt previous) w =
  (nth 0 (image_replies w) ImageThrows,
   mkWorld (db w) (txn w) (sessionSockets w) (provider_replies w)
     (tail (image_replies w)) (uuids w) (clock w)
     (log w ++ [ImageRequested provider prompt])).
Proof. destruct w as [d t s pr ir u c l]. destruct ir; reflexivity. Qed.

Lemma image_frame_refl w : image_frame w w.
Proof. repeat split. Qed.

Lemma image_frame_call (provider prompt : string) (previous : option string) (w : World) :
  image_frame w (exec (ImageCall provider prompt previous) w).2.
Proof.
  rewrite exec_image_call. repeat split. simpl. rewrite calls_app. simpl. lia.
Qed.

Lemma image_run (cfg : Config) (turnData : json) (b64 : option string) (w : World) :
  exists (w' : World) (r : Exn + string),
    run (generateImageWithAppropriateProvider cfg turnData b64) w = (r, w')
    /\ image_frame w w'.
Proof.
  unfold generateImageWithAppropriateProvider, generateImageWithImagen,
    generateImageWithGoogleFlash, generateImageWithOpenAI.
  repeat match goal with
  | |- context [if ?b then _ else _] => destruct b
  end;
  cbn [run bind await];
  try (eexists _, _; split; [reflexivity | apply image_frame_refl]);
  match goal with
  | |- context [exec (ImageCall ?a ?b ?c) w] =>
      pose proof (image_frame_call a b c w) as Hf;
      destruct (exec (ImageCall a b c) w) as [reply w1]
  end;
  destruct reply; cbn [run];
  repeat match goal with
  | |- context [if ?b then _ else _] => destruct b
  end; cbn [run];
  eexists _, _; (split; [reflexivity | exact Hf]).
Qed.

(** ** The two branches of the handler *)

Lemma state_run (sid : string) (w : World) :
  run (getFullSessionState sid) w = (inr (state_of (db w) sid), w).
Proof.
  unfold getFullSessionState, state_of. cbn [run bind await exec].
  destruct (sessions (db w) !! sid); reflexivity.
Qed.

Lemma accepted_reply_intro (w : World) (n : nat) (j : json) :
  (1 <= n <= 3)%nat ->
  (forall i, (S i < n)%nat -> reply_at w i = None) ->
  reply_at w (n - 1) = Some j ->
  accepted_reply w = Some j.
Proof.
  intros Hn Hnone Hj. unfold accepted_reply.
  destruct n as [| [| [| [| n]]]]; try lia; simpl in Hj.
  - rewrite Hj. reflexivity.
  - rewrite (Hnone 0%nat) by lia. rewrite Hj. reflexivity.
  - rewrite (Hnone 0%nat), (Hnone 1%nat) by lia. exact Hj.
Qed.

Lemma process_action_run (cfg : Config) (sid : string) (s : SessionRow)
    (players : list PlayerRow) (rp : PlayerRow) (uid act : string)
    (src : option Z) (w : World) :
  txn w = None -> sessions (db w) !! sid = Some s ->
  exists (w' : World) (r : Exn + Response),
    run (process_action cfg sid s players rp uid act src) w = (r, w')
    /\ txn w' = None
    /\ ((exists e, r = inl e /\ db w' = db w
           /\ (log w' = log w
               \/ (e = LlmFailedAfterRetries 3
                   /\ forall i, (i < 3)%nat -> reply_at w i = None)
               \/ (exists j, accepted_reply w = Some j)))
        \/ (exists n j st row t1 t2 d1,
              r = inr (Updated st) /\ src = Some n
              /\ out_of_range src (default (-1) (select_max_turn (db w) sid)) = false
              /\ accepted_reply w = Some j
              /\ t_session_id row = sid /\ turn_index row = n + 1
              /\ insert_turn (db w) row t1 = inr d1
              /\ db w' = update_session_after_turn d1 sid (next_player s players)
                           (reported_met j) (final_goal s j) t2
              /\ state_of (db w') sid = Some st)).
Proof.
  intros Htxn Hs. unfold process_action.
  rewrite run_bind. cbn [await_or_throw run exec]. rewrite Htxn. cbn [run].
  set (w1 := set_db w (db w) (Some (db w))).
  rewrite run_try_catch.
  cbn [run bind await exec].
  change (db w1) with (db w).
  (* every failure inside the transaction is rolled back *)
  assert (Hfail : forall (e : Exn) (w2 : World),
             txn w2 = Some (db w) ->
             (log w2 = log w
              \/ (e = LlmFailedAfterRetries 3
                  /\ forall i, (i < 3)%nat -> reply_at w i = None)
              \/ (exists j, accepted_reply w = Some j)) ->
             exists (w' : World) (r : Exn + Response),
               run (await_or_throw SqlRollback ;;; Throw e) w2 = (r, w')
               /\ txn w' = None
               /\ (exists e', r = inl e' /\ db w' = db w
                      /\ (log w' = log w
                          \/ (e' = LlmFailedAfterRetries 3
                              /\ forall i, (i < 3)%nat -> reply_at w i = None)
                          \/ (exists j, accepted_reply w = Some j)))).
  { intros e w2 Ht Hlog. cbn [bind await_or_throw run exec]. rewrite Ht. cbn [run].
    eexists _, _. split; [reflexivity |]. split; [reflexivity |].
    exists e. split; [reflexivity |]. split; [reflexivity |]. exact Hlog. }
  destruct (out_of_range src (default (-1) (select_max_turn (db w) sid))) eqn:Hrange.
  { cbn [run]. rolled_back Hfail; [reflexivity | left; reflexivity]. }
  cbn [run exec]. change (db w1) with (db w).
  destruct src as [n |]; [| cbn [run]; rolled_back Hfail; [reflexivity | left; reflexivity]].
  destruct (select_history_up_to (db w) sid (Some n)) as [| h0 hrest] eqn:Hhist;
    [cbn [run]; rolled_back Hfail; [reflexivity | left; reflexivity] |].
  cbn [run exec]. change (db w1) with (db w).
  rewrite run_bind.
  destruct (known_provider (ACTIVE_LLM_PROVIDER cfg)) eqn:Hk.
  2:{ rewrite callLLM_later, Hk. cbn [run].
      rolled_back Hfail; [reflexivity | left; reflexivity]. }
  match goal with
  | |- context [run (callLLM cfg ?p 3 false None None) w1] =>
      destruct (callLLM_run cfg p w1 Hk)
        as (k & w2 & r2 & -> & Hk13 & Hlog2 & (Hdb2 & Htx2 & Hso2 & Huu2) & Him2 & Hnone & Hres)
  end.
  destruct Hres as [(j & -> & Hj) | (-> & -> & Hall)].
  2:{ rolled_back Hfail; [rewrite Htx2; reflexivity |]. right. left. split; [reflexivity | exact Hall]. }
  assert (Hacc : accepted_reply w = Some j).
  { apply (accepted_reply_intro w1 k j Hk13 Hnone Hj). }
  rewrite run_bind.
  match goal with
  | |- context [run (generateImageWithAppropriateProvider cfg j ?b) w2] =>
      destruct (image_run cfg j b w2)
        as (w3 & r3 & -> & (Hdb3 & Htx3 & Hso3 & Huu3 & Hck3 & Hcalls3))
  end.
  assert (Htx3' : txn w3 = Some (db w)) by (rewrite Htx3, Htx2; reflexivity).
  assert (Hdb3' : db w3 = db w) by (rewrite Hdb3, Hdb2; reflexivity).
  destruct r3 as [e3 | newImageUrl].
  { rolled_back Hfail; [exact Htx3' | right; right; eauto]. }
  cbn [run exec].
  set (newTurnId := match uuids w3 with [] => "" | u :: _ => u end).
  set (w4 := match uuids w3 with [] => w3 | _ :: rest => set_uuids w3 rest end).
  assert (Hw4 : db w4 = db w /\ txn w4 = Some (db w)).
  { subst w4. destruct (uuids w3); simpl; split; assumption. }
  destruct Hw4 as [Hdb4 Htx4].
  replace (match uuids w3 with [] => ("", w3) | u :: rest => (u, set_uuids w3 rest) end)
    with (newTurnId, w4) by (subst newTurnId w4; destruct (uuids w3); reflexivity).
  rewrite run_bind. cbn [await_or_throw run exec].
  rewrite Hdb4.
  match goal with
  | |- context [insert_turn (db w) ?row (clock w4)] =>
      set (newRow := row)
  end.
  destruct (insert_turn (db w) newRow (clock w4)) as [e5 | d1] eqn:Hins.
  { cbn [run]. rolled_back Hfail; [exact Htx4 | right; right; eauto]. }
  cbn [run bind await exec set_db txn db].
  rewrite Htx4. rewrite run_bind. cbn [await_or_throw run exec txn set_db].
  rewrite run_bind, state_run. cbn [db set_db clock].
  set (dfin := update_session_after_turn d1 sid _ _ _ _).
  assert (Hsess : sessions d1 = sessions (db w)).
  { unfold insert_turn in Hins.
    destruct (turn_id_taken (db w) newRow); [discriminate |].
    destruct (turn_index_taken (db w) newRow); [discriminate |].
    injection Hins as <-. reflexivity. }
  assert (Hst : exists st, state_of dfin sid = Some st).
  { unfold state_of, dfin, update_session_after_turn. cbn [sessions].
    rewrite lookup_alter_eq, Hsess, Hs. cbn. eauto. }
  destruct Hst as [st Hst]. rewrite Hst. cbn [run exec].
  eexists _, _. split; [reflexivity |]. split; [reflexivity |].
  right. exists n, j, st, newRow, (clock w4), (clock w4), d1.
  split; [reflexivity |]. split; [reflexivity |]. split; [reflexivity |].
  split; [exact Hacc |]. split; [reflexivity |]. split; [reflexivity |].
  split; [exact Hins |]. split; [| exact Hst].
  reflexivity.
Qed.

Lemma insert_turn_inr (d d1 : Db) (row : TurnRow) (now : Z) :
  insert_turn d row now = inr d1 ->
  turn_index_taken d row = false
  /\ d1 = mkDb (sessions d) (session_players d) (turns d ++ [stamp row now]).
Proof.
  unfold insert_turn. destruct (turn_id_taken d row); [discriminate |].
  destruct (turn_index_taken d row); [discriminate |].
  intros [= <-]. split; reflexivity.
Qed.

Lemma skip_turn_run (sid : string) (s : SessionRow) (players : list PlayerRow)
    (w : World) :
  txn w = None -> sessions (db w) !! sid = Some s ->
  (scan_from w sid s players = -1 ->
   run (skip_turn sid s players) w = (inr NoActivePlayers, w))
  /\ (scan_from w sid s players <> -1 ->
      exists st,
        state_of (update_session_index (db w) sid (scan_from w sid s players) (clock w)) sid
        = Some st
        /\ run (skip_turn sid s players) w
           = (inr (TurnSkipped st),
              add_log (set_db w (update_session_index (db w) sid
                                   (scan_from w sid s players) (clock w)) None)
                (Emitted sid st))).
Proof.
  intros Htxn Hs. unfold skip_turn, scan_from.
  rewrite run_bind. cbn [await_or_throw run exec]. rewrite Htxn. cbn [run].
  rewrite run_try_catch. cbn [run bind await exec set_db sessionSockets].
  set (next := skip_scan _ _ _ _ _).
  split; intros Hnext.
  - rewrite Hnext. cbn [Z.eqb negb Pos.eqb]. 
    rewrite run_bind. cbn [await_or_throw run exec txn set_db].
    destruct w as [d t so pr ir u c l]. simpl in Htxn. subst t. reflexivity.
  - apply Z.eqb_neq in Hnext. rewrite Hnext. cbn [negb].
    cbn [run exec]. rewrite run_bind. cbn [await_or_throw run exec txn set_db db clock].
    rewrite run_bind, state_run. cbn [db set_db].
    set (dnew := update_session_index (db w) sid next (clock w)).
    assert (Hst : exists st, state_of dnew sid = Some st).
    { unfold state_of, dnew, update_session_index. cbn [sessions].
      rewrite lookup_alter_eq, Hs. cbn. eauto. }
    destruct Hst as [st Hst]. rewrite Hst. cbn [run exec].
    exists st. split; reflexivity.
Qed.

(** ** Every way a request can end *)

Lemma same_index_Some (a : option Z) (b : Z) :
  same_index a (Some b) = true -> a = Some b.
Proof.
  destruct a as [x |]; simpl; [| discriminate].
  intros H. apply Z.eqb_eq in H. congruence.
Qed.

Lemma submitAction_cases (cfg : Config) (req : Request) (w : World) :
  txn w = None ->
  exists (resp : Response) (w' : World),
    submitAction cfg req w = (inr resp, w') /\ txn w' = None
    /\ ((w' = w /\ (forall st, resp <> Updated st)
         /\ (forall st, resp <> TurnSkipped st) /\ (forall e, resp <> Failed e))
        \/ (exists e, resp = Failed e /\ db w' = db w
              /\ (log w' = log w
                  \/ (e = LlmFailedAfterRetries 3
                      /\ forall i, (i < 3)%nat -> reply_at w i = None)
                  \/ (exists j, accepted_reply w = Some j)))
        \/ (exists sid s st,
              sessionId req = Some sid /\ sessions (db w) !! sid = Some s
              /\ truthy (is_multiplayer s) = true
              /\ scan_from w sid s (select_players (db w) sid) <> -1
              /\ resp = TurnSkipped st
              /\ state_of (db w') sid = Some st
              /\ w' = add_log
                        (set_db w (update_session_index (db w) sid
                                     (scan_from w sid s (select_players (db w) sid))
                                     (clock w)) None)
                        (Emitted sid st))
        \/ (exists sid uid s rp n j st row t1 t2 d1,
              sessionId req = Some sid /\ requestUserId req = Some uid
              /\ turnIndex req = Some (Some n)
              /\ sessions (db w) !! sid = Some s
              /\ requester (db w) sid uid = Some rp
              /\ (truthy (is_multiplayer s) = true ->
                  current_player_index s = Some (player_index rp))
              /\ resp = Updated st
              /\ out_of_range (Some n) (default (-1) (select_max_turn (db w) sid)) = false
              /\ accepted_reply w = Some j
              /\ t_session_id row = sid /\ turn_index row = n + 1
              /\ insert_turn (db w) row t1 = inr d1
              /\ db w' = update_session_after_turn d1 sid
                           (next_player s (select_players (db w) sid))
                           (reported_met j) (final_goal s j) t2
              /\ state_of (db w') sid = Some st)).
Proof.
  intros Htxn. unfold submitAction, post_action.
  assert (Hearly : forall resp : Response,
            (forall st, resp <> Updated st) -> (forall st, resp <> TurnSkipped st) ->
            (forall e, resp <> Failed e) ->
            exists (resp' : Response) (w' : World),
              (@inr Exn Response resp, w) = (inr resp', w') /\ txn w' = None
              /\ ((w' = w /\ (forall st, resp' <> Updated st)
                   /\ (forall st, resp' <> TurnSkipped st) /\ (forall e, resp' <> Failed e))
                  \/ False)).
  { intros resp H1 H2 H3. exists resp, w. split; [reflexivity |]. split; [exact Htxn |].
    left. auto. }
  assert (Hthrown : forall (e : Exn) (w' : World),
            txn w' = None -> db w' = db w ->
            (log w' = log w
             \/ (e = LlmFailedAfterRetries 3
                 /\ forall i, (i < 3)%nat -> reply_at w i = None)
             \/ (exists j, accepted_reply w = Some j)) ->
            exists (resp' : Response) (w'' : World),
              run (Await SqlRollback (fun _ => Ret (Failed e))) w' = (inr resp', w'')
              /\ txn w'' = None
              /\ (False
                  \/ (exists e', resp' = Failed e' /\ db w'' = db w
                        /\ (log w'' = log w
                            \/ (e' = LlmFailedAfterRetries 3
                                /\ forall i, (i < 3)%nat -> reply_at w i = None)
                            \/ (exists j, accepted_reply w = Some j))))).
  { intros e w' Ht Hd Hl. cbn [run exec]. rewrite Ht. cbn [run].
    exists (Failed e), w'. split; [reflexivity |]. split; [exact Ht |].
    right. exists e. auto. }
  destruct (sessionId req) as [sid |] eqn:Hsid;
    [| destruct (Hearly BadRequest) as (r & w' & E & Ht & [H | []]); try discriminate;
       exists r, w'; cbn [run]; auto].
  destruct (action req) as [act |] eqn:Hact;
    [| destruct (Hearly BadRequest) as (r & w' & E & Ht & [H | []]); try discriminate;
       exists r, w'; cbn [run]; auto].
  destruct (turnIndex req) as [src |] eqn:Hsrc;
    [| destruct (Hearly BadRequest) as (r & w' & E & Ht & [H | []]); try discriminate;
       exists r, w'; cbn [run]; auto].
  destruct (String.eqb sid "") eqn:Hsid0;
    [destruct (Hearly BadRequest) as (r & w' & E & Ht & [H | []]); try discriminate;
     exists r, w'; cbn [run]; auto |].
  destruct (requestUserId req) as [uid |] eqn:Huid; cbn [falsy];
    [| destruct (Hearly Unauthorized) as (r & w' & E & Ht & [H | []]); try discriminate;
       exists r, w'; cbn [run]; auto].
  destruct (String.eqb uid "") eqn:Huid0;
    [destruct (Hearly Unauthorized) as (r & w' & E & Ht & [H | []]); try discriminate;
     exists r, w'; cbn [run]; auto |].
  change (default "" (Some uid)) with uid. rewrite run_try_catch. unfold handle.
  cbn [run bind await exec].
  destruct (sessions (db w) !! sid) as [s |] eqn:Hs;
    [| cbn [run];
       destruct (Hearly SessionNotFound) as (r & w' & E & Ht & [H | []]); try discriminate;
       exists r, w'; auto].
  cbn [run exec].
  destruct (select_players (db w) sid) as [| p0 prest] eqn:Hplayers.
  { cbn [run]. 
    destruct (Hthrown NoPlayersFound w Htxn eq_refl (or_introl eq_refl))
      as (r & w' & E & Ht & [[] | H]).
    exists r, w'. auto. }
  fold (requester (db w) sid uid) in *.
  assert (Hreq : List.find (fun p => String.eqb (user_id p) uid) (p0 :: prest)
                 = requester (db w) sid uid).
  { unfold requester. rewrite Hplayers. reflexivity. }
  rewrite Hreq.
  destruct (requester (db w) sid uid) as [rp |] eqn:Hrp;
    [| cbn [run];
       destruct (Hearly NotAPlayer) as (r & w' & E & Ht & [H | []]); try discriminate;
       exists r, w'; auto].
  destruct (truthy (is_multiplayer s)) eqn:Hmp.
  - destruct (same_index (current_player_index s) (Some (player_index rp))) eqn:Hown;
      cbn [negb andb];
      [| cbn [run];
         destruct (Hearly NotYourTurn) as (r & w' & E & Ht & [H | []]); try discriminate;
         exists r, w'; auto].
    apply same_index_Some in Hown.
    rewrite run_bind.
    destruct (List.find (fun p => same_index (Some (player_index p)) (current_player_index s))
                (p0 :: prest)) as [info |] eqn:Hinfo.
    + cbn [run bind await exec].
      destruct (has_socket (sessionSockets w !! sid) (user_id info)) eqn:Hconn.
      * destruct (process_action_run cfg sid s (p0 :: prest) rp uid act src w Htxn Hs)
          as (w' & r & -> & Ht & Hcase).
        destruct Hcase as [(e & -> & Hd & Hl) | Hupd].
        -- destruct (Hthrown e w' Ht Hd Hl) as (r & w'' & E & Ht' & [[] | H]).
           exists r, w''. auto.
        -- destruct Hupd as (n & j & st & row & t1 & t2 & d1 & -> & -> & Hr & Ha & Hsr & Hti & Hins & Hd & Hst).
           exists (Updated st), w'. split; [reflexivity |]. split; [exact Ht |].
           right. right. right.
           exists sid, uid, s, rp, n, j, st, row, t1, t2, d1. rewrite ?Hplayers.
           repeat (split; [first [reflexivity | assumption | (intros _; assumption)] |]).
           exact Hst.
      * destruct (skip_turn_run sid s (p0 :: prest) w Htxn Hs) as [Hpause Hskip].
        destruct (Z.eq_dec (scan_from w sid s (p0 :: prest)) (-1)) as [Hn | Hn].
        -- rewrite (Hpause Hn).
           destruct (Hearly NoActivePlayers) as (r & w' & E & Ht & [H | []]); try discriminate.
           exists r, w'. auto.
        -- destruct (Hskip Hn) as (st & Hst & ->).
           eexists _, _. split; [reflexivity |]. split; [reflexivity |].
           right. right. left. exists sid, s, st. rewrite ?Hplayers.
           repeat (split; [first [reflexivity | assumption] |]).
           reflexivity.
    + cbn [run].
      destruct (skip_turn_run sid s (p0 :: prest) w Htxn Hs) as [Hpause Hskip].
      destruct (Z.eq_dec (scan_from w sid s (p0 :: prest)) (-1)) as [Hn | Hn].
      * rewrite (Hpause Hn).
        destruct (Hearly NoActivePlayers) as (r & w' & E & Ht & [H | []]); try discriminate.
        exists r, w'. auto.
      * destruct (Hskip Hn) as (st & Hst & ->).
        eexists _, _. split; [reflexivity |]. split; [reflexivity |].
        right. right. left. exists sid, s, st. rewrite ?Hplayers.
        repeat (split; [first [reflexivity | assumption] |]).
        reflexivity.
  - cbn [negb andb]. rewrite run_bind. cbn [run].
    destruct (process_action_run cfg sid s (p0 :: prest) rp uid act src w Htxn Hs)
      as (w' & r & -> & Ht & Hcase).
    destruct Hcase as [(e & -> & Hd & Hl) | Hupd].
    + destruct (Hthrown e w' Ht Hd Hl) as (r & w'' & E & Ht' & [[] | H]).
      exists r, w''. auto.
    + destruct Hupd as (n & j & st & row & t1 & t2 & d1 & -> & -> & Hr & Ha & Hsr & Hti & Hins & Hd & Hst).
      exists (Updated st), w'. split; [reflexivity |]. split; [exact Ht |].
      right. right. right.
      exists sid, uid, s, rp, n, j, st, row, t1, t2, d1. rewrite ?Hplayers.
      repeat (split; [first [reflexivity | assumption | (intros; congruence)] |]).
      exact Hst.
Qed.

Lemma updated_session (cfg : Config) (req : Request) (w w' : World)
    (sid : string) (st : SessionState) :
  txn w = None -> sessionId req = Some sid ->
  submitAction cfg req w = (inr (Updated st), w') ->
  exists uid s rp n j row t1 t2,
    requestUserId req = Some uid /\ turnIndex req = Some (Some n)
    /\ sessions (db w) !! sid = Some s
    /\ requester (db w) sid uid = Some rp
    /\ (truthy (is_multiplayer s) = true ->
        current_player_index s = Some (player_index rp))
    /\ out_of_range (Some n) (default (-1) (select_max_turn (db w) sid)) = false
    /\ accepted_reply w = Some j
    /\ t_session_id row = sid /\ turn_index row = n + 1
    /\ turn_index_taken (db w) row = false
    /\ turns (db w') = turns (db w) ++ [stamp row t1]
    /\ session_players (db w') = session_players (db w)
    /\ sessions (db w') !! sid
       = Some (mkSession (theme s) (is_multiplayer s) (max_players s)
                 (next_player s (select_players (db w) sid)) (game_goal s)
                 (goal_prerequisites s) (Some (reported_met j)) (final_goal s j) t2)
    /\ state_of (db w') sid = Some st.
Proof.
  intros Htxn Hsid Hrun.
  destruct (submitAction_cases cfg req w Htxn) as (resp & w'' & Hrun' & _ & Hcase).
  rewrite Hrun in Hrun'. injection Hrun' as <- <-.
  destruct Hcase as [(_ & Hno & _) | [(e & He & _) | [(sid' & s & st' & _ & _ & _ & _ & He & _) | Hupd]]];
    try discriminate; [exfalso; exact (Hno st eq_refl) |].
  destruct Hupd as (sid' & uid & s & rp & n & j & st' & row & t1 & t2 & d1 & Hsid' & Huid & Hn
                    & Hs & Hrp & Hown & Hst' & Hrange & Hacc & Hrs & Hri & Hins & Hdb & Hstate).
  rewrite Hsid in Hsid'. injection Hsid' as <-. injection Hst' as <-.
  apply insert_turn_inr in Hins. destruct Hins as [Hfree ->].
  exists uid, s, rp, n, j, row, t1, t2.
  repeat (split; [assumption |]).
  split; [rewrite Hdb; reflexivity |]. split; [rewrite Hdb; reflexivity |].
  split; [| exact Hstate].
  rewrite Hdb. unfold update_session_after_turn. cbn [sessions].
  rewrite lookup_alter_eq, Hs. reflexivity.
Qed.

(** ** Goal bookkeeping *)

(** C1 (amended).  A call that persists a new turn stores, as the session's
    met-prerequisite set, exactly the list the generator reported in
    [updated_met_prerequisites] for that turn: the previous set is replaced,
    no union is computed, and the returned document shows the same list.
    The earlier set is contained in the later one whenever the generator's
    list repeats it. *)
Theorem met_set_replaced_by_report (cfg : Config) (req : Request) (w w' : World)
    (sid : string) (st : SessionState) :
  txn w = None -> sessionId req = Some sid ->
  submitAction cfg req w = (inr (Updated st), w') ->
  exists j, accepted_reply w = Some j
    /\ met_of (db w') sid = reported_met j
    /\ st_metPrerequisites st = reported_met j
    /\ ((forall x, x ∈ met_of (db w) sid -> x ∈ reported_met j) ->
        forall x, x ∈ met_of (db w) sid -> x ∈ met_of (db w') sid).
Proof.
  intros Htxn Hsid Hrun.
  destruct (updated_session cfg req w w' sid st Htxn Hsid Hrun)
    as (uid & s & rp & n & j & row & t1 & t2 & _ & _ & _ & _ & _ & _ & Hacc & _ & _ & _ & _ & _ & Hs' & Hst).
  exists j. split; [exact Hacc |].
  assert (Hmet : met_of (db w') sid = reported_met j).
  { unfold met_of. rewrite Hs'. reflexivity. }
  split; [exact Hmet |]. split.
  - unfold state_of in Hst. rewrite Hs' in Hst. injection Hst as <-. reflexivity.
  - intros Hincl x Hx. rewrite Hmet. apply Hincl. exact Hx.
Qed.

(** Counterexample to C1 as stated: the generator's list omits a
    prerequisite met earlier, and the stored set loses it. *)
Lemma met_union_law_fails : ~ met_union_law cfg_imagen (request "u0" 0) w_drop.
Proof.
  intros Hlaw.
  run_to_update "u0" w_drop st Hout.
  pose proof (Hlaw "S" st _ (reply ["open the vault"] true) eq_refl Hout eq_refl "find the key") as [_ Hback].
  assert (Hin : "find the key" ∈ met_of (db (submitAction cfg_imagen (request "u0" 0) w_drop).2) "S").
  { apply Hback. left. vm_compute. apply list_elem_of_here. }
  vm_compute in Hin. 
  apply list_elem_of_In in Hin. simpl in Hin. destruct Hin as [Hin | []]. discriminate.
Qed.

Lemma met_set_replaced_by_report_witness :
  met_of (db (submitAction cfg_imagen (request "u0" 0) w_drop).2) "S" = ["open the vault"].
Proof.
  run_to_update "u0" w_drop st Hout.
  destruct (met_set_replaced_by_report cfg_imagen (request "u0" 0) w_drop _ "S" st
              eq_refl eq_refl Hout) as (j & Hj & Hmet & _).
  rewrite Hmet. vm_compute in Hj. injection Hj as <-. reflexivity.
Defined.

(** C4 (amended).  A call that persists a new turn leaves the goal flag at 1
    exactly when the generator signalled [is_goal_met_this_turn] for that
    turn or the flag was already 1; neither the met-set nor the list of
    prerequisites is consulted by the handler. *)
Theorem goal_flag_follows_generator (cfg : Config) (req : Request) (w w' : World)
    (sid : string) (s : SessionRow) (st : SessionState) :
  txn w = None -> sessionId req = Some sid -> sessions (db w) !! sid = Some s ->
  submitAction cfg req w = (inr (Updated st), w') ->
  exists j, accepted_reply w = Some j
    /\ goal_flag (db w') sid
       = Some (if reported_goal j || (is_goal_met s =? 1) then 1 else 0)
    /\ st_isGoalMet st = reported_goal j || (is_goal_met s =? 1).
Proof.
  intros Htxn Hsid Hs Hrun.
  destruct (updated_session cfg req w w' sid st Htxn Hsid Hrun)
    as (uid & s0 & rp & n & j & row & t1 & t2 & _ & _ & Hs0 & _ & _ & _ & Hacc & _ & _ & _ & _ & _ & Hs' & Hst).
  rewrite Hs in Hs0. injection Hs0 as <-.
  exists j. split; [exact Hacc |]. split.
  - unfold goal_flag. rewrite Hs'. reflexivity.
  - unfold state_of in Hst. rewrite Hs' in Hst. injection Hst as <-.
    cbn [st_isGoalMet is_goal_met]. unfold final_goal.
    destruct (reported_goal j || (is_goal_met s =? 1)); reflexivity.
Qed.

(** Counterexample to C4 as stated: the flag is set although "open the
    vault" was not in the met-set before the action. *)
Lemma goal_needs_prior_prerequisites_fails :
  ~ goal_needs_prior_prerequisites cfg_imagen (request "u0" 0) w_drop.
Proof.
  intros Hlaw.
  run_to_update "u0" w_drop st Hout.
  assert (Hin : "open the vault" ∈ met_of (db w_drop) "S").
  { apply (Hlaw "S" solo st _ eq_refl eq_refl Hout).
    - vm_compute. reflexivity.
    - vm_compute. apply list_elem_of_further, list_elem_of_here. }
  vm_compute in Hin.
  apply list_elem_of_In in Hin. simpl in Hin. destruct Hin as [Hin | []]. discriminate.
Qed.

Lemma goal_flag_follows_generator_witness :
  goal_flag (db (submitAction cfg_imagen (request "u0" 0) w_drop).2) "S" = Some 1.
Proof.
  run_to_update "u0" w_drop st Hout.
  destruct (goal_flag_follows_generator cfg_imagen (request "u0" 0) w_drop _ "S" solo st
              eq_refl eq_refl eq_refl Hout) as (j & Hj & Hflag & _).
  rewrite Hflag. vm_compute in Hj. injection Hj as <-. reflexivity.
Defined.

(** ** Turn order *)

Lemma requester_in_roster (d : Db) (sid uid : string) (rp : PlayerRow) :
  requester d sid uid = Some rp -> (0 < length (select_players d sid))%nat.
Proof.
  unfold requester. destruct (select_players d sid); simpl; [discriminate | lia].
Qed.

(** C6.  After a call that persists a new turn on a multiplayer session
    whose current index is [i] (a roster index, hence not negative), the
    stored index is [(i + 1) mod N], [N] being the number of roster
    players; nothing is asked about the connectivity of that player.  On a
    single-player session the stored index is unchanged, so a null index
    stays null. *)
Theorem next_player_is_round_robin (cfg : Config) (req : Request) (w w' : World)
    (sid : string) (s : SessionRow) (st : SessionState) :
  txn w = None -> sessionId req = Some sid -> sessions (db w) !! sid = Some s ->
  submitAction cfg req w = (inr (Updated st), w') ->
  (truthy (is_multiplayer s) = true ->
   exists i, current_player_index s = Some i
     /\ (0 <= i ->
         index_of (db w') sid
         = Some ((i + 1) mod Z.of_nat (length (select_players (db w) sid)))))
  /\ (truthy (is_multiplayer s) = false ->
      index_of (db w') sid = current_player_index s).
Proof.
  intros Htxn Hsid Hs Hrun.
  destruct (updated_session cfg req w w' sid st Htxn Hsid Hrun)
    as (uid & s0 & rp & n & j & row & t1 & t2 & _ & _ & Hs0 & Hrp & Hown & _ & _ & _ & _ & _ & _ & _ & Hs' & _).
  rewrite Hs in Hs0. injection Hs0 as <-.
  unfold index_of. rewrite Hs'. cbn [mbind option_bind current_player_index].
  unfold next_player. split; intros Hmp; rewrite Hmp.
  - exists (player_index rp). split; [exact (Hown Hmp) |].
    intros Hi. rewrite (Hown Hmp).
    change (js_num (Some (player_index rp))) with (player_index rp).
    apply requester_in_roster in Hrp.
    rewrite Z.rem_mod_nonneg by lia. reflexivity.
  - reflexivity.
Qed.

Lemma next_player_is_round_robin_witness :
  index_of (db (submitAction cfg_imagen (request "u0" 0) w_party_turn).2) "S" = Some 1.
Proof.
  run_to_update "u0" w_party_turn st Hout.
  destruct (next_player_is_round_robin cfg_imagen (request "u0" 0) w_party_turn _ "S" party st
              eq_refl eq_refl eq_refl Hout) as [Hmulti _].
  destruct (Hmulti eq_refl) as (i & Hi & Hnext).
  injection Hi as <-. rewrite Hnext by lia. reflexivity.
Defined.

(** ** Stale submissions *)

Lemma index_taken (d : Db) (row : TurnRow) :
  turn_index row ∈ indices d (t_session_id row) -> turn_index_taken d row = true.
Proof.
  unfold indices, turns_of, turn_index_taken. intros Hin.
  apply list_elem_of_fmap in Hin. destruct Hin as (t & Hidx & Ht).
  apply list_elem_of_filter in Ht. destruct Ht as [Hsid Ht].
  apply existsb_exists. exists t. split; [apply list_elem_of_In; exact Ht |].
  rewrite Hsid, Hidx. rewrite String.eqb_refl, Z.eqb_refl. reflexivity.
Qed.

Lemma ledger_ok_same_turns (d d' : Db) (sid : string) :
  turns d' = turns d -> ledger_ok d sid -> ledger_ok d' sid.
Proof.
  unfold ledger_ok, indices, select_max_turn, turns_of. intros ->. tauto.
Qed.

Lemma not_ok_unless_turn (resp : Response) :
  (forall st, resp <> Updated st) -> (forall st, resp <> TurnSkipped st) ->
  status resp <> 200.
Proof.
  intros H1 H2. destruct resp; simpl; try discriminate.
  - exfalso. exact (H1 _ eq_refl).
  - exfalso. exact (H2 _ eq_refl).
Qed.

(** C2 (amended).  With a ledger that holds one turn per index from 0 to
    the latest, a call whose [turnIndex] is below the latest index never
    appends a turn and never answers with a new turn; the ledger is left
    as it was, one turn per index.  Unless the call is answered by the
    skip branch, which does not look at [turnIndex], its status is not 200
    and the whole store is unchanged. *)
Theorem stale_submission_adds_no_turn (cfg : Config) (req : Request) (w : World)
    (sid : string) (n latest : Z) :
  txn w = None -> ledger_ok (db w) sid ->
  sessionId req = Some sid -> turnIndex req = Some (Some n) ->
  select_max_turn (db w) sid = Some latest -> n < latest ->
  exists resp w',
    submitAction cfg req w = (inr resp, w')
    /\ (forall st, resp <> Updated st)
    /\ turns (db w') = turns (db w)
    /\ ledger_ok (db w') sid
    /\ ((forall st, resp <> TurnSkipped st) -> status resp <> 200 /\ db w' = db w).
Proof.
  intros Htxn Hledger Hsid Hn Hmax Hlt.
  destruct (submitAction_cases cfg req w Htxn) as (resp & w' & Hrun & _ & Hcase).
  exists resp, w'. split; [exact Hrun |].
  destruct Hcase as [(-> & Hnu & Hns & _) | [(e & -> & Hdb & _) | [Hskip | Hupd]]].
  - split; [exact Hnu |]. split; [reflexivity |]. split; [exact Hledger |].
    intros _. split; [apply not_ok_unless_turn; assumption | reflexivity].
  - split; [discriminate |]. split; [rewrite Hdb; reflexivity |].
    split; [apply (ledger_ok_same_turns (db w)); [rewrite Hdb; reflexivity | exact Hledger] |].
    intros _. split; [discriminate | exact Hdb].
  - destruct Hskip as (sid' & s & st & _ & _ & _ & _ & -> & _ & ->).
    split; [discriminate |]. split; [reflexivity |].
    split; [apply (ledger_ok_same_turns (db w)); [reflexivity | exact Hledger] |].
    intros Hns. exfalso. exact (Hns st eq_refl).
  - exfalso.
    destruct Hupd as (sid' & uid & s & rp & n' & j & st & row & t1 & t2 & d1 & Hsid' & _ & Hn'
                      & _ & _ & _ & _ & Hrange & _ & Hrs & Hri & Hins & _).
    rewrite Hsid in Hsid'. injection Hsid' as <-.
    rewrite Hn in Hn'. injection Hn' as <-.
    apply insert_turn_inr in Hins. destruct Hins as [Hfree _].
    rewrite Hmax in Hrange. cbn [default out_of_range] in Hrange.
    apply orb_false_elim in Hrange. destruct Hrange as [Hneg _].
    apply Z.ltb_ge in Hneg.
    destruct Hledger as [_ Hall].
    assert (Hin : turn_index row ∈ indices (db w) (t_session_id row)).
    { rewrite Hrs, Hri. apply (Hall latest); [exact Hmax | lia]. }
    apply index_taken in Hin. congruence.
Qed.

(** Counterexample to C2 as stated: a submission at index 0 against a
    ledger whose latest index is 1 is answered 200 by the skip branch. *)
Lemma stale_is_rejected_fails :
  ~ stale_is_rejected cfg_imagen (request "u0" 0) w_stale_skip.
Proof.
  intros Hlaw.
  assert (Hout : exists st, submitAction cfg_imagen (request "u0" 0) w_stale_skip
                            = (inr (TurnSkipped st), (submitAction cfg_imagen (request "u0" 0) w_stale_skip).2)).
  { eexists. vm_compute. reflexivity. }
  destruct Hout as [st Hout].
  destruct (Hlaw "S" 0 1 _ _ eq_refl eq_refl eq_refl ltac:(lia) Hout) as [Hstatus _].
  apply Hstatus. reflexivity.
Qed.

Lemma ledger_ok_db_solo2 : ledger_ok db_solo2 "S".
Proof.
  split.
  - vm_compute. repeat constructor; intros H; apply list_elem_of_In in H; simpl in H;
      intuition discriminate.
  - intros latest n Hmax Hn. vm_compute in Hmax. injection Hmax as <-.
    assert (n = 0 \/ n = 1) as [-> | ->] by lia; vm_compute.
    + apply list_elem_of_here.
    + apply list_elem_of_further, list_elem_of_here.
Defined.

Lemma stale_submission_adds_no_turn_witness :
  turns (db (submitAction cfg_imagen (request "u0" 0) w_stale).2) = [opening; second]
  /\ status (match (submitAction cfg_imagen (request "u0" 0) w_stale).1 with
             | inr resp => resp
             | inl _ => BadRequest
             end) = 500.
Proof.
  destruct (stale_submission_adds_no_turn cfg_imagen (request "u0" 0) w_stale "S" 0 1
              eq_refl ledger_ok_db_solo2 eq_refl eq_refl eq_refl ltac:(lia))
    as (resp & w' & Hrun & _ & Hturns & _ & _).
  rewrite Hrun. cbn [fst snd]. split; [exact Hturns |].
  vm_compute in Hrun. injection Hrun as <- _. reflexivity.
Defined.

(** ** Generation failure *)

Lemma accepted_reply_some (w : World) (j : json) :
  accepted_reply w = Some j -> exists i, (i < 3)%nat /\ reply_at w i = Some j.
Proof.
  unfold accepted_reply.
  destruct (reply_at w 0) as [j0 |] eqn:H0.
  - intros [= <-]. exists 0%nat. split; [lia | exact H0].
  - destruct (reply_at w 1) as [j1 |] eqn:H1.
    + intros [= <-]. exists 1%nat. split; [lia | exact H1].
    + intros H2. exists 2%nat. split; [lia | exact H2].
Qed.

Lemma is_string_iff (v : option json) :
  is_string v = true <-> exists s, v = Some (JStr s).
Proof.
  split.
  - destruct v as [[] |]; try discriminate. eauto.
  - intros [s ->]. reflexivity.
Qed.

Lemma is_boolean_iff (v : option json) :
  is_boolean v = true <-> exists b, v = Some (JBool b).
Proof.
  split.
  - destruct v as [[] |]; try discriminate. eauto.
  - intros [b ->]. reflexivity.
Qed.

Lemma all_strings_iff (items : list json) :
  forallb json_is_string items = true <-> exists l, items = map JStr l.
Proof.
  split.
  - induction items as [| x items IH]; intros H.
    + exists []. reflexivity.
    + cbn [forallb] in H. apply andb_prop in H. destruct H as [Hx Hrest].
      destruct x; try discriminate. destruct (IH Hrest) as [l ->].
      exists (s :: l). reflexivity.
  - intros [l ->]. induction l as [| s l IH]; [reflexivity | exact IH].
Qed.

Lemma is_strings_iff (v : option json) :
  is_array_of json_is_string v = true <-> exists l, v = Some (JArr (map JStr l)).
Proof.
  split.
  - destruct v as [[] |]; try discriminate. cbn [is_array_of]. intros H.
    apply all_strings_iff in H. destruct H as [l ->]. eauto.
  - intros [l ->]. cbn [is_array_of]. apply all_strings_iff. eauto.
Qed.

Lemma is_character_iff (c : json) : is_character c = true <-> character_fields c.
Proof.
  unfold is_character, character_fields, has_string.
  rewrite !andb_true_iff, !is_string_iff. tauto.
Qed.

Lemma is_characters_iff (v : option json) :
  is_array_of is_character v = true
  <-> exists items, v = Some (JArr items) /\ Forall character_fields items.
Proof.
  split.
  - destruct v as [[] |]; try discriminate. cbn [is_array_of]. intros H.
    eexists. split; [reflexivity |].
    induction items as [| c items IH]; [constructor |].
    cbn [forallb] in H. apply andb_prop in H. destruct H as [Hc Hrest].
    constructor; [apply is_character_iff; exact Hc | exact (IH Hrest)].
  - intros (items & -> & Hall). cbn [is_array_of].
    induction Hall as [| c items Hc _ IH]; [reflexivity |].
    cbn [forallb]. apply andb_true_intro. split; [apply is_character_iff; exact Hc | exact IH].
Qed.

(** The tests of callLLM on a later turn accept exactly the values that
    carry the required fields. *)
Lemma field_checks_iff (j : json) :
  common_fields_ok j && goal_fields_ok false j = true <-> required_fields j.
Proof.
  unfold common_fields_ok, goal_fields_ok, required_fields, has_string, has_boolean,
    has_strings.
  rewrite !andb_true_iff, !is_string_iff, !is_boolean_iff, !is_strings_iff,
    is_characters_iff. tauto.
Qed.

Lemma checked_None_iff (reply : ProviderReply) :
  checked false reply = None <->
  (reply = ReplyThrows \/ reply = ReplyEmpty \/ reply = ReplyText None
   \/ exists j, reply = ReplyText (Some j) /\ ~ required_fields j).
Proof.
  destruct reply as [| | [j |]]; cbn [checked].
  - split; [auto | reflexivity].
  - split; [auto | reflexivity].
  - destruct (common_fields_ok j && goal_fields_ok false j) eqn:Hok.
    + split; [discriminate |].
      intros [H | [H | [H | (j' & H & Hbad)]]]; try discriminate.
      injection H as <-. exfalso. apply Hbad, field_checks_iff. exact Hok.
    + split; [| reflexivity]. intros _. right. right. right. exists j.
      split; [reflexivity |]. intros Hreq. apply field_checks_iff in Hreq. congruence.
  - split; [auto 6 | reflexivity].
Qed.

(** C8.  callLLM makes between one and three provider calls, waits 500ms
    times the attempt number after a failed first and second attempt, goes
    on exactly as long as the reply throws, is empty, does not parse or
    parses to a value without one of the required fields of a later turn
    in its required type ([required_fields]: narrative, image prompt,
    suggested actions, time of day, same-location flag, characters with
    their four texts, updated met prerequisites, goal-met flag), and
    throws after a failed third attempt.  When
    the three replies fail, the handler writes no turn: either the
    generator was never called, or the answer is the terminal failure and
    the store is the one found, with no transaction left open. *)
Theorem generation_retried_then_abandoned (cfg : Config) (req : Request)
    (p : Prompt) (w : World) :
  txn w = None -> known_provider (ACTIVE_LLM_PROVIDER cfg) = true ->
  (forall reply,
      checked false reply = None <->
      (reply = ReplyThrows \/ reply = ReplyEmpty \/ reply = ReplyText None
       \/ exists j, reply = ReplyText (Some j) /\ ~ required_fields j))
  /\ (exists (n : nat) (w1 : World) (r : Exn + json),
      run (callLLM cfg p 3 false None None) w = (r, w1)
      /\ (1 <= n <= 3)%nat
      /\ log w1 = log w ++ attempt_events (ACTIVE_LLM_PROVIDER cfg) p n 1
      /\ db w1 = db w
      /\ (forall i, (S i < n)%nat -> reply_at w i = None)
      /\ ((exists j, r = inr j /\ reply_at w (n - 1) = Some j)
          \/ (r = inl (LlmFailedAfterRetries 3) /\ n = 3%nat
              /\ forall i, (i < 3)%nat -> reply_at w i = None)))
  /\ ((forall i, (i < 3)%nat -> reply_at w i = None) ->
      exists resp w',
        submitAction cfg req w = (inr resp, w')
        /\ (forall st, resp <> Updated st)
        /\ turns (db w') = turns (db w)
        /\ (calls (log w') = calls (log w)
            \/ (resp = Failed (LlmFailedAfterRetries 3)
                /\ db w' = db w /\ txn w' = None))).
Proof.
  intros Htxn Hk. split; [exact checked_None_iff |]. split.
  - destruct (callLLM_run cfg p w Hk)
      as (n & w1 & r & Hrun & Hn & Hlog & (Hdb & _) & _ & Hnone & Hres).
    exists n, w1, r. auto 10.
  - intros Hall.
    destruct (submitAction_cases cfg req w Htxn) as (resp & w' & Hrun & Ht & Hcase).
    exists resp, w'. split; [exact Hrun |].
    destruct Hcase as [(-> & Hnu & _) | [(e & -> & Hdb & Hl) | [Hskip | Hupd]]].
    + split; [exact Hnu |]. split; [reflexivity |]. left. reflexivity.
    + split; [discriminate |]. split; [rewrite Hdb; reflexivity |].
      destruct Hl as [Hl | [(-> & _) | (j & Hj)]].
      * left. rewrite Hl. reflexivity.
      * right. auto.
      * exfalso. apply accepted_reply_some in Hj. destruct Hj as (i & Hi & Hj).
        rewrite (Hall i Hi) in Hj. discriminate.
    + destruct Hskip as (sid' & s & st & _ & _ & _ & _ & -> & _ & ->).
      split; [discriminate |]. split; [reflexivity |].
      left. cbn [log add_log set_db]. rewrite calls_app. simpl. lia.
    + exfalso.
      destruct Hupd as (sid' & uid & s & rp & n' & j & st & row & t1 & t2 & d1 & _ & _ & _
                        & _ & _ & _ & _ & _ & Hj & _).
      apply accepted_reply_some in Hj. destruct Hj as (i & Hi & Hj).
      rewrite (Hall i Hi) in Hj. discriminate.
Qed.

Lemma all_replies_fail :
  forall i, (i < 3)%nat -> reply_at w_generator_sloppy i = None.
Proof. intros [| [| [| i]]] Hi; try reflexivity. lia. Defined.

Lemma generation_retried_then_abandoned_witness :
  checked false (ReplyText (Some half_character)) = None
  /\ submitAction cfg_imagen (request "u0" 0) w_generator_sloppy
     = (inr (Failed (LlmFailedAfterRetries 3)),
        (submitAction cfg_imagen (request "u0" 0) w_generator_sloppy).2)
  /\ db (submitAction cfg_imagen (request "u0" 0) w_generator_sloppy).2 = db_solo
  /\ calls (log (submitAction cfg_imagen (request "u0" 0) w_generator_sloppy).2) = 3%nat.
Proof.
  destruct (generation_retried_then_abandoned cfg_imagen (request "u0" 0)
              (mkPrompt [] [] None "") w_generator_sloppy eq_refl eq_refl)
    as (Hchecked & _ & Hfail).
  split.
  { apply Hchecked. right. right. right. exists half_character.
    split; [reflexivity |].
    intros (_ & _ & _ & _ & _ & (items & Hitems & Hall) & _).
    vm_compute in Hitems. injection Hitems as <-.
    inversion Hall as [| c rest (_ & _ & _ & (s & Hs)) _]. vm_compute in Hs. discriminate. }
  destruct (Hfail all_replies_fail) as (resp & w' & Hrun & _ & _ & Hcalls).
  rewrite Hrun. cbn [snd].
  destruct Hcalls as [Hsame | (-> & Hdb & _)].
  - exfalso. vm_compute in Hrun. injection Hrun as _ <-. vm_compute in Hsame. discriminate.
  - split; [reflexivity |]. split; [exact Hdb |].
    vm_compute in Hrun. injection Hrun as <-. reflexivity.
Defined.

(** ** The skip branch *)

Lemma skip_scan_found (players : list PlayerRow)
    (conns : option (gmap string nat)) (numPlayers : Z) (checks_left : nat) :
  forall start,
    skip_scan players conns numPlayers checks_left start <> -1 ->
    exists p, p ∈ players
      /\ player_index p = skip_scan players conns numPlayers checks_left start
      /\ has_socket conns (user_id p) = true.
Proof.
  induction checks_left as [| k IH]; intros start Hfound; simpl in *.
  - congruence.
  - destruct (List.find (fun p => player_index p =? Z.rem (start + 1) numPlayers) players)
      as [p |] eqn:Hfind.
    + destruct (has_socket conns (user_id p)) eqn:Hconn.
      * apply find_some in Hfind. destruct Hfind as [Hin Hidx].
        apply Z.eqb_eq in Hidx.
        exists p. split; [apply list_elem_of_In; exact Hin |]. split; assumption.
      * apply IH. exact Hfound.
    + apply IH. exact Hfound.
Qed.

Lemma post_action_well_formed (cfg : Config) (req : Request) (sid act : string)
    (src : option Z) (uid : string) :
  well_formed req sid act src uid ->
  post_action cfg req
  = try_catch (handle cfg sid act src uid)
      (fun error => Await SqlRollback (fun _ => Ret (Failed error))).
Proof.
  intros (Hsid & Hsid0 & Hact & Hsrc & Huid & Huid0). unfold post_action.
  rewrite Hsid, Hact, Hsrc, Huid. cbn [falsy].
  apply String.eqb_neq in Hsid0, Huid0. rewrite Hsid0, Huid0. reflexivity.
Qed.

(** C7.  In the skip branch (multiplayer session, the requester is the
    current player and holds no socket): when the scan finds a player, the
    answer is the turn-skipped document, the only change to the store is the
    session row's index and update time, no turn is added, and the index
    found belongs to a connected roster player; when the scan finds nobody,
    the process state is exactly the one found and the answer is the paused
    condition, however often the call is repeated. *)
Theorem skip_branch_effects (cfg : Config) (req : Request) (w : World)
    (sid act : string) (src : option Z) (uid : string) (s : SessionRow)
    (rp : PlayerRow) :
  txn w = None -> well_formed req sid act src uid ->
  sessions (db w) !! sid = Some s -> truthy (is_multiplayer s) = true ->
  requester (db w) sid uid = Some rp ->
  current_player_index s = Some (player_index rp) ->
  current_player_connected w sid s = false ->
  let next := scan_from w sid s (select_players (db w) sid) in
  let d' := update_session_index (db w) sid next (clock w) in
  (next <> -1 ->
   exists st,
     submitAction cfg req w
     = (inr (TurnSkipped st), add_log (set_db w d' None) (Emitted sid st))
     /\ state_of d' sid = Some st
     /\ turns d' = turns (db w) /\ session_players d' = session_players (db w)
     /\ sessions d' !! sid
        = Some (mkSession (theme s) (is_multiplayer s) (max_players s) (Some next)
                  (game_goal s) (goal_prerequisites s) (met_prerequisites s)
                  (is_goal_met s) (clock w))
     /\ (forall other, other <> sid -> sessions d' !! other = sessions (db w) !! other)
     /\ (exists p, p ∈ select_players (db w) sid /\ player_index p = next
                   /\ has_socket (sessionSockets w !! sid) (user_id p) = true))
  /\ (next = -1 ->
      forall k,
        Nat.iter k (fun w0 => (submitAction cfg req w0).2) w = w
        /\ submitAction cfg req (Nat.iter k (fun w0 => (submitAction cfg req w0).2) w)
           = (inr NoActivePlayers, w)).
Proof.
  intros Htxn Hwf Hs Hmp Hrp Hown Hconn next d'.
  assert (Hrun : submitAction cfg req w = 
                 match run (skip_turn sid s (select_players (db w) sid)) w with
                 | (inl e, w') => run (Await SqlRollback (fun _ => Ret (Failed e))) w'
                 | (inr a, w') => (inr a, w')
                 end).
  { unfold submitAction. rewrite (post_action_well_formed cfg req sid act src uid Hwf).
    rewrite run_try_catch. unfold handle. cbn [run bind await exec]. rewrite Hs.
    cbn [run exec]. unfold requester in Hrp. unfold current_player_connected in Hconn.
    destruct (select_players (db w) sid) as [| p0 prest]; [discriminate |].
    rewrite Hrp, Hmp, Hown.
    assert (Hsame : same_index (Some (player_index rp)) (Some (player_index rp)) = true)
      by (simpl; apply Z.eqb_refl).
    rewrite Hsame. cbn [negb andb].
    rewrite run_bind. rewrite Hown in Hconn.
    destruct (List.find (fun p => same_index (Some (player_index p))
                                    (Some (player_index rp))) (p0 :: prest))
      as [info |] eqn:Hinfo.
    - cbn [run bind await exec]. rewrite Hconn. reflexivity.
    - cbn [run]. reflexivity. }
  destruct (skip_turn_run sid s (select_players (db w) sid) w Htxn Hs) as [Hpause Hskip].
  fold next in Hpause, Hskip. fold d' in Hskip.
  split; intros Hnext.
  - destruct (Hskip Hnext) as (st & Hst & Hrun').
    exists st. rewrite Hrun, Hrun'. split; [reflexivity |]. split; [exact Hst |].
    split; [reflexivity |]. split; [reflexivity |].
    unfold d', update_session_index. cbn [sessions].
    split; [rewrite lookup_alter_eq, Hs; reflexivity |].
    split; [intros other Hother; apply lookup_alter_ne; congruence |].
    apply skip_scan_found. exact Hnext.
  - assert (Hsame : submitAction cfg req w = (inr NoActivePlayers, w)).
    { rewrite Hrun, (Hpause Hnext). reflexivity. }
    assert (Hiter : forall k, Nat.iter k (fun w0 => (submitAction cfg req w0).2) w = w).
    { induction k as [| k IH]; [reflexivity |].
      rewrite Nat.iter_succ, IH, Hsame. reflexivity. }
    intros k. rewrite Hiter. split; [reflexivity | exact Hsame].
Qed.

Lemma request_well_formed (u : string) (i : Z) :
  u <> "" -> well_formed (request u i) "S" "open the vault" (Some i) u.
Proof. intros Hu. repeat split; try assumption. discriminate. Defined.

Lemma skip_branch_effects_witness :
  index_of (db (submitAction cfg_imagen (request "u0" 0) w_absent).2) "S" = Some 1
  /\ turns (db (submitAction cfg_imagen (request "u0" 0) w_absent).2) = [opening]
  /\ submitAction cfg_imagen (request "u0" 0) w_nobody = (inr NoActivePlayers, w_nobody).
Proof.
  split; [| split].
  - destruct (skip_branch_effects cfg_imagen (request "u0" 0) w_absent "S"
                "open the vault" (Some 0) "u0" party (seat "u0" 0) eq_refl
                (request_well_formed "u0" 0 ltac:(discriminate))
                eq_refl eq_refl eq_refl eq_refl eq_refl) as [Hfound _].
    destruct (Hfound ltac:(vm_compute; discriminate)) as (st & Hrun & _ & _ & _ & Hrow & _).
    rewrite Hrun. cbn [snd db add_log set_db]. unfold index_of. rewrite Hrow. reflexivity.
  - destruct (skip_branch_effects cfg_imagen (request "u0" 0) w_absent "S"
                "open the vault" (Some 0) "u0" party (seat "u0" 0) eq_refl
                (request_well_formed "u0" 0 ltac:(discriminate))
                eq_refl eq_refl eq_refl eq_refl eq_refl) as [Hfound _].
    destruct (Hfound ltac:(vm_compute; discriminate)) as (st & Hrun & _ & Hturns & _).
    rewrite Hrun. cbn [snd db add_log set_db]. rewrite Hturns. reflexivity.
  - destruct (skip_branch_effects cfg_imagen (request "u0" 0) w_nobody "S"
                "open the vault" (Some 0) "u0" party (seat "u0" 0) eq_refl
                (request_well_formed "u0" 0 ltac:(discriminate))
                eq_refl eq_refl eq_refl eq_refl eq_refl) as [_ Hnone].
    destruct (Hnone ltac:(vm_compute; reflexivity) 0%nat) as [_ Hrun]. exact Hrun.
Defined.

(** ** Turn ownership *)

Lemma same_index_false (a : option Z) (b : Z) :
  a <> Some b -> same_index a (Some b) = false.
Proof.
  intros Hne. destruct a as [x |]; simpl; [| reflexivity].
  apply Z.eqb_neq. congruence.
Qed.

(** C9.  On a multiplayer session, a roster member whose index is not the
    session's current index is answered 403 "not your turn" and the process
    state is untouched.  On a single-player session that answer is never
    given. *)
Theorem out_of_turn_is_rejected (cfg : Config) (req : Request) (w : World)
    (sid act : string) (src : option Z) (uid : string) (s : SessionRow)
    (rp : PlayerRow) :
  txn w = None -> well_formed req sid act src uid ->
  sessions (db w) !! sid = Some s ->
  requester (db w) sid uid = Some rp ->
  (truthy (is_multiplayer s) = true ->
   current_player_index s <> Some (player_index rp) ->
   submitAction cfg req w = (inr NotYourTurn, w) /\ status NotYourTurn = 403)
  /\ (truthy (is_multiplayer s) = false ->
      forall w', submitAction cfg req w <> (inr NotYourTurn, w')).
Proof.
  intros Htxn Hwf Hs Hrp.
  assert (Hrun : submitAction cfg req w =
                 match run (handle cfg sid act src uid) w with
                 | (inl e, w') => run (Await SqlRollback (fun _ => Ret (Failed e))) w'
                 | (inr a, w') => (inr a, w')
                 end).
  { unfold submitAction. rewrite (post_action_well_formed cfg req sid act src uid Hwf).
    apply run_try_catch. }
  assert (Hhandle : run (handle cfg sid act src uid) w =
                    if truthy (is_multiplayer s)
                       && negb (same_index (current_player_index s) (Some (player_index rp)))
                    then (inr NotYourTurn, w)
                    else run (isCurrentPlayerConnected <-
                                (match truthy (is_multiplayer s),
                                       List.find (fun p => same_index (Some (player_index p))
                                                             (current_player_index s))
                                         (select_players (db w) sid) with
                                 | true, Some info =>
                                     sessionConnections <- await (SessionSocketsGet sid) ;;
                                     Ret (has_socket sessionConnections (user_id info))
                                 | true, None => Ret false
                                 | false, _ => Ret true
                                 end) ;;
                              if (isCurrentPlayerConnected : bool)
                              then process_action cfg sid s (select_players (db w) sid) rp
                                     uid act src
                              else skip_turn sid s (select_players (db w) sid)) w).
  { unfold handle. cbn [run bind await exec]. rewrite Hs. cbn [run exec].
    unfold requester in Hrp.
    destruct (select_players (db w) sid) as [| p0 prest]; [discriminate |].
    rewrite Hrp.
    destruct (truthy (is_multiplayer s)
              && negb (same_index (current_player_index s) (Some (player_index rp))));
      reflexivity. }
  split.
  - intros Hmp Hne. rewrite Hrun, Hhandle, Hmp, (same_index_false _ _ Hne).
    split; reflexivity.
  - intros Hmp w' Heq. rewrite Hrun, Hhandle, Hmp in Heq.
    cbn [andb] in Heq. rewrite run_bind in Heq. cbn [run] in Heq.
    destruct (process_action_run cfg sid s (select_players (db w) sid) rp uid act src w
                Htxn Hs) as (w1 & r & Hr & Ht & Hcase).
    rewrite Hr in Heq.
    destruct Hcase as [(e & -> & _) | (n & j & st & row & t1 & t2 & d1 & -> & _)].
    + cbn [run exec] in Heq. rewrite Ht in Heq. discriminate.
    + discriminate.
Qed.

Lemma out_of_turn_is_rejected_witness :
  submitAction cfg_imagen (request "u2" 0) w_party_turn = (inr NotYourTurn, w_party_turn).
Proof.
  destruct (out_of_turn_is_rejected cfg_imagen (request "u2" 0) w_party_turn "S"
              "open the vault" (Some 0) "u2" party (seat "u2" 2) eq_refl
              (request_well_formed "u2" 0 ltac:(discriminate)) eq_refl eq_refl)
    as [Hmulti _].
  destruct (Hmulti eq_refl ltac:(discriminate)) as [Hrun _]. exact Hrun.
Defined.


(** ** Image failure *)

Lemma imagen_absorbs_failure (cfg : Config) (prompt : string)
    (aspectRatioOverride : option string) (w : World) :
  exists url w', run (generateImageWithImagen cfg prompt aspectRatioOverride) w
                 = (inr url, w').
Proof.
  unfold generateImageWithImagen. destruct (is_blank prompt); cbn [run bind await].
  - eauto.
  - destruct (exec (ImageCall "google" prompt None) w) as [[| | b64] w1]; cbn [run];
      try destruct (String.eqb b64 ""); cbn [run]; eauto.
Qed.

Lemma flash_absorbs_failure (prompt : string) (base64Image : option string) (w : World) :
  exists url w', run (generateImageWithGoogleFlash prompt base64Image) w = (inr url, w').
Proof.
  unfold generateImageWithGoogleFlash. cbn [run bind await].
  match goal with
  | |- context [exec ?op w] => destruct (exec op w) as [[| | b64] w1]
  end; cbn [run]; eauto.
Qed.

Lemma openai_propagates_failure (prompt : string) (w : World) :
  nth 0 (image_replies w) ImageThrows = ImageThrows ->
  exists w', run (generateImageWithOpenAI prompt) w = (inl ImageCallFailed, w').
Proof.
  intros Hfirst. unfold generateImageWithOpenAI. cbn [run bind await].
  rewrite exec_image_call, Hfirst. cbn [run]. eauto.
Qed.

(** C10 (the code departs from the claim).  With ACTIVE_IMAGE_PROVIDER set to
    "openai", an image request that throws makes the whole call fail: the
    answer is a 500 and no turn is stored.  With "google" the same input
    yields a new turn carrying the placeholder reference. *)
Theorem image_failure_fails_turn_with_openai_images :
  (submitAction cfg_openai_images (request "u0" 0) w_image_down).1
  = inr (Failed ImageCallFailed)
  /\ db (submitAction cfg_openai_images (request "u0" 0) w_image_down).2 = db_solo
  /\ (exists st, (submitAction cfg_imagen (request "u0" 0) w_image_down).1
                 = inr (Updated st))
  /\ last_image (db (submitAction cfg_imagen (request "u0" 0) w_image_down).2)
     = Some (placeholder_failed_ratio "16:9").
Proof.
  split; [vm_compute; reflexivity |]. split; [vm_compute; reflexivity |].
  split; [eexists; vm_compute; reflexivity |]. vm_compute. reflexivity.
Qed.

(** ** A connected player facing a disconnected current player *)

(** C5 (the code departs from the claim).  Four players, index 0 to move and
    not connected, players 1 and 3 connected: the request of player 1 is
    answered "not your turn" and nothing changes, although the scan from
    index 0 would find index 1. *)
Theorem connected_player_cannot_trigger_skip :
  submitAction cfg_imagen (request "u1" 0) w_absent = (inr NotYourTurn, w_absent)
  /\ index_of (db w_absent) "S" = Some 0
  /\ current_player_connected w_absent "S" party = false
  /\ scan_from w_absent "S" party roster4 = 1.
Proof. repeat split; vm_compute; reflexivity. Qed.

(** ** Overlapping requests *)

(** Counterexample to C3 as stated: two requests of the current player are
    both in flight on session "S". *)
Lemma one_at_a_time_fails :
  ~ one_at_a_time cfg_imagen [request "u0" 0; request "u0" 0] w_party_turn.
Proof.
  intros Hlaw.
  destruct (schedule [0%nat; 1%nat]
              (arrive cfg_imagen [request "u0" 0; request "u0" 0] w_party_turn))
    as [c |] eqn:Hc; [| vm_compute in Hc; discriminate].
  apply (Hlaw [0%nat; 1%nat] c "S" 0%nat 1%nat Hc ltac:(lia)).
  cbn in Hc. injection Hc as <-. split; reflexivity.
Qed.

(** C3 (amended).  The handler takes no lock: whenever two well-formed
    requests for the same existing session arrive together, the second
    handler can fetch the session row while the first is suspended after
    fetching it; both then hold the same row, hence the same
    [current_player_index], and neither has answered. *)
Theorem session_row_read_by_two_handlers (cfg : Config) (r1 r2 : Request)
    (w : World) (sid act1 act2 : string) (src1 src2 : option Z)
    (uid1 uid2 : string) (s : SessionRow) :
  well_formed r1 sid act1 src1 uid1 -> well_formed r2 sid act2 src2 uid2 ->
  sessions (db w) !! sid = Some s ->
  exists c,
    schedule [0%nat; 1%nat] (arrive cfg [r1; r2] w) = Some c
    /\ seen c = [(0%nat, sid, Some s); (1%nat, sid, Some s)]
    /\ in_flight c sid 0 = true /\ in_flight c sid 1 = true
    /\ process c = w.
Proof.
  intros Hwf1 Hwf2 Hs. unfold arrive. cbn [map].
  rewrite (post_action_well_formed cfg r1 sid act1 src1 uid1 Hwf1).
  rewrite (post_action_well_formed cfg r2 sid act2 src2 uid2 Hwf2).
  unfold handle. cbn. rewrite Hs. cbn.
  eexists. split; [reflexivity |]. split; [reflexivity |].
  unfold in_flight, pending. cbn. rewrite !String.eqb_refl. cbn. auto.
Qed.

Lemma session_row_read_by_two_handlers_witness :
  exists c,
    schedule [0%nat; 1%nat]
      (arrive cfg_imagen [request "u0" 0; request "u0" 0] w_party_turn) = Some c
    /\ seen c = [(0%nat, "S", Some party); (1%nat, "S", Some party)]
    /\ in_flight c "S" 0 = true /\ in_flight c "S" 1 = true.
Proof.
  destruct (session_row_read_by_two_handlers cfg_imagen (request "u0" 0) (request "u0" 0)
              w_party_turn "S" "open the vault" "open the vault" (Some 0) (Some 0)
              "u0" "u0" party
              (request_well_formed "u0" 0 ltac:(discriminate))
              (request_well_formed "u0" 0 ltac:(discriminate)) eq_refl)
    as (c & Hc & Hseen & H0 & H1 & _).
  exists c. auto.
Defined.

(** * Properties beyond the turn coordinator's specification *)

(** ** The ledger invariant *)

Lemma select_max_turn_spec (d : Db) (sid : string) :
  match select_max_turn d sid with
  | None => indices d sid = []
  | Some m => m ∈ indices d sid /\ forall x, x ∈ indices d sid -> x <= m
  end.
Proof.
  unfold select_max_turn, indices.
  induction (turns_of d sid) as [| t l IH]; cbn [foldr map]; [reflexivity |].
  destruct (foldr _ None l) as [m |].
  - destruct IH as [Hin Hmax]. split.
    + destruct (Z.max_spec (turn_index t) m) as [[_ ->] | [_ ->]].
      * apply list_elem_of_further. exact Hin.
      * apply list_elem_of_here.
    + intros x Hx. apply elem_of_cons in Hx. destruct Hx as [-> | Hx].
      * lia.
      * specialize (Hmax x Hx). lia.
  - rewrite IH. split; [apply list_elem_of_here |].
    intros x Hx. apply elem_of_cons in Hx. destruct Hx as [-> | Hx]; [lia |].
    inversion Hx.
Qed.

Lemma index_free (d : Db) (row : TurnRow) :
  turn_index_taken d row = false -> turn_index row ∉ indices d (t_session_id row).
Proof.
  unfold indices, turns_of, turn_index_taken. intros Hfree Hin.
  apply list_elem_of_fmap in Hin. destruct Hin as (t & Hidx & Ht).
  apply list_elem_of_filter in Ht. destruct Ht as [Hsid Ht].
  assert (Htaken : existsb (fun t0 => String.eqb (t_session_id t0) (t_session_id row)
                                      && (turn_index t0 =? turn_index row)) (turns d) = true).
  { apply existsb_exists. exists t. split; [apply list_elem_of_In; exact Ht |].
    rewrite Hsid, Hidx, String.eqb_refl, Z.eqb_refl. reflexivity. }
  congruence.
Qed.

Lemma indices_after_insert (d : Db) (row : TurnRow) (now : Z) (sid : string) :
  indices (mkDb (sessions d) (session_players d) (turns d ++ [stamp row now])) sid
  = indices d sid ++ (if decide (t_session_id row = sid) then [turn_index row] else []).
Proof.
  unfold indices, turns_of. cbn [turns]. rewrite filter_app, fmap_app.
  f_equal. rewrite filter_cons, filter_nil. cbn [stamp t_session_id].
  destruct (decide (t_session_id row = sid)); reflexivity.
Qed.

Lemma ledger_ok_after_insert (d d1 : Db) (row : TurnRow) (now n : Z) (sid : string) :
  ledger_ok d sid ->
  insert_turn d row now = inr d1 ->
  out_of_range (Some n) (default (-1) (select_max_turn d (t_session_id row))) = false ->
  turn_index row = n + 1 ->
  ledger_ok d1 sid
  /\ (t_session_id row = sid -> select_max_turn d sid = Some n
                                /\ select_max_turn d1 sid = Some (n + 1)).
Proof.
  intros [Hnodup Hgap] Hins Hrange Hidx.
  apply insert_turn_inr in Hins. destruct Hins as [Hfree ->].
  destruct (decide (t_session_id row = sid)) as [Hsid | Hsid].
  2:{ split; [| intros; congruence].
      assert (Hsame : indices (mkDb (sessions d) (session_players d)
                                 (turns d ++ [stamp row now])) sid = indices d sid).
      { rewrite indices_after_insert. destruct (decide _); [congruence |].
        apply app_nil_r. }
      assert (Hmax : select_max_turn (mkDb (sessions d) (session_players d)
                                        (turns d ++ [stamp row now])) sid
                     = select_max_turn d sid).
      { unfold select_max_turn, turns_of. cbn [turns].
        rewrite filter_app, filter_cons, filter_nil. cbn [stamp t_session_id].
        destruct (decide (t_session_id row = sid)); [congruence |].
        rewrite app_nil_r. reflexivity. }
      split; [rewrite Hsame; exact Hnodup |].
      intros latest k. rewrite Hmax, Hsame. apply Hgap. }
  rewrite Hsid in Hrange.
  pose proof (select_max_turn_spec d sid) as Hspec.
  destruct (select_max_turn d sid) as [latest |] eqn:Hmax.
  2:{ unfold out_of_range in Hrange. change (default (-1) None) with (-1) in Hrange.
      apply orb_false_elim in Hrange. destruct Hrange as [H1 H2].
      apply Z.ltb_ge in H1, H2. lia. }
  unfold out_of_range in Hrange.
  change (default (-1) (Some latest)) with latest in Hrange.
  apply orb_false_elim in Hrange. destruct Hrange as [H1 H2].
  apply Z.ltb_ge in H1, H2. destruct Hspec as [Hlatest Hupper].
  pose proof (index_free d row Hfree) as Hnotin. rewrite Hsid, Hidx in Hnotin.
  assert (Hn : n = latest).
  { destruct (Z.eq_dec n latest) as [-> | Hne]; [reflexivity |].
    exfalso. apply Hnotin. apply (Hgap latest); [reflexivity | lia]. }
  subst n.
  set (d1 := mkDb (sessions d) (session_players d) (turns d ++ [stamp row now])).
  assert (Hind : indices d1 sid = indices d sid ++ [latest + 1]).
  { unfold d1. rewrite indices_after_insert, Hidx.
    destruct (decide _); [reflexivity | congruence]. }
  pose proof (select_max_turn_spec d1 sid) as Hspec1. rewrite Hind in Hspec1.
  assert (Hmax1 : select_max_turn d1 sid = Some (latest + 1)).
  { destruct (select_max_turn d1 sid) as [m |].
    - destruct Hspec1 as [Hm Hup]. f_equal.
      assert (latest + 1 <= m) by (apply Hup, elem_of_app; right; apply list_elem_of_here).
      apply elem_of_app in Hm. destruct Hm as [Hm | Hm].
      + specialize (Hupper m Hm). lia.
      + apply list_elem_of_singleton in Hm. exact Hm.
    - destruct (indices d sid); discriminate. }
  split; [| intros _; split; [reflexivity | exact Hmax1]].
  split.
  - rewrite Hind. apply NoDup_app. split; [exact Hnodup |]. split.
    + intros x Hx Hx'. apply list_elem_of_singleton in Hx'. subst x. exact (Hnotin Hx).
    + apply NoDup_singleton.
  - intros latest' k Hl Hk. rewrite Hmax1 in Hl. injection Hl as <-.
    rewrite Hind. apply elem_of_app.
    destruct (Z.eq_dec k (latest + 1)) as [-> | Hne].
    + right. apply list_elem_of_here.
    + left. apply (Hgap latest); [reflexivity | lia].
Qed.

(** X1.  Whatever a call of the action route answers, a ledger that held
    exactly one turn for each index from 0 to its latest index still does
    afterwards; this holds for the ledger of every session, not only the one
    addressed. *)
Theorem ledger_invariant_kept (cfg : Config) (req : Request) (w w' : World)
    (resp : Exn + Response) (sid : string) :
  txn w = None -> ledger_ok (db w) sid ->
  submitAction cfg req w = (resp, w') ->
  ledger_ok (db w') sid.
Proof.
  intros Htxn Hledger Hrun.
  destruct (submitAction_cases cfg req w Htxn) as (resp0 & w0 & Hrun' & _ & Hcase).
  rewrite Hrun in Hrun'. injection Hrun' as -> ->.
  destruct Hcase as [(-> & _) | [(e & _ & Hdb & _) | [Hskip | Hupd]]].
  - exact Hledger.
  - apply (ledger_ok_same_turns (db w)); [rewrite Hdb; reflexivity | exact Hledger].
  - destruct Hskip as (sid' & s & st & _ & _ & _ & _ & _ & _ & ->).
    apply (ledger_ok_same_turns (db w)); [reflexivity | exact Hledger].
  - destruct Hupd as (sid' & uid & s & rp & n & j & st & row & t1 & t2 & d1 & _ & _ & _
                      & _ & _ & _ & _ & Hrange & _ & Hrs & Hri & Hins & Hdb & _).
    apply (ledger_ok_same_turns d1); [rewrite Hdb; reflexivity |].
    rewrite <- Hrs in Hrange.
    exact (proj1 (ledger_ok_after_insert (db w) d1 row t1 n sid Hledger Hins Hrange Hri)).
Qed.

Lemma ledger_ok_db_solo : ledger_ok db_solo "S".
Proof.
  split.
  - vm_compute. repeat constructor. intros H. apply list_elem_of_In in H. destruct H.
  - intros latest n Hmax Hn. vm_compute in Hmax. injection Hmax as <-.
    assert (n = 0) as -> by lia. vm_compute. apply list_elem_of_here.
Defined.

Lemma ledger_invariant_kept_witness :
  ledger_ok (db (submitAction cfg_imagen (request "u0" 0) w_drop).2) "S".
Proof.
  apply (ledger_invariant_kept cfg_imagen (request "u0" 0) w_drop _
           (submitAction cfg_imagen (request "u0" 0) w_drop).1 "S" eq_refl
           ledger_ok_db_solo).
  destruct (submitAction cfg_imagen (request "u0" 0) w_drop). reflexivity.
Defined.

(** X2.  When a call of the action route answers with a new turn on a gapless
    ledger, the submitted turnIndex was the latest index, the new latest index
    is one more, and the table of turns is the old table with exactly one row
    appended, for this session and at that index. *)
Theorem new_turn_extends_ledger (cfg : Config) (req : Request) (w w' : World)
    (sid : string) (n : Z) (st : SessionState) :
  txn w = None -> ledger_ok (db w) sid ->
  sessionId req = Some sid -> turnIndex req = Some (Some n) ->
  submitAction cfg req w = (inr (Updated st), w') ->
  select_max_turn (db w) sid = Some n
  /\ select_max_turn (db w') sid = Some (n + 1)
  /\ exists row, turns (db w') = turns (db w) ++ [row]
                 /\ t_session_id row = sid /\ turn_index row = n + 1.
Proof.
  intros Htxn Hledger Hsid Hn Hrun.
  destruct (submitAction_cases cfg req w Htxn) as (resp0 & w0 & Hrun' & _ & Hcase).
  rewrite Hrun in Hrun'. injection Hrun' as <- <-.
  destruct Hcase as [(_ & Hno & _) | [(e & He & _) | [(sid' & s & st' & _ & _ & _ & _ & He & _) | Hupd]]];
    try discriminate; [exfalso; exact (Hno st eq_refl) |].
  destruct Hupd as (sid' & uid & s & rp & n' & j & st' & row & t1 & t2 & d1 & Hsid' & _ & Hn'
                    & _ & _ & _ & _ & Hrange & _ & Hrs & Hri & Hins & Hdb & _).
  rewrite Hsid in Hsid'. injection Hsid' as <-.
  rewrite Hn in Hn'. injection Hn' as <-.
  rewrite <- Hrs in Hrange.
  destruct (ledger_ok_after_insert (db w) d1 row t1 n sid Hledger Hins Hrange Hri)
    as [_ Hmax]. destruct (Hmax Hrs) as [Hbefore Hafter].
  split; [exact Hbefore |]. split.
  - rewrite Hdb. unfold select_max_turn, turns_of in *. exact Hafter.
  - apply insert_turn_inr in Hins. destruct Hins as [_ ->].
    exists (stamp row t1). rewrite Hdb. split; [reflexivity |]. split; assumption.
Qed.

Lemma new_turn_extends_ledger_witness :
  select_max_turn (db (submitAction cfg_imagen (request "u0" 0) w_drop).2) "S" = Some 1.
Proof.
  run_to_update "u0" w_drop st Hout.
  exact (proj1 (proj2 (new_turn_extends_ledger cfg_imagen (request "u0" 0) w_drop _ "S" 0 st
                         eq_refl ledger_ok_db_solo eq_refl eq_refl Hout))).
Defined.

(** ** What a call leaves alone *)

Lemma session_row_after (cfg : Config) (req : Request) (w w' : World)
    (resp : Exn + Response) (sid : string) (s : SessionRow) :
  txn w = None -> submitAction cfg req w = (resp, w') ->
  sessions (db w) !! sid = Some s ->
  session_players (db w') = session_players (db w)
  /\ exists next met goal t,
       sessions (db w') !! sid
       = Some (mkSession (theme s) (is_multiplayer s) (max_players s) next
                 (game_goal s) (goal_prerequisites s) met goal t)
       /\ (is_goal_met s = 1 -> goal = 1).
Proof.
  intros Htxn Hrun Hs.
  destruct (submitAction_cases cfg req w Htxn) as (resp0 & w0 & Hrun' & _ & Hcase).
  rewrite Hrun in Hrun'. injection Hrun' as -> ->.
  assert (Hsame : forall d, sessions d = sessions (db w) ->
            exists next met goal t,
              sessions d !! sid
              = Some (mkSession (theme s) (is_multiplayer s) (max_players s) next
                        (game_goal s) (goal_prerequisites s) met goal t)
              /\ (is_goal_met s = 1 -> goal = 1)).
  { intros d ->. exists (current_player_index s), (met_prerequisites s), (is_goal_met s),
      (last_updated_at s). rewrite Hs. destruct s. split; [reflexivity | auto]. }
  destruct Hcase as [(-> & _) | [(e & _ & Hdb & _) | [Hskip | Hupd]]].
  - split; [reflexivity | apply Hsame; reflexivity].
  - rewrite Hdb. split; [reflexivity | apply Hsame; reflexivity].
  - destruct Hskip as (sid' & s0 & st & _ & Hs0 & _ & _ & _ & _ & ->).
    cbn [db add_log set_db]. split; [reflexivity |].
    unfold update_session_index. cbn [sessions].
    destruct (decide (sid' = sid)) as [-> | Hne].
    + rewrite lookup_alter_eq, Hs. cbn. eauto 10.
    + rewrite lookup_alter_ne by exact Hne. apply (Hsame (db w)). reflexivity.
  - destruct Hupd as (sid' & uid & s0 & rp & n & j & st & row & t1 & t2 & d1 & _ & _ & _
                      & Hs0 & _ & _ & _ & _ & _ & _ & _ & Hins & Hdb & _).
    apply insert_turn_inr in Hins. destruct Hins as [_ ->]. rewrite Hdb.
    unfold update_session_after_turn. cbn [sessions session_players].
    split; [reflexivity |].
    destruct (decide (sid' = sid)) as [-> | Hne].
    + rewrite Hs in Hs0. injection Hs0 as <-.
      rewrite lookup_alter_eq, Hs. cbn.
      eexists _, _, _, _. split; [reflexivity |].
      intros Hmet. unfold final_goal. rewrite Hmet, Z.eqb_refl, orb_true_r. reflexivity.
    + rewrite lookup_alter_ne by exact Hne. apply (Hsame (db w)). reflexivity.
Qed.

(** X3.  No call of the action route changes the roster table, and of a
    session row it leaves theme, is_multiplayer, max_players, game_goal and
    goal_prerequisites as they were: only the turn pointer, the met list, the
    goal flag and the update time can move. *)
Theorem session_identity_is_fixed (cfg : Config) (req : Request) (w w' : World)
    (resp : Exn + Response) (sid : string) (s : SessionRow) :
  txn w = None -> submitAction cfg req w = (resp, w') ->
  sessions (db w) !! sid = Some s ->
  session_players (db w') = session_players (db w)
  /\ exists s', sessions (db w') !! sid = Some s'
       /\ theme s' = theme s /\ is_multiplayer s' = is_multiplayer s
       /\ max_players s' = max_players s /\ game_goal s' = game_goal s
       /\ goal_prerequisites s' = goal_prerequisites s.
Proof.
  intros Htxn Hrun Hs.
  destruct (session_row_after cfg req w w' resp sid s Htxn Hrun Hs)
    as (Hplayers & next & met & goal & t & Hs' & _).
  split; [exact Hplayers |]. eexists. split; [exact Hs' |]. repeat split.
Qed.

(** X4.  Once is_goal_met of a session is 1 it stays 1 after any call of the
    action route, whatever the generator reports. *)
Theorem goal_flag_never_reverts (cfg : Config) (req : Request) (w w' : World)
    (resp : Exn + Response) (sid : string) :
  txn w = None -> submitAction cfg req w = (resp, w') ->
  goal_flag (db w) sid = Some 1 -> goal_flag (db w') sid = Some 1.
Proof.
  intros Htxn Hrun Hflag. unfold goal_flag in *.
  destruct (sessions (db w) !! sid) as [s |] eqn:Hs; [| discriminate].
  injection Hflag as Hflag.
  destruct (session_row_after cfg req w w' resp sid s Htxn Hrun Hs)
    as (_ & next & met & goal & t & Hs' & Hgoal).
  rewrite Hs'. cbn. rewrite (Hgoal Hflag). reflexivity.
Qed.

(** X5.  For a call of the action route that is served alone (no transaction
    is open when it arrives and no other request runs before it is answered):
    if it is answered with a status other than 200, the database is left as
    the call found it and no transaction is open; unless the status is 500,
    the whole process state (replies consumed, identifiers, clock, log) is
    untouched as well. *)
Theorem rejection_changes_nothing (cfg : Config) (req : Request) (w w' : World)
    (resp : Response) :
  txn w = None -> submitAction cfg req w = (inr resp, w') ->
  status resp <> 200 ->
  db w' = db w /\ txn w' = None /\ (status resp <> 500 -> w' = w).
Proof.
  intros Htxn Hrun Hstatus.
  destruct (submitAction_cases cfg req w Htxn) as (resp0 & w0 & Hrun' & Ht & Hcase).
  rewrite Hrun in Hrun'. injection Hrun' as <- <-.
  destruct Hcase as [(-> & _) | [(e & -> & Hdb & _) | [Hskip | Hupd]]].
  - auto.
  - split; [exact Hdb |]. split; [exact Ht |]. intros H. exfalso. apply H. reflexivity.
  - destruct Hskip as (sid' & s0 & st & _ & _ & _ & _ & -> & _).
    exfalso. apply Hstatus. reflexivity.
  - destruct Hupd as (sid' & uid & s0 & rp & n & j & st & row & t1 & t2 & d1 & _ & _ & _
                      & _ & _ & _ & -> & _). exfalso. apply Hstatus. reflexivity.
Qed.

Lemma submitAction_pair (cfg : Config) (req : Request) (w : World) :
  submitAction cfg req w = ((submitAction cfg req w).1, (submitAction cfg req w).2).
Proof. destruct (submitAction cfg req w). reflexivity. Qed.

Lemma session_identity_is_fixed_witness :
  session_players (db (submitAction cfg_imagen (request "u0" 0) w_drop).2) = [seat "u0" 0].
Proof.
  exact (proj1 (session_identity_is_fixed cfg_imagen (request "u0" 0) w_drop _ _ "S" solo
                  eq_refl (submitAction_pair _ _ _) eq_refl)).
Defined.

Lemma goal_flag_never_reverts_witness :
  goal_flag (db (submitAction cfg_imagen (request "u0" 0) w_won).2) "S" = Some 1.
Proof.
  exact (goal_flag_never_reverts cfg_imagen (request "u0" 0) w_won _ _ "S"
           eq_refl (submitAction_pair _ _ _) eq_refl).
Defined.

Lemma rejection_changes_nothing_witness :
  db (submitAction cfg_openai_images (request "u0" 0) w_image_down).2 = db_solo.
Proof.
  assert (Hout : submitAction cfg_openai_images (request "u0" 0) w_image_down
                 = (inr (Failed ImageCallFailed),
                    (submitAction cfg_openai_images (request "u0" 0) w_image_down).2))
    by (vm_compute; reflexivity).
  exact (proj1 (rejection_changes_nothing cfg_openai_images (request "u0" 0) w_image_down _ _
                  eq_refl Hout ltac:(discriminate))).
Defined.

Lemma action_branch_run (cfg : Config) (req : Request) (w : World)
    (sid act : string) (src : option Z) (uid : string) (s : SessionRow)
    (rp : PlayerRow) :
  reaches_action w req sid act src uid s rp ->
  submitAction cfg req w
  = match run (process_action cfg sid s (select_players (db w) sid) rp uid act src) w with
    | (inl e, w') => run (Await SqlRollback (fun _ => Ret (Failed e))) w'
    | (inr a, w') => (inr a, w')
    end.
Proof.
  intros (Hwf & Hs & Hrp & Hmulti).
  unfold submitAction. rewrite (post_action_well_formed cfg req sid act src uid Hwf).
  rewrite run_try_catch. unfold handle. cbn [run bind await exec]. rewrite Hs.
  cbn [run exec]. unfold requester in Hrp. unfold current_player_connected in Hmulti.
  destruct (select_players (db w) sid) as [| p0 prest]; [discriminate |].
  rewrite Hrp. destruct (truthy (is_multiplayer s)) eqn:Hmp.
  - destruct (Hmulti eq_refl) as [Hown Hconn]. rewrite Hown in *.
    assert (Hsame : same_index (Some (player_index rp)) (Some (player_index rp)) = true)
      by (simpl; apply Z.eqb_refl).
    rewrite Hsame. cbn [negb andb]. rewrite run_bind.
    destruct (List.find (fun p => same_index (Some (player_index p))
                                    (Some (player_index rp))) (p0 :: prest))
      as [info |] eqn:Hinfo; [| discriminate].
    cbn [run bind await exec]. rewrite Hconn. reflexivity.
  - cbn [negb andb]. rewrite run_bind. cbn [run]. reflexivity.
Qed.

Lemma begin_then_rollback (w : World) :
  txn w = None -> set_db (set_db w (db w) (Some (db w))) (db w) None = w.
Proof. destruct w as [d t so pr ir u c l]. simpl. intros ->. reflexivity. Qed.

(** X6.  In the action branch, a turnIndex below 0 or above the latest stored
    index is answered 500 with the invalid-index error, and a turnIndex that
    parseInt could not read (NaN) is answered 500 because no history row is
    found; in both cases the process state is exactly the one found. *)
Theorem turn_index_must_exist (cfg : Config) (req : Request) (w : World)
    (sid act : string) (src : option Z) (uid : string) (s : SessionRow)
    (rp : PlayerRow) :
  txn w = None -> reaches_action w req sid act src uid s rp ->
  (out_of_range src (default (-1) (select_max_turn (db w) sid)) = true ->
   submitAction cfg req w
   = (inr (Failed (InvalidTurnIndex src (default (-1) (select_max_turn (db w) sid)))), w))
  /\ (src = None -> submitAction cfg req w = (inr (Failed NoHistoryFound), w)).
Proof.
  intros Htxn Hacts. rewrite (action_branch_run cfg req w sid act src uid s rp Hacts).
  unfold process_action. rewrite run_bind. cbn [await_or_throw run exec]. rewrite Htxn.
  cbn [run]. rewrite run_try_catch. cbn [run bind await exec db set_db].
  split.
  - intros Hrange. rewrite Hrange. cbn [run bind await_or_throw exec txn set_db].
    rewrite (begin_then_rollback w Htxn). reflexivity.
  - intros ->. cbn [out_of_range run exec select_history_up_to bind await_or_throw txn set_db].
    rewrite (begin_then_rollback w Htxn). reflexivity.
Qed.

(** ** callLLM for any retry budget *)

Lemma checked_ok (isInitialTurn : bool) (reply : ProviderReply) (j : json) :
  checked isInitialTurn reply = Some j ->
  common_fields_ok j = true /\ goal_fields_ok isInitialTurn j = true.
Proof.
  destruct reply as [| | [j0 |]]; cbn [checked]; try discriminate.
  destruct (common_fields_ok j0 && goal_fields_ok isInitialTurn j0) eqn:Hok; [| discriminate].
  intros [= <-]. apply andb_true_iff. exact Hok.
Qed.

Lemma llm_attempts_budget (provider : string) (p : Prompt) (isInitialTurn : bool)
    (maxRetries : Z) :
  forall (remaining : nat) (attempt : Z) (w : World),
    (remaining = 0%nat \/ attempt + Z.of_nat remaining = maxRetries + 1) ->
    exists (n : nat) (w' : World) (r : Exn + json),
      run (llm_attempts provider p isInitialTurn maxRetries remaining attempt) w = (r, w')
      /\ (n <= remaining)%nat
      /\ same_store w w' /\ image_replies w' = image_replies w
      /\ calls (log w') = (calls (log w) + (if known_provider provider then n else 0))%nat
      /\ clock w' = clock w
                    + (if Nat.eqb n 0 then 0
                       else 250 * ((attempt + Z.of_nat n - 1) * (attempt + Z.of_nat n - 2)
                                   - attempt * (attempt - 1)))
      /\ match r with
         | inr j => common_fields_ok j = true /\ goal_fields_ok isInitialTurn j = true
                    /\ (1 <= n)%nat
         | inl e => e = LlmFailedAfterRetries maxRetries /\ n = remaining
         end.
Proof.
  induction remaining as [| remaining IH]; intros attempt w Hsum.
  - exists 0%nat, w, (inl (LlmFailedAfterRetries maxRetries)). cbn [llm_attempts run].
    split; [reflexivity |]. split; [lia |]. split; [apply same_store_refl |].
    split; [reflexivity |]. split; [destruct (known_provider provider); lia |].
    split; [| split; reflexivity]. cbn [Nat.eqb]. lia.
  - destruct Hsum as [Hsum | Hsum]; [discriminate |].
    cbn [llm_attempts].
    (* one attempt: its outcome and the world it leaves *)
    assert (Hone : exists (o : option json) (w1 : World),
               run (if known_provider provider
                    then reply <- await (ProviderCall provider p) ;;
                         Ret (checked isInitialTurn reply)
                    else Ret None) w = (inr o, w1)
               /\ same_store w w1 /\ image_replies w1 = image_replies w
               /\ clock w1 = clock w
               /\ calls (log w1)
                  = (calls (log w) + (if known_provider provider then 1 else 0))%nat
               /\ (forall j, o = Some j ->
                     common_fields_ok j = true /\ goal_fields_ok isInitialTurn j = true)).
    { destruct (known_provider provider).
      - cbn [bind await run]. rewrite exec_provider_call. cbn [run].
        eexists _, _. split; [reflexivity |]. cbn.
        split; [repeat split |]. split; [reflexivity |]. split; [reflexivity |].
        split; [rewrite calls_app; reflexivity |].
        intros j Hj. exact (checked_ok _ _ _ Hj).
      - cbn [run]. exists None, w. split; [reflexivity |].
        split; [apply same_store_refl |]. split; [reflexivity |]. split; [reflexivity |].
        split; [lia | discriminate]. }
    destruct Hone as (o & w1 & Hrun1 & Hst1 & Him1 & Hck1 & Hcalls1 & Hok1).
    rewrite run_bind, Hrun1.
    destruct o as [j |].
    + cbn [run]. exists 1%nat, w1, (inr j).
      split; [reflexivity |]. split; [lia |]. split; [exact Hst1 |]. split; [exact Him1 |].
      split; [rewrite Hcalls1; destruct (known_provider provider); reflexivity |].
      split; [rewrite Hck1; cbn [Nat.eqb]; lia |].
      destruct (Hok1 j eq_refl). auto.
    + rewrite run_bind.
      set (w2 := if attempt <? maxRetries
                 then add_log (advance_clock w1 (500 * attempt)) (Slept (500 * attempt))
                 else w1).
      assert (Hrun2 : run (if attempt <? maxRetries then await (Sleep (500 * attempt))
                           else Ret tt) w1 = (inr tt, w2)).
      { unfold w2. destruct (attempt <? maxRetries); reflexivity. }
      rewrite Hrun2.
      assert (Hw2 : same_store w1 w2 /\ image_replies w2 = image_replies w1
                    /\ calls (log w2) = calls (log w1)
                    /\ clock w2 = clock w1 + (if attempt <? maxRetries then 500 * attempt else 0)).
      { unfold w2. destruct (attempt <? maxRetries); cbn.
        - split; [repeat split |]. split; [reflexivity |].
          split; [rewrite calls_app; cbn; lia | reflexivity].
        - split; [apply same_store_refl |]. split; [reflexivity |]. split; [reflexivity | lia]. }
      destruct Hw2 as (Hst2 & Him2 & Hcalls2 & Hck2).
      destruct (IH (attempt + 1) w2 ltac:(right; lia))
        as (n & w' & r & Hrun & Hn & Hst & Him & Hcalls & Hck & Hres).
      exists (S n), w', r. split; [exact Hrun |]. split; [lia |].
      split.
      { destruct Hst1 as (a1 & b1 & c1 & d1), Hst2 as (a2 & b2 & c2 & d2),
          Hst as (a3 & b3 & c3 & d3). repeat split; congruence. }
      split; [congruence |].
      split.
      { rewrite Hcalls, Hcalls2, Hcalls1. destruct (known_provider provider); lia. }
      split.
      { rewrite Hck, Hck2, Hck1. cbn [Nat.eqb].
        destruct (attempt <? maxRetries) eqn:Hlt.
        - apply Z.ltb_lt in Hlt.
          assert (Hn1 : (1 <= n)%nat).
          { destruct r as [e | j]; [destruct Hres as [_ ->]; lia | destruct Hres as (_ & _ & ?); lia]. }
          destruct n as [| n]; [lia |]. cbn [Nat.eqb]. nia.
        - apply Z.ltb_ge in Hlt. assert (remaining = 0%nat) as -> by lia.
          assert (n = 0%nat) as -> by lia. cbn [Z.of_nat Nat.eqb]. nia. }
      destruct r as [e | j].
      * destruct Hres as [-> ->]. split; reflexivity.
      * destruct Hres as (H1 & H2 & H3). repeat split; [assumption | assumption | lia].
Qed.

(** How the choice of the default model can fail. *)
Lemma default_model_fails (providerToUse : string) (isInitialTurn : bool) (e : Exn) :
  default_model providerToUse isInitialTurn = inl e ->
  (e = InvalidLlmProvider /\ known_provider providerToUse = false)
  \/ (e = NotDefined "INITIAL_OPENAI_MODEL"
      /\ isInitialTurn = true /\ providerToUse = "openai")
  \/ (e = NotDefined "INITIAL_ANTHROPIC_MODEL"
      /\ isInitialTurn = true /\ providerToUse = "anthropic").
Proof.
  unfold default_model, known_provider.
  destruct (String.eqb providerToUse "openai") eqn:Ho.
  { apply String.eqb_eq in Ho. destruct isInitialTurn; [| discriminate].
    intros [= <-]. right. left. auto. }
  destruct (String.eqb providerToUse "google"); [discriminate |].
  destruct (String.eqb providerToUse "anthropic") eqn:Ha.
  { apply String.eqb_eq in Ha. destruct isInitialTurn; [| discriminate].
    intros [= <-]. right. right. auto. }
  intros [= <-]. left. auto.
Qed.

(** X7.  For any retry budget, provider and model override, callLLM touches
    neither the database, the open transaction, the presence registry nor the
    image service; it makes at most maxRetries provider calls, and after n
    attempts the time slept is 250*n*(n-1) ms (500 ms times the attempt number
    after each failed attempt but the last). A result needs at least one
    attempt. A failure is one of three: without a model override, the
    invalid-provider error of the model switch; without a model override and
    on an initial turn, the ReferenceError for INITIAL_OPENAI_MODEL or
    INITIAL_ANTHROPIC_MODEL, two names the switch reads for provider openai or
    anthropic and the file never declares (both kinds are raised before
    anything happens); or the terminal error after exactly maxRetries
    attempts. *)
Theorem callLLM_budget (cfg : Config) (p : Prompt) (maxRetries : Z)
    (isInitialTurn : bool) (providerOverride modelOverride : option string)
    (w w' : World) (r : Exn + json) :
  run (callLLM cfg p maxRetries isInitialTurn providerOverride modelOverride) w = (r, w') ->
  exists n : nat,
    (n <= Z.to_nat maxRetries)%nat
    /\ same_store w w' /\ image_replies w' = image_replies w
    /\ (calls (log w') <= calls (log w) + n)%nat
    /\ clock w' = clock w + 250 * Z.of_nat n * (Z.of_nat n - 1)
    /\ match r with
       | inr j => (1 <= n)%nat
       | inl e => (e = InvalidLlmProvider /\ falsy modelOverride = true /\ w' = w)
                  \/ (e = NotDefined "INITIAL_OPENAI_MODEL"
                      /\ isInitialTurn = true /\ falsy modelOverride = true /\ w' = w)
                  \/ (e = NotDefined "INITIAL_ANTHROPIC_MODEL"
                      /\ isInitialTurn = true /\ falsy modelOverride = true /\ w' = w)
                  \/ (e = LlmFailedAfterRetries maxRetries /\ n = Z.to_nat maxRetries)
       end.
Proof.
  unfold callLLM.
  set (providerToUse := if falsy providerOverride then _ else _).
  destruct (if falsy modelOverride then default_model providerToUse isInitialTurn
            else inr tt) as [e0 | []] eqn:Hmodel.
  - cbn [run]. intros [= <- <-]. exists 0%nat. split; [lia |].
    split; [apply same_store_refl |]. split; [reflexivity |]. split; [lia |].
    split; [cbn [Z.of_nat]; lia |].
    destruct (falsy modelOverride); [| discriminate].
    destruct (default_model_fails _ _ _ Hmodel) as [(-> & _) | [(-> & -> & _) | (-> & -> & _)]];
      auto 10.
  - intros Hrun.
    destruct (llm_attempts_budget providerToUse p isInitialTurn maxRetries
                (Z.to_nat maxRetries) 1 w)
      as (n & w0 & r0 & Hrun0 & Hn & Hst & Him & Hcalls & Hck & Hres).
    { destruct (Z.to_nat maxRetries) eqn:Hm; [left; reflexivity | right; lia]. }
    rewrite Hrun in Hrun0. injection Hrun0 as <- <-.
    exists n. split; [exact Hn |]. split; [exact Hst |]. split; [exact Him |].
    split; [rewrite Hcalls; destruct (known_provider providerToUse); lia |].
    split; [rewrite Hck; destruct n; cbn [Nat.eqb]; nia |].
    destruct r as [e | j].
    + right. right. right. exact Hres.
    + destruct Hres as (_ & _ & H). exact H.
Qed.

(** X8.  Whatever callLLM returns has passed every structure check: narrative,
    image_prompt and timeOfDay are strings, suggested_actions an array of
    strings, isSameLocation a boolean, characters an array of well-formed
    characters; on an initial turn game_goal is a string that
    String.prototype.trim does not empty (white space being that of
    ECMAScript, not of ASCII alone) and goal_prerequisites an array of
    strings, otherwise updated_met_prerequisites is an array of strings and
    is_goal_met_this_turn a boolean. *)
Theorem callLLM_returns_checked_object (cfg : Config) (p : Prompt) (maxRetries : Z)
    (isInitialTurn : bool) (providerOverride modelOverride : option string)
    (w w' : World) (j : json) :
  run (callLLM cfg p maxRetries isInitialTurn providerOverride modelOverride) w = (inr j, w') ->
  is_string (prop j "narrative") = true
  /\ is_string (prop j "image_prompt") = true
  /\ is_array_of json_is_string (prop j "suggested_actions") = true
  /\ is_string (prop j "timeOfDay") = true
  /\ is_boolean (prop j "isSameLocation") = true
  /\ is_array_of is_character (prop j "characters") = true
  /\ (if isInitialTurn
      then is_string (prop j "game_goal") = true
           /\ is_blank (as_string (prop j "game_goal")) = false
           /\ is_array_of json_is_string (prop j "goal_prerequisites") = true
      else is_array_of json_is_string (prop j "updated_met_prerequisites") = true
           /\ is_boolean (prop j "is_goal_met_this_turn") = true).
Proof.
  unfold callLLM.
  set (providerToUse := if falsy providerOverride then _ else _).
  destruct (if falsy modelOverride then default_model providerToUse isInitialTurn
            else inr tt) as [e0 | []]; [cbn [run]; discriminate |].
  intros Hrun.
  destruct (llm_attempts_budget providerToUse p isInitialTurn maxRetries
              (Z.to_nat maxRetries) 1 w)
    as (n & w0 & r0 & Hrun0 & _ & _ & _ & _ & _ & Hres).
  { destruct (Z.to_nat maxRetries) eqn:Hm; [left; reflexivity | right; lia]. }
  rewrite Hrun in Hrun0. injection Hrun0 as <- <-.
  destruct Hres as (Hcommon & Hgoal & _).
  unfold common_fields_ok in Hcommon. unfold goal_fields_ok in Hgoal.
  repeat (apply andb_true_iff in Hcommon; destruct Hcommon as [Hcommon ?]).
  repeat (split; [assumption |]).
  destruct isInitialTurn.
  - repeat (apply andb_true_iff in Hgoal; destruct Hgoal as [Hgoal ?]).
    repeat split; try assumption. apply negb_true_iff. assumption.
  - apply andb_true_iff in Hgoal. exact Hgoal.
Qed.

(** ** The image dispatch *)

Lemma image_requests_app (l1 l2 : list Event) :
  image_requests (l1 ++ l2) = (image_requests l1 + image_requests l2)%nat.
Proof.
  induction l1 as [| e l1 IH]; simpl; [reflexivity |].
  destruct (is_image_request e); simpl; rewrite IH; reflexivity.
Qed.

Ltac requested w :=
  rewrite exec_image_call;
  let w1 := fresh "w1" in
  set (w1 := mkWorld _ _ _ _ _ _ _ _);
  assert (image_frame w w1) by (repeat split; cbn; rewrite calls_app; cbn; lia);
  assert (image_requests (log w1) = (image_requests (log w) + 1)%nat)
    by (cbn; rewrite image_requests_app; reflexivity).

(** The outcome of the dispatch alone. *)
Lemma image_dispatch_run (cfg : Config) (turnData : json)
    (base64PreviousImage : option string) (w : World) :
  exists (w' : World) (r : Exn + string),
    run (generateImageWithAppropriateProvider cfg turnData base64PreviousImage) w = (r, w')
    /\ image_frame w w'
    /\ match image_exception cfg (nth 0 (image_replies w) ImageThrows) with
       | Some e => r = inl e
       | None => exists url, r = inr url /\ image_reference cfg url
       end.
Proof.
  unfold generateImageWithAppropriateProvider, image_exception.
  destruct (String.eqb (ACTIVE_IMAGE_PROVIDER cfg) "google") eqn:Hg.
  - unfold generateImageWithImagen. cbn [falsy].
    destruct (is_blank (as_string (prop turnData "image_prompt"))) eqn:Hblank; cbn [negb].
    + cbn [run]. eexists _, _. split; [reflexivity |]. split; [apply image_frame_refl |].
      eexists. split; [reflexivity |]. right. right. right. reflexivity.
    + cbn [run bind await]. requested w.
      destruct (nth 0 (image_replies w) ImageThrows) as [| | b64]; cbn [run];
        try destruct (String.eqb b64 ""); cbn [run];
        (eexists _, _; split; [reflexivity |]; split; [assumption |];
         eexists; split; [reflexivity |]; unfold image_reference; eauto 6).
  - destruct (String.eqb (ACTIVE_IMAGE_PROVIDER cfg) "google-flash") eqn:Hf.
    + cbn [orb].
      assert (Hflash : forall prev, exists (w' : World) (url : string),
                 run (generateImageWithGoogleFlash
                        (as_string (prop turnData "image_prompt")) prev) w = (inr url, w')
                 /\ image_frame w w'
                 /\ image_reference cfg url).
      { intros prev. unfold generateImageWithGoogleFlash. cbn [run bind await].
        requested w.
        destruct (nth 0 (image_replies w) ImageThrows) as [| | b64]; cbn [run];
          (eexists _, _; split; [reflexivity |]; split; [assumption |];
           unfold image_reference; eauto 6). }
      destruct (as_bool (prop turnData "isSameLocation") && negb (falsy base64PreviousImage));
        [destruct (Hflash base64PreviousImage) as (w' & url & Hrun & Hfr & Href)
        | destruct (Hflash None) as (w' & url & Hrun & Hfr & Href)];
        (exists w', (inr url); split; [exact Hrun |]; split; [exact Hfr |]; eauto).
    + destruct (String.eqb (ACTIVE_IMAGE_PROVIDER cfg) "openai") eqn:Ho; cbn [orb].
      * unfold generateImageWithOpenAI. cbn [run bind await]. requested w.
        destruct (nth 0 (image_replies w) ImageThrows) as [| | b64]; cbn [run];
          (eexists _, _; split; [reflexivity |]; split; [assumption |];
           first [reflexivity
                 | eexists; split; [reflexivity |]; unfold image_reference; eauto]).
      * cbn [run]. eexists _, _. split; [reflexivity |]. split; [apply image_frame_refl |].
        reflexivity.
Qed.

(** X9.  For turn data as callLLM checks it (image_prompt a string,
    isSameLocation a boolean), generateImageWithAppropriateProvider always
    terminates, leaves database, transaction, registry, identifiers and clock
    alone, and sends exactly one request to the image service unless the
    provider is unknown or the provider is google and the prompt is emptied by
    String.prototype.trim. It throws only for an unknown provider, or with
    provider openai when the request itself throws; otherwise it returns a
    data URL or one of the three placeholder references. With provider openai
    a response whose first entry has no b64_json goes unnoticed: the reference
    returned is the data URL made of the word undefined. *)
Theorem image_dispatch_outcome (cfg : Config) (turnData : json)
    (base64PreviousImage : option string) (w : World) :
  is_string (prop turnData "image_prompt") = true ->
  is_boolean (prop turnData "isSameLocation") = true ->
  exists (w' : World) (r : Exn + string),
    run (generateImageWithAppropriateProvider cfg turnData base64PreviousImage) w = (r, w')
    /\ image_frame w w'
    /\ image_requests (log w')
       = (image_requests (log w) + (if image_is_requested cfg turnData then 1 else 0))%nat
    /\ match image_exception cfg (nth 0 (image_replies w) ImageThrows) with
       | Some e => r = inl e
       | None => exists url, r = inr url /\ image_reference cfg url
       end
    /\ (ACTIVE_IMAGE_PROVIDER cfg = "openai" ->
        nth 0 (image_replies w) ImageThrows = ImageNoData ->
        r = inr (data_url "undefined")).
Proof.
  intros _ _.
  unfold generateImageWithAppropriateProvider, image_exception, image_is_requested.
  destruct (String.eqb (ACTIVE_IMAGE_PROVIDER cfg) "google") eqn:Hg.
  - assert (Hno : ACTIVE_IMAGE_PROVIDER cfg <> "openai")
      by (intros Hp; rewrite Hp in Hg; discriminate).
    unfold generateImageWithImagen. cbn [falsy].
    destruct (is_blank (as_string (prop turnData "image_prompt"))) eqn:Hblank; cbn [negb].
    + cbn [run]. eexists _, _. split; [reflexivity |]. split; [apply image_frame_refl |].
      split; [lia |]. split; [| intros Hp; contradiction].
      eexists. split; [reflexivity |]. right. right. right. reflexivity.
    + cbn [run bind await]. requested w.
      destruct (nth 0 (image_replies w) ImageThrows) as [| | b64]; cbn [run];
        try destruct (String.eqb b64 ""); cbn [run];
        (eexists _, _; split; [reflexivity |]; split; [assumption |]; split; [assumption |];
         split; [| intros Hp; contradiction];
         eexists; split; [reflexivity |]; unfold image_reference; eauto 6).
  - destruct (String.eqb (ACTIVE_IMAGE_PROVIDER cfg) "google-flash") eqn:Hf.
    + cbn [orb].
      assert (Hflash : forall prev, exists (w' : World) (url : string),
                 run (generateImageWithGoogleFlash
                        (as_string (prop turnData "image_prompt")) prev) w = (inr url, w')
                 /\ image_frame w w'
                 /\ image_requests (log w') = (image_requests (log w) + 1)%nat
                 /\ image_reference cfg url).
      { intros prev. unfold generateImageWithGoogleFlash. cbn [run bind await].
        requested w.
        destruct (nth 0 (image_replies w) ImageThrows) as [| | b64]; cbn [run];
          (eexists _, _; split; [reflexivity |]; split; [assumption |]; split; [assumption |];
           unfold image_reference; eauto 6). }
      destruct (as_bool (prop turnData "isSameLocation") && negb (falsy base64PreviousImage));
        [destruct (Hflash base64PreviousImage) as (w' & url & Hrun & Hfr & Hr & Href)
        | destruct (Hflash None) as (w' & url & Hrun & Hfr & Hr & Href)];
        (exists w', (inr url); split; [exact Hrun |]; split; [exact Hfr |]; split; [exact Hr |];
         split; [eauto | intros Hp; rewrite Hp in Hf; discriminate]).
    + destruct (String.eqb (ACTIVE_IMAGE_PROVIDER cfg) "openai") eqn:Ho; cbn [orb].
      * unfold generateImageWithOpenAI. cbn [run bind await]. requested w.
        destruct (nth 0 (image_replies w) ImageThrows) as [| | b64]; cbn [run];
          (eexists _, _; split; [reflexivity |]; split; [assumption |]; split; [assumption |];
           split;
           [first [reflexivity
                  | eexists; split; [reflexivity |]; unfold image_reference; eauto]
           | intros _ Hreply; first [discriminate | reflexivity]]).
      * cbn [run]. eexists _, _. split; [reflexivity |]. split; [apply image_frame_refl |].
        split; [lia |]. split; [reflexivity |].
        intros Hp. rewrite Hp in Ho. discriminate.
Qed.

Lemma image_dispatch_outcome_witness :
  (run (generateImageWithAppropriateProvider cfg_openai_images (reply [] false) None)
     (world db_solo [] [] [ImageNoData])).1
  = inr (data_url "undefined").
Proof.
  destruct (image_dispatch_outcome cfg_openai_images (reply [] false) None
              (world db_solo [] [] [ImageNoData]) eq_refl eq_refl)
    as (w' & r & Hrun & _ & _ & _ & Hopenai).
  rewrite Hrun. exact (Hopenai eq_refl eq_refl).
Defined.

(** ** The previous image handed to the next turn *)

Lemma until_comma_id (s : string) : after_comma s = None -> until_comma s = s.
Proof.
  induction s as [| c s IH]; cbn [after_comma until_comma]; [reflexivity |].
  destruct (Ascii.eqb c ","%char); [discriminate |].
  intros H. rewrite (IH H). reflexivity.
Qed.

(** X10.  The base64 payload the action route extracts from the previous
    turn's image is exactly what the image helpers wrapped into the data URL
    (for a payload without a comma), and each of the placeholder references
    the helpers can store yields no payload. *)
Theorem previous_image_round_trip (b64 : string) :
  after_comma b64 = None ->
  base64_of_previous (Some (data_url b64)) = Some b64
  /\ (forall ratio,
         base64_of_previous (Some (placeholder_failed_ratio ratio)) = None
         /\ base64_of_previous (Some (placeholder_missing_prompt ratio)) = None)
  /\ base64_of_previous (Some placeholder_failed) = None.
Proof.
  intros Hfree. split; [| split; [intros ratio; split |]]; try reflexivity.
  unfold base64_of_previous, data_url, split_comma_1.
  change ("data:image/png;base64," +:+ b64)
    with (String.append "data:image/png;base64," b64).
  cbv [String.append String.app]. cbn.
  rewrite (until_comma_id b64 Hfree). destruct b64; reflexivity.
Qed.

(** ** ORDER BY *)

Lemma insert_by_perm {A : Type} (key : A -> Z) (x : A) (l : list A) :
  insert_by key x l ≡ₚ x :: l.
Proof.
  induction l as [| y l IH]; cbn [insert_by]; [reflexivity |].
  destruct (key x <=? key y); [reflexivity |].
  rewrite IH. apply Permutation_swap.
Qed.

Lemma order_by_perm {A : Type} (key : A -> Z) (l : list A) : order_by key l ≡ₚ l.
Proof.
  unfold order_by. induction l as [| x l IH]; cbn [foldr]; [reflexivity |].
  rewrite insert_by_perm, IH. reflexivity.
Qed.

Lemma insert_by_ascending {A : Type} (key : A -> Z) (x : A) (l : list A) :
  ascending key l -> ascending key (insert_by key x l).
Proof.
  unfold ascending. induction l as [| y l IH]; intros Hs; cbn [insert_by].
  - repeat constructor.
  - destruct (key x <=? key y) eqn:Hle.
    + apply Z.leb_le in Hle. constructor; [exact Hs |].
      apply StronglySorted_inv in Hs. destruct Hs as [_ Hall].
      constructor; [exact Hle |].
      eapply Forall_impl; [exact Hall |]. intros z Hz. cbn in *. lia.
    + apply Z.leb_gt in Hle.
      apply StronglySorted_inv in Hs. destruct Hs as [Hs Hall].
      constructor; [apply IH; exact Hs |].
      rewrite insert_by_perm. constructor; [lia | exact Hall].
Qed.

Lemma order_by_ascending {A : Type} (key : A -> Z) (l : list A) :
  ascending key (order_by key l).
Proof.
  unfold order_by. induction l as [| x l IH]; cbn [foldr].
  - constructor.
  - apply insert_by_ascending. exact IH.
Qed.

(** X11.  getFullSessionState changes nothing; when it returns a document, the
    session exists, the players of the document are exactly the session's
    roster rows in ascending player_index and its history exactly the
    session's turns in ascending turn_index. *)
Theorem state_document_is_ordered (sessionId : string) (w w' : World)
    (st : SessionState) :
  run (getFullSessionState sessionId) w = (inr (Some st), w') ->
  w' = w
  /\ st_history st ≡ₚ turns_of (db w) sessionId
  /\ ascending turn_index (st_history st)
  /\ st_players st ≡ₚ filter (fun p => p_session_id p = sessionId) (session_players (db w))
  /\ ascending player_index (st_players st)
  /\ is_Some (sessions (db w) !! sessionId).
Proof.
  rewrite state_run. intros [= Hst <-]. split; [reflexivity |].
  unfold state_of in Hst.
  destruct (sessions (db w) !! sessionId) as [s |]; [| discriminate].
  injection Hst as <-. cbn [st_history st_players].
  split; [apply order_by_perm |]. split; [apply order_by_ascending |].
  split; [apply order_by_perm |]. split; [apply order_by_ascending | eauto].
Qed.

Lemma run_pair {A : Type} (p : Prog A) (w : World) : run p w = ((run p w).1, (run p w).2).
Proof. destruct (run p w). reflexivity. Qed.

Lemma state_document_is_ordered_witness :
  ascending turn_index [opening; second].
Proof.
  assert (Hrun : run (getFullSessionState "S") w_stale
                 = (inr (Some (mkState "S" "Fantasy" false None [seat "u0" 0]
                                 [opening; second] (Some "Find the crown")
                                 ["find the key"; "open the vault"] ["find the key"] false)),
                    w_stale)) by (vm_compute; reflexivity).
  exact (proj1 (proj2 (proj2 (state_document_is_ordered "S" w_stale _ _ Hrun)))).
Defined.

(** ** A submission that goes through *)

Lemma callLLM_accepts (cfg : Config) (p : Prompt) (w : World) (j : json) :
  known_provider (ACTIVE_LLM_PROVIDER cfg) = true ->
  accepted_reply w = Some j ->
  exists w1, run (callLLM cfg p 3 false None None) w = (inr j, w1)
             /\ same_store w w1 /\ image_replies w1 = image_replies w.
Proof.
  intros Hk Hacc.
  destruct (callLLM_run cfg p w Hk)
    as (n & w1 & r & Hrun & Hn & _ & Hst & Him & Hnone & Hres).
  exists w1. split; [| split; assumption].
  destruct Hres as [(j' & -> & Hj') | (_ & _ & Hall)].
  - rewrite (accepted_reply_intro w n j' Hn Hnone Hj') in Hacc. injection Hacc as ->.
    exact Hrun.
  - exfalso. apply accepted_reply_some in Hacc. destruct Hacc as (i & Hi & Hsome).
    rewrite (Hall i Hi) in Hsome. discriminate.
Qed.

Lemma history_up_to_latest (d : Db) (sid : string) (n : Z) :
  select_max_turn d sid = Some n -> select_history_up_to d sid (Some n) <> [].
Proof.
  intros Hmax Hnil. pose proof (select_max_turn_spec d sid) as Hspec.
  rewrite Hmax in Hspec. destruct Hspec as [Hin _].
  unfold indices in Hin. apply list_elem_of_fmap in Hin. destruct Hin as (t & Ht & Hin).
  assert (Hmem : t ∈ select_history_up_to d sid (Some n)).
  { unfold select_history_up_to. rewrite order_by_perm.
    apply list_elem_of_filter. split; [lia | exact Hin]. }
  rewrite Hnil in Hmem. inversion Hmem.
Qed.

Lemma index_above_latest_is_free (d : Db) (row : TurnRow) (n : Z) :
  select_max_turn d (t_session_id row) = Some n -> turn_index row = n + 1 ->
  turn_index_taken d row = false.
Proof.
  intros Hmax Hidx. destruct (turn_index_taken d row) eqn:Htaken; [| reflexivity].
  exfalso. unfold turn_index_taken in Htaken. apply existsb_exists in Htaken.
  destruct Htaken as (t & Hin & Ht). apply andb_true_iff in Ht. destruct Ht as [Hs Hi].
  apply String.eqb_eq in Hs. apply Z.eqb_eq in Hi.
  pose proof (select_max_turn_spec d (t_session_id row)) as Hspec.
  rewrite Hmax in Hspec. destruct Hspec as [_ Hupper].
  assert (Hle : turn_index t <= n).
  { apply Hupper. unfold indices, turns_of. apply list_elem_of_fmap. exists t.
    split; [reflexivity |]. apply list_elem_of_filter. split; [exact Hs |].
    apply list_elem_of_In. exact Hin. }
  lia.
Qed.

(** X12.  Served alone (no transaction is open when it arrives and no other
    request runs before it is answered), a well-formed request of the player
    to move (holding a socket on a multiplayer session), at the latest turn
    index, with a generator reply that passes the checks within three
    attempts, an image step that does not throw and a fresh turn id, is
    answered 200 with the session document: exactly one turn is appended,
    carrying the fresh id, index latest+1, the reply's narrative, prompt,
    suggestions, time of day, location flag and characters, the action, the
    requester's user id and player index; the document returned is the one of
    the new store, it is the last thing broadcast, and no transaction is left
    open. *)
Theorem accepted_submission_is_recorded (cfg : Config) (req : Request) (w : World)
    (sid act : string) (n : Z) (uid : string) (s : SessionRow) (rp : PlayerRow)
    (j : json) :
  txn w = None -> reaches_action w req sid act (Some n) uid s rp ->
  select_max_turn (db w) sid = Some n -> 0 <= n ->
  known_provider (ACTIVE_LLM_PROVIDER cfg) = true -> accepted_reply w = Some j ->
  image_exception cfg (nth 0 (image_replies w) ImageThrows) = None ->
  fresh_turn_id w ->
  exists st w' url t,
    submitAction cfg req w = (inr (Updated st), w')
    /\ image_reference cfg url
    /\ turns (db w')
       = turns (db w)
         ++ [mkTurn (hd "" (uuids w)) sid (n + 1) (as_string (prop j "narrative")) url
               (as_string (prop j "image_prompt"))
               (map json_string (as_array (prop j "suggested_actions")))
               (Some act) (as_string (prop j "timeOfDay"))
               (if as_bool (prop j "isSameLocation") then 1 else 0)
               (as_array (prop j "characters")) (Some uid) (Some (player_index rp)) t]
    /\ state_of (db w') sid = Some st
    /\ last (log w') = Some (Emitted sid st)
    /\ txn w' = None.
Proof.
  intros Htxn Hacts Hmax Hn Hk Hacc Himg Hfresh.
  rewrite (action_branch_run cfg req w sid act (Some n) uid s rp Hacts).
  destruct Hacts as (_ & Hs & _).
  unfold process_action. rewrite run_bind. cbn [await_or_throw run exec]. rewrite Htxn.
  cbn [run]. set (w1 := set_db w (db w) (Some (db w))).
  rewrite run_try_catch. cbn [run bind await exec]. change (db w1) with (db w).
  rewrite Hmax. unfold out_of_range. change (default (-1) (Some n)) with n.
  assert (Hr1 : (n <? 0) = false) by (apply Z.ltb_ge; lia).
  assert (Hr2 : (n <? n) = false) by (apply Z.ltb_irrefl).
  rewrite Hr1, Hr2. cbn [orb run exec]. change (db w1) with (db w).
  pose proof (history_up_to_latest (db w) sid n Hmax) as Hhist.
  destruct (select_history_up_to (db w) sid (Some n)) as [| h0 hrest]; [congruence |].
  cbn [run exec]. change (db w1) with (db w). rewrite run_bind.
  match goal with
  | |- context [run (callLLM cfg ?p 3 false None None) w1] =>
      destruct (callLLM_accepts cfg p w1 j Hk Hacc)
        as (w2 & -> & (Hdb2 & Htx2 & Hso2 & Huu2) & Him2)
  end.
  rewrite run_bind.
  match goal with
  | |- context [run (generateImageWithAppropriateProvider cfg j ?b) w2] =>
      destruct (image_dispatch_run cfg j b w2)
        as (w3 & r3 & -> & (Hdb3 & Htx3 & Hso3 & Huu3 & Hck3 & Hcalls3) & Hout)
  end.
  rewrite Him2 in Hout. change (image_replies w1) with (image_replies w) in Hout.
  rewrite Himg in Hout. destruct Hout as (url & -> & Hurl).
  cbn [run exec].
  assert (Huu : uuids w3 = uuids w) by (rewrite Huu3, Huu2; reflexivity).
  assert (Hdb : db w3 = db w) by (rewrite Hdb3, Hdb2; reflexivity).
  assert (Htx : txn w3 = Some (db w)) by (rewrite Htx3, Htx2; reflexivity).
  set (w4 := match uuids w3 with [] => w3 | _ :: rest => set_uuids w3 rest end).
  replace (match uuids w3 with [] => ("", w3) | u :: rest => (u, set_uuids w3 rest) end)
    with (hd "" (uuids w), w4)
    by (subst w4; rewrite <- Huu; destruct (uuids w3); reflexivity).
  assert (Hdb4 : db w4 = db w) by (subst w4; destruct (uuids w3); exact Hdb).
  assert (Htx4 : txn w4 = Some (db w)) by (subst w4; destruct (uuids w3); exact Htx).
  rewrite run_bind. cbn [await_or_throw run exec]. rewrite Hdb4.
  match goal with
  | |- context [insert_turn (db w) ?row (clock w4)] => set (newRow := row)
  end.
  assert (Hins : insert_turn (db w) newRow (clock w4)
                 = inr (mkDb (sessions (db w)) (session_players (db w))
                          (turns (db w) ++ [stamp newRow (clock w4)]))).
  { unfold insert_turn.
    assert (H1 : turn_id_taken (db w) newRow = false) by exact Hfresh.
    assert (H2 : turn_index_taken (db w) newRow = false)
      by (apply (index_above_latest_is_free (db w) newRow n); [exact Hmax | reflexivity]).
    rewrite H1, H2. reflexivity. }
  rewrite Hins. cbn [run bind await exec set_db txn db].
  rewrite Htx4. rewrite run_bind. cbn [await_or_throw run exec txn set_db].
  rewrite run_bind, state_run. cbn [db set_db clock].
  set (dfin := update_session_after_turn _ sid _ _ _ _).
  assert (Hst : exists st, state_of dfin sid = Some st).
  { unfold state_of, dfin, update_session_after_turn. cbn [sessions].
    rewrite lookup_alter_eq, Hs. cbn. eauto. }
  destruct Hst as [st Hst]. rewrite Hst. cbn [run exec].
  exists st. eexists. exists url, (clock w4).
  split; [reflexivity |]. split; [exact Hurl |]. split; [reflexivity |].
  split; [exact Hst |]. split; [| reflexivity].
  cbn [log add_log]. apply last_snoc.
Qed.

(** ** Concrete runs of the action route *)

Lemma solo_reaches_action (w : World) (i : Z) :
  sessions (db w) !! "S" = Some solo -> requester (db w) "S" "u0" = Some (seat "u0" 0) ->
  reaches_action w (request "u0" i) "S" "open the vault" (Some i) "u0" solo (seat "u0" 0).
Proof.
  intros Hs Hrp. split; [apply request_well_formed; discriminate |].
  split; [exact Hs |]. split; [exact Hrp |]. intros Hmulti. discriminate Hmulti.
Defined.

Lemma turn_index_must_exist_witness :
  submitAction cfg_imagen (request "u0" 7) w_stale
  = (inr (Failed (InvalidTurnIndex (Some 7) 1)), w_stale).
Proof.
  exact (proj1 (turn_index_must_exist cfg_imagen (request "u0" 7) w_stale "S"
                  "open the vault" (Some 7) "u0" solo (seat "u0" 0) eq_refl
                  (solo_reaches_action w_stale 7 eq_refl eq_refl)) eq_refl).
Defined.

Lemma accepted_submission_is_recorded_witness :
  exists st w' url t,
    submitAction cfg_imagen (request "u0" 0) w_drop = (inr (Updated st), w')
    /\ image_reference cfg_imagen url
    /\ turns (db w')
       = [opening;
          mkTurn "t9" "S" 1 "The vault opens." url "a vault" ["enter"]
            (Some "open the vault") "night" 1 [] (Some "u0") (Some 0) t]
    /\ state_of (db w') "S" = Some st
    /\ last (log w') = Some (Emitted "S" st)
    /\ txn w' = None.
Proof.
  exact (accepted_submission_is_recorded cfg_imagen (request "u0" 0) w_drop "S"
           "open the vault" 0 "u0" solo (seat "u0" 0) (reply ["open the vault"] true)
           eq_refl (solo_reaches_action w_drop 0 eq_refl eq_refl) eq_refl
           ltac:(lia) eq_refl eq_refl eq_refl eq_refl).
Defined.

Lemma callLLM_budget_witness :
  exists n : nat,
    (n <= 3)%nat
    /\ clock (run (callLLM cfg_imagen (mkPrompt [] [] None "") 3 false None None)
                w_generator_down).2
       = 100 + 250 * Z.of_nat n * (Z.of_nat n - 1).
Proof.
  destruct (callLLM_budget cfg_imagen (mkPrompt [] [] None "") 3 false None None
              w_generator_down _ _ (run_pair _ _))
    as (n & Hn & _ & _ & _ & Hclock & _).
  exists n. split; [exact Hn | exact Hclock].
Defined.

Lemma callLLM_returns_checked_object_witness :
  is_array_of json_is_string (prop (reply ["find the key"] false) "updated_met_prerequisites")
  = true.
Proof.
  assert (Hrun : run (callLLM cfg_imagen (mkPrompt [] [] None "") 3 false None None) w_stale
                 = (inr (reply ["find the key"] false),
                    (run (callLLM cfg_imagen (mkPrompt [] [] None "") 3 false None None)
                       w_stale).2)) by (vm_compute; reflexivity).
  destruct (callLLM_returns_checked_object cfg_imagen (mkPrompt [] [] None "") 3 false
              None None w_stale _ _ Hrun) as (_ & _ & _ & _ & _ & _ & Hmet & _).
  exact Hmet.
Defined.

Lemma previous_image_round_trip_witness :
  base64_of_previous (Some (data_url "AAAA")) = Some "AAAA".
Proof. exact (proj1 (previous_image_round_trip "AAAA" eq_refl)). Defined.

(** ** The presence registry *)

Lemma has_socket_true (m : gmap string (gmap string nat)) (sid uid : string) :
  has_socket (m !! sid) uid = true
  <-> exists users, m !! sid = Some users /\ is_Some (users !! uid).
Proof.
  unfold has_socket. destruct (m !! sid) as [users |].
  - rewrite bool_decide_eq_true. split; [eauto |]. intros (u & [= <-] & H). exact H.
  - split; [discriminate |]. intros (u & H & _). discriminate.
Qed.

Lemma falsy_false (s : option string) :
  falsy s = false -> exists v, s = Some v /\ v <> "".
Proof.
  destruct s as [v |]; [| discriminate]. cbn. intros H. exists v. split; [reflexivity |].
  intros ->. discriminate.
Qed.

Lemma registered_lookup (m : gmap string (gmap string nat)) (sid uid : string) (k : nat)
    (sid' : string) :
  alter (insert uid k) sid
    (match m !! sid with Some _ => m | None => <[sid := ∅]> m end) !! sid'
  = if decide (sid' = sid) then Some (<[uid := k]> (default ∅ (m !! sid))) else m !! sid'.
Proof.
  destruct (decide (sid' = sid)) as [-> | Hne].
  - rewrite lookup_alter_eq. destruct (m !! sid) as [users |] eqn:Hm.
    + rewrite Hm. reflexivity.
    + rewrite lookup_insert_eq. reflexivity.
  - rewrite lookup_alter_ne by congruence. destruct (m !! sid) as [users |] eqn:Hm.
    + reflexivity.
    + rewrite lookup_insert_ne by congruence. reflexivity.
Qed.

(** The process state the authenticate listener leaves. *)
Lemma on_authenticate_world (data : AuthData) (ticket : Ticket)
    (socket : Socket) (w : World) :
  exists signal notices socket' w',
    on_authenticate (Some data) ticket socket w = Some (signal, notices, socket', w')
    /\ (w' = (on_disconnect socket w).2
        \/ exists sid uid,
             is_member (db w) sid uid = true
             /\ w' = set_sessionSockets w
                       (alter (insert uid (socket_id socket)) sid
                          (match sessionSockets w !! sid with
                           | Some _ => sessionSockets w
                           | None => <[sid := ∅]> (sessionSockets w)
                           end))).
Proof.
  assert (Hrefuse : forall message,
             exists signal notices socket' w',
               refuse message socket w = (signal, notices, socket', w')
               /\ w' = (on_disconnect socket w).2).
  { intros message. unfold refuse. destruct (on_disconnect socket w) as [notices w'].
    eexists _, _, _, _. split; reflexivity. }
  assert (Hleft : forall message,
             exists signal notices socket' w',
               Some (refuse message socket w) = Some (signal, notices, socket', w')
               /\ (w' = (on_disconnect socket w).2
                   \/ exists sid uid,
                        is_member (db w) sid uid = true
                        /\ w' = set_sessionSockets w
                                  (alter (insert uid (socket_id socket)) sid
                                     (match sessionSockets w !! sid with
                                      | Some _ => sessionSockets w
                                      | None => <[sid := ∅]> (sessionSockets w)
                                      end)))).
  { intros message. destruct (Hrefuse message) as (sg & ns & sk & w' & -> & Hw).
    eexists _, _, _, _. split; [reflexivity | left; exact Hw]. }
  unfold on_authenticate. cbv zeta.
  destruct (falsy (a_token data) || falsy (a_sessionId data)); [apply Hleft |].
  destruct ticket as [message | sub]; [apply Hleft |].
  destruct (falsy sub); [apply Hleft |].
  destruct (is_member (db w) (default "" (a_sessionId data)) (default "" sub)) eqn:Hmember;
    cbn [negb]; [| apply Hleft].
  eexists _, _, _, _. split; [reflexivity |]. right.
  exists (default "" (a_sessionId data)), (default "" sub).
  split; [exact Hmember | reflexivity].
Qed.

(** X13.  The websocket authenticate listener registers a socket only for a
    verified user who is on the roster of the session named: on success the
    socket is stored under that session and user and remembers both, the
    database is untouched, nothing is announced and no other registry entry
    changes. An event without a payload is not answered at all: the listener
    throws before its try block and the unhandled rejection ends the process.
    Every other failure answers auth_error and closes the socket, which runs
    its disconnect listener: the socket keeps its data, and the registry and
    the announcements are exactly those of that disconnect, so a socket that
    had authenticated before loses its entry and player_left is announced. *)
Theorem authenticate_registers_roster_members (data : option AuthData)
    (ticket : Ticket) (socket : Socket) (w : World) :
  (on_authenticate data ticket socket w = None <-> data = None)
  /\ forall signal notices socket' w',
       on_authenticate data ticket socket w = Some (signal, notices, socket', w') ->
       match signal with
       | AuthError _ => socket' = socket /\ (notices, w') = on_disconnect socket w
       | Authenticated =>
           notices = []
           /\ exists token sid uid,
               data = Some (mkAuthData (Some token) (Some sid))
               /\ ticket = TicketPayload (Some uid)
               /\ is_member (db w) sid uid = true
               /\ data_userId socket' = Some uid /\ data_sessionId socket' = Some sid
               /\ db w' = db w
               /\ (exists users, sessionSockets w' !! sid = Some users
                                 /\ users !! uid = Some (socket_id socket))
               /\ (forall s u, (s, u) <> (sid, uid) ->
                     has_socket (sessionSockets w' !! s) u
                     = has_socket (sessionSockets w !! s) u)
       end.
Proof.
  split.
  { destruct data; cbn [on_authenticate]; split; intros H; congruence. }
  intros signal notices socket' w'.
  assert (Hrefuse : forall message,
             Some (refuse message socket w) = Some (signal, notices, socket', w') ->
             match signal with
             | AuthError _ => socket' = socket /\ (notices, w') = on_disconnect socket w
             | Authenticated => False
             end).
  { intros message. unfold refuse. destruct (on_disconnect socket w) as [ns w0].
    intros [= <- <- <- <-]. split; reflexivity. }
  assert (Hfail : forall message,
             Some (refuse message socket w) = Some (signal, notices, socket', w') ->
             match signal with
             | AuthError _ => socket' = socket /\ (notices, w') = on_disconnect socket w
             | Authenticated =>
                 notices = []
                 /\ exists token sid uid,
                     data = Some (mkAuthData (Some token) (Some sid))
                     /\ ticket = TicketPayload (Some uid)
                     /\ is_member (db w) sid uid = true
                     /\ data_userId socket' = Some uid /\ data_sessionId socket' = Some sid
                     /\ db w' = db w
                     /\ (exists users, sessionSockets w' !! sid = Some users
                                       /\ users !! uid = Some (socket_id socket))
                     /\ (forall s u, (s, u) <> (sid, uid) ->
                           has_socket (sessionSockets w' !! s) u
                           = has_socket (sessionSockets w !! s) u)
             end).
  { intros message H. apply Hrefuse in H. destruct signal; [contradiction | exact H]. }
  destruct data as [[token sessionId] |]; [| discriminate].
  unfold on_authenticate. cbv zeta. cbn [a_token a_sessionId].
  destruct (falsy token || falsy sessionId) eqn:Hcred; [apply Hfail |].
  apply orb_false_iff in Hcred. destruct Hcred as [Htok Hsid].
  apply falsy_false in Htok. destruct Htok as (tok & -> & _).
  apply falsy_false in Hsid. destruct Hsid as (sid & -> & _).
  change (default "" (Some sid)) with sid.
  destruct ticket as [message | sub]; [apply Hfail |].
  destruct (falsy sub) eqn:Hsub; [apply Hfail |].
  apply falsy_false in Hsub. destruct Hsub as (uid & -> & _).
  change (default "" (Some uid)) with uid.
  destruct (is_member (db w) sid uid) eqn:Hmember; cbn [negb]; [| apply Hfail].
  intros [= <- <- <- <-]. split; [reflexivity |]. exists tok, sid, uid.
  do 2 (split; [reflexivity |]). split; [exact Hmember |].
  do 3 (split; [reflexivity |]). cbn [sessionSockets set_sessionSockets]. split.
  - eexists. rewrite registered_lookup, decide_True by reflexivity.
    split; [reflexivity |]. apply lookup_insert_eq.
  - intros s u Hne. rewrite registered_lookup.
    destruct (decide (s = sid)) as [-> | Hs]; [| reflexivity].
    assert (Hu : u <> uid) by congruence.
    unfold has_socket. destruct (sessionSockets w !! sid) as [users |]; cbn [default].
    + rewrite lookup_insert_ne by congruence. reflexivity.
    + rewrite lookup_insert_ne by congruence. rewrite lookup_empty.
      apply bool_decide_eq_false. intros [x Hx]. discriminate.
Qed.

(** The socket of player 1 authenticates on the running game and then
    sends a second authenticate event without a token. *)
Lemma authenticate_registers_roster_members_witness :
  (exists socket' w',
      on_authenticate (Some (mkAuthData (Some "tok") (Some "S"))) (TicketPayload (Some "u2"))
        (mkSocket 7 None None) w_party_turn
      = Some (Authenticated, [], socket', w')
      /\ has_socket (sessionSockets w' !! "S") "u2" = true)
  /\ (exists w',
        on_authenticate (Some (mkAuthData None (Some "S"))) (TicketPayload (Some "u1"))
          (mkSocket 1 (Some "u1") (Some "S")) w_party_turn
        = Some (AuthError "Authentication failed: Token and sessionId required.",
                [PlayerLeft "S" "u1"], mkSocket 1 (Some "u1") (Some "S"), w')
        /\ has_socket (sessionSockets w' !! "S") "u1" = false).
Proof.
  split.
  - destruct (on_authenticate (Some (mkAuthData (Some "tok") (Some "S")))
                (TicketPayload (Some "u2")) (mkSocket 7 None None) w_party_turn)
      as [[[[signal notices] socket'] w'] |] eqn:Hrun; [| discriminate].
    pose proof (proj2 (authenticate_registers_roster_members
                         (Some (mkAuthData (Some "tok") (Some "S")))
                         (TicketPayload (Some "u2")) (mkSocket 7 None None) w_party_turn)
                  signal notices socket' w' Hrun) as H.
    assert (Hsig : signal = Authenticated) by (vm_compute in Hrun; congruence).
    subst signal. destruct H as (-> & tok & sid & uid & Hd & Ht & _ & _ & _ & _ & Hreg & _).
    injection Hd as _ <-. injection Ht as <-.
    exists socket', w'. split; [reflexivity |].
    destruct Hreg as (users & Hs & Hu). unfold has_socket. rewrite Hs.
    apply bool_decide_eq_true. eauto.
  - destruct (on_authenticate (Some (mkAuthData None (Some "S")))
                (TicketPayload (Some "u1")) (mkSocket 1 (Some "u1") (Some "S")) w_party_turn)
      as [[[[signal notices] socket'] w'] |] eqn:Hrun; [| discriminate].
    pose proof (proj2 (authenticate_registers_roster_members
                         (Some (mkAuthData None (Some "S")))
                         (TicketPayload (Some "u1")) (mkSocket 1 (Some "u1") (Some "S"))
                         w_party_turn)
                  signal notices socket' w' Hrun) as H.
    assert (Hsig : signal = AuthError "Authentication failed: Token and sessionId required.")
      by (vm_compute in Hrun; congruence).
    subst signal. destruct H as (-> & Hdis).
    exists w'. 
    assert (Hn : notices = [PlayerLeft "S" "u1"])
      by (apply (f_equal fst) in Hdis; vm_compute in Hdis; exact Hdis).
    subst notices. split; [reflexivity |].
    apply (f_equal snd) in Hdis. cbn [snd] in Hdis. rewrite Hdis. vm_compute. reflexivity.
Defined.

(** X14.  The websocket disconnect listener of a socket that was authenticated
    as user u on session s removes the registry entry of (s, u) whichever
    socket currently holds it, announces player_left exactly when an entry
    existed, and leaves every other entry and the database alone. *)
Theorem disconnect_clears_the_user (socket : Socket) (w w' : World)
    (notices : list RoomNotice) (sid uid : string) :
  data_sessionId socket = Some sid -> data_userId socket = Some uid ->
  sid <> "" -> uid <> "" ->
  on_disconnect socket w = (notices, w') ->
  has_socket (sessionSockets w' !! sid) uid = false
  /\ notices = (if has_socket (sessionSockets w !! sid) uid
                then [PlayerLeft sid uid] else [])
  /\ db w' = db w
  /\ (forall s u, (s, u) <> (sid, uid) ->
        has_socket (sessionSockets w' !! s) u = has_socket (sessionSockets w !! s) u).
Proof.
  intros Hsid Huid Hs Hu. unfold on_disconnect. rewrite Hsid, Huid.
  assert (Hf1 : falsy (Some uid) = false)
    by (cbn; destruct (String.eqb_spec uid ""); congruence).
  assert (Hf2 : falsy (Some sid) = false)
    by (cbn; destruct (String.eqb_spec sid ""); congruence).
  rewrite Hf1, Hf2. cbn [orb]. change (default "" (Some uid)) with uid.
  change (default "" (Some sid)) with sid.
  destruct (sessionSockets w !! sid) as [users |] eqn:Hroom.
  2:{ intros [= <- <-]. rewrite Hroom. cbn. repeat split; reflexivity. }
  intros [= <- <-]. cbn [sessionSockets set_sessionSockets db].
  split; [| split; [| split; [reflexivity |]]].
  - destruct (Nat.eqb (size (delete uid users)) 0).
    + rewrite lookup_delete_eq. reflexivity.
    + rewrite lookup_insert_eq. apply bool_decide_eq_false.
      rewrite lookup_delete_eq. intros [x Hx]. discriminate.
  - reflexivity.
  - intros s u Hne. destruct (Nat.eqb (size (delete uid users)) 0) eqn:Hsize.
    + apply Nat.eqb_eq in Hsize. apply map_size_empty_inv in Hsize.
      destruct (decide (s = sid)) as [-> | Hns].
      * rewrite lookup_delete_eq, Hroom. symmetry. apply bool_decide_eq_false.
        cbn [has_socket].
        assert (Hu' : u <> uid) by congruence.
        rewrite <- (lookup_delete_ne users uid u) by congruence.
        rewrite Hsize, lookup_empty. intros [x Hx]. discriminate.
      * rewrite lookup_delete_ne by congruence. reflexivity.
    + destruct (decide (s = sid)) as [-> | Hns].
      * rewrite lookup_insert_eq, Hroom. assert (Hu' : u <> uid) by congruence.
        cbn [has_socket]. rewrite lookup_delete_ne by congruence. reflexivity.
      * rewrite lookup_insert_ne by congruence. reflexivity.
Qed.

Lemma disconnect_clears_the_user_witness :
  (on_disconnect (mkSocket 1 (Some "u1") (Some "S")) w_party_turn).1 = [PlayerLeft "S" "u1"].
Proof.
  exact (proj1 (proj2 (disconnect_clears_the_user (mkSocket 1 (Some "u1") (Some "S"))
                         w_party_turn _ _ "S" "u1" eq_refl eq_refl ltac:(discriminate)
                         ltac:(discriminate) (surjective_pairing _)))).
Defined.

(** X15.  Both websocket listeners preserve the two invariants of the presence
    registry: no session entry with an empty user map is left behind, and
    every user registered on a session is on that session's roster. For the
    authenticate listener this covers the registry left by a refusal, which
    closes the socket; the one run that leaves no registry is an event without
    a payload, which ends the process. *)
Theorem registry_invariants_kept (w : World) :
  no_empty_rooms (sessionSockets w) -> registry_sound w ->
  (forall data ticket socket,
      match on_authenticate data ticket socket w with
      | Some (_, _, _, w') => no_empty_rooms (sessionSockets w') /\ registry_sound w'
      | None => data = None
      end)
  /\ (forall socket,
        let w' := (on_disconnect socket w).2 in
        no_empty_rooms (sessionSockets w') /\ registry_sound w').
Proof.
  intros Hrooms Hsound.
  assert (Hdisconnect : forall socket,
             no_empty_rooms (sessionSockets (on_disconnect socket w).2)
             /\ registry_sound (on_disconnect socket w).2).
  2:{ split; [| exact Hdisconnect]. intros [data |] ticket socket; [| reflexivity].
    destruct (on_authenticate_world data ticket socket w)
      as (signal & notices & socket' & w' & -> & [-> | (sid & uid & Hmember & ->)]);
      [apply Hdisconnect |].
    cbn [sessionSockets set_sessionSockets db]. split.
    + intros s us Hs. rewrite registered_lookup in Hs.
      destruct (decide (s = sid)) as [-> | Hne]; [| exact (Hrooms s us Hs)].
      injection Hs as <-. apply insert_non_empty.
    + intros s u Hon. apply has_socket_true in Hon. destruct Hon as (us & Hs & Hu).
      cbn [sessionSockets set_sessionSockets] in Hs. cbn [db set_sessionSockets].
      rewrite registered_lookup in Hs.
      destruct (decide (s = sid)) as [-> | Hne].
      * injection Hs as <-. destruct (decide (u = uid)) as [-> | Hu']; [exact Hmember |].
        rewrite lookup_insert_ne in Hu by congruence. apply Hsound.
        unfold has_socket. destruct (sessionSockets w !! sid) as [users |]; cbn [default] in Hu.
        -- apply bool_decide_eq_true. exact Hu.
        -- rewrite lookup_empty in Hu. destruct Hu as [x Hx]. discriminate.
      * apply Hsound. apply has_socket_true. eauto. }
  intros socket. unfold on_disconnect.
    destruct (falsy (data_userId socket) || falsy (data_sessionId socket)) eqn:Hdata.
    { cbn [snd]. split; assumption. }
    set (uid := default "" (data_userId socket)).
    set (sid := default "" (data_sessionId socket)).
    destruct (sessionSockets w !! sid) as [users |] eqn:Hroom; cbn [snd];
      [| split; assumption].
    split.
    + intros s us. cbn [sessionSockets set_sessionSockets].
      destruct (Nat.eqb (size (delete uid users)) 0) eqn:Hsize.
      * intros Hs. apply lookup_delete_Some in Hs. destruct Hs as [_ Hs].
        exact (Hrooms s us Hs).
      * intros Hs. destruct (decide (s = sid)) as [-> | Hne].
        -- rewrite lookup_insert_eq in Hs. injection Hs as <-. intros Hempty.
           rewrite Hempty, map_size_empty in Hsize. discriminate.
        -- rewrite lookup_insert_ne in Hs by congruence. exact (Hrooms s us Hs).
    + intros s u Hon. cbn [db set_sessionSockets]. apply Hsound.
      cbn [sessionSockets set_sessionSockets] in Hon.
      apply has_socket_true in Hon. destruct Hon as (us & Hs & Hu).
      apply has_socket_true.
      destruct (Nat.eqb (size (delete uid users)) 0).
      * apply lookup_delete_Some in Hs. destruct Hs as [_ Hs]. eauto.
      * destruct (decide (s = sid)) as [-> | Hne].
        -- rewrite lookup_insert_eq in Hs. injection Hs as <-. exists users.
           split; [exact Hroom |]. destruct Hu as [x Hx].
           apply lookup_delete_Some in Hx. destruct Hx as [_ Hx]. eauto.
        -- rewrite lookup_insert_ne in Hs by congruence. eauto.
Qed.

(** ** The join route *)

Lemma begin_when_idle (s : Site) : idle s -> sql_begin s = (inr tt, opened s).
Proof. intros [Ht _]. unfold sql_begin. cbn [exec]. rewrite Ht. reflexivity. Qed.

Lemma rollback_when_opened (s : Site) : idle s -> sql_rollback (opened s) = (inr tt, s).
Proof.
  intros [Ht Hs]. unfold sql_rollback, opened. cbn [exec site_world txn set_db site_txn db].
  destruct s as [w o i t]. cbn in *. subst t. f_equal. f_equal.
  destruct w as [d t so pr ir u c l]. cbn in *. subst t. reflexivity.
Qed.

Lemma roster_length (d : Db) (sid : string) :
  length (select_players d sid) = length (roster d sid).
Proof. unfold select_players. apply Permutation_length, order_by_perm. Qed.

Lemma post_join_cases (req : JoinRequest) (s : Site) :
  idle s ->
  exists resp s',
  post_join req s = (inr resp, s') /\
  ((s' = s /\ forall sid, resp <> Joined sid)
  \/ exists code name gender uid sid session st,
       j_inviteCode req = Some code /\ j_characterName req = Some name
       /\ j_characterGender req = Some gender /\ j_userId req = Some uid
       /\ invites s !! code = Some sid
       /\ sessions (db (site_world s)) !! sid = Some session
       /\ truthy (is_multiplayer session) = true
       /\ is_member (db (site_world s)) sid uid = false
       /\ Z.of_nat (length (roster (db (site_world s)) sid)) < js_num (max_players session)
       /\ resp = Joined sid
       /\ let row := mkPlayer sid uid (Z.of_nat (length (roster (db (site_world s)) sid)))
                       name gender (or_null (j_characterImageUrl req)) in
          seat_taken (db (site_world s)) row = false
          /\ state_of (mkDb (sessions (db (site_world s)))
                         (session_players (db (site_world s)) ++ [row])
                         (turns (db (site_world s)))) sid = Some st
          /\ s' = joined s row st).
Proof.
  intros Hidle. unfold post_join.
  destruct (falsy (j_inviteCode req)) eqn:Hcode;
    [eexists _, _; split; [reflexivity |]; left; split; [reflexivity | discriminate] |].
  destruct (falsy (j_characterName req)) eqn:Hname;
    [eexists _, _; split; [reflexivity |]; left; split; [reflexivity | discriminate] |].
  destruct (falsy (j_characterGender req)) eqn:Hgender;
    [eexists _, _; split; [reflexivity |]; left; split; [reflexivity | discriminate] |].
  destruct (falsy (j_userId req)) eqn:Huid;
    [eexists _, _; split; [reflexivity |]; left; split; [reflexivity | discriminate] |].
  apply falsy_false in Hcode, Hname, Hgender, Huid.
  destruct Hcode as (code & Hcode & _). destruct Hname as (name & Hname & _).
  destruct Hgender as (gender & Hgender & _). destruct Huid as (uid & Huid & _).
  rewrite Hcode, Hname, Hgender, Huid.
  change (default "" (Some code)) with code. change (default "" (Some name)) with name.
  change (default "" (Some gender)) with gender. change (default "" (Some uid)) with uid.
  unfold lcatch, join_body. unfold lbind at 1. rewrite (begin_when_idle s Hidle).
  unfold lbind at 1. unfold select_session_by_invite at 1.
  change (invites (opened s)) with (invites s).
  change (db (site_world (opened s))) with (db (site_world s)).
  destruct (invites s !! code) as [sid |] eqn:Hinv; cbn [mbind option_bind].
  2:{ unfold lbind, lret. rewrite (rollback_when_opened s Hidle).
      eexists _, _. split; [reflexivity |]. left. split; [reflexivity | discriminate]. }
  destruct (sessions (db (site_world s)) !! sid) as [session |] eqn:Hsess;
    cbn [fmap option_fmap option_map].
  2:{ unfold lbind, lret. rewrite (rollback_when_opened s Hidle).
      eexists _, _. split; [reflexivity |]. left. split; [reflexivity | discriminate]. }
  destruct (truthy (is_multiplayer session)) eqn:Hmp; cbn [negb].
  2:{ unfold lbind, lret. rewrite (rollback_when_opened s Hidle).
      eexists _, _. split; [reflexivity |]. left. split; [reflexivity | discriminate]. }
  unfold lbind at 1. unfold select_membership at 1.
  change (db (site_world (opened s))) with (db (site_world s)).
  destruct (is_member (db (site_world s)) sid uid) eqn:Hmember; cbv beta iota.
  { unfold lbind, lret. rewrite (rollback_when_opened s Hidle).
    eexists _, _. split; [reflexivity |]. left. split; [reflexivity | discriminate]. }
  unfold lbind at 1. unfold count_players at 1.
  change (db (site_world (opened s))) with (db (site_world s)).
  destruct (js_num (max_players session) <=? Z.of_nat (length (roster (db (site_world s)) sid)))
    eqn:Hfull; cbv beta iota.
  { unfold lbind, lret. rewrite (rollback_when_opened s Hidle).
    eexists _, _. split; [reflexivity |]. left. split; [reflexivity | discriminate]. }
  apply Z.leb_gt in Hfull.
  set (row := mkPlayer sid uid (Z.of_nat (length (roster (db (site_world s)) sid))) name gender
                (or_null (j_characterImageUrl req))).
  unfold lbind at 1. unfold insert_player_row at 1.
  change (db (site_world (opened s))) with (db (site_world s)).
  unfold insert_player. cbn [p_session_id user_id row]. rewrite Hsess, Hmember.
  destruct (seat_taken (db (site_world s)) row) eqn:Hseat; cbv beta iota.
  { unfold lbind, lret, rollback_quietly, lcatch.
    rewrite (rollback_when_opened s Hidle).
    eexists _, _. split; [reflexivity |]. left. split; [reflexivity | discriminate]. }
  unfold lbind at 1. unfold sql_commit at 1.
  cbn [exec site_world set_world txn set_db db opened owners invites].
  unfold lbind at 1. unfold lift at 1. cbn [site_world]. rewrite state_run.
  cbn [db set_db owners invites set_world].
  set (d' := mkDb (sessions (db (site_world s))) (session_players (db (site_world s)) ++ [row])
               (turns (db (site_world s)))).
  assert (Hst : exists st, state_of d' sid = Some st).
  { unfold state_of, d'. cbn [sessions]. rewrite Hsess. cbn. eauto. }
  destruct Hst as [st Hst]. rewrite Hst.
  unfold lbind, lift, lret. cbn [site_world run await exec set_world owners invites site_txn].
  eexists _, _. split; [reflexivity |]. right. exists code, name, gender, uid, sid, session, st.
  repeat (split; [first [reflexivity | assumption] |]). reflexivity.
Qed.

Lemma roster_snoc (d : Db) (row : PlayerRow) (sid : string) :
  roster (mkDb (sessions d) (session_players d ++ [row]) (turns d)) sid
  = roster d sid ++ (if decide (p_session_id row = sid) then [row] else []).
Proof.
  unfold roster. cbn [session_players]. rewrite filter_app. f_equal.
Qed.

Lemma is_member_false (d : Db) (sid uid : string) :
  is_member d sid uid = false -> uid ∉ user_id <$> roster d sid.
Proof.
  intros Hmem Hin. apply list_elem_of_fmap in Hin. destruct Hin as (p & -> & Hp).
  unfold roster in Hp. apply list_elem_of_filter in Hp. destruct Hp as [Hs Hp].
  assert (Htrue : is_member d sid (user_id p) = true).
  { unfold is_member. apply existsb_exists. exists p. split; [apply list_elem_of_In; exact Hp |].
    apply andb_true_iff. split; [apply String.eqb_eq; exact Hs | apply String.eqb_refl]. }
  congruence.
Qed.

Lemma seats_ok_free (d : Db) (row : PlayerRow) :
  seats_ok d (p_session_id row) ->
  player_index row = Z.of_nat (length (roster d (p_session_id row))) ->
  seat_taken d row = false.
Proof.
  intros Hseats Hidx. destruct (seat_taken d row) eqn:Htaken; [| reflexivity]. exfalso.
  unfold seat_taken in Htaken. apply existsb_exists in Htaken.
  destruct Htaken as (p & Hin & Hp). apply andb_true_iff in Hp. destruct Hp as [Hs Hi].
  apply String.eqb_eq in Hs. apply Z.eqb_eq in Hi.
  assert (Hmem : player_index p ∈ player_index <$> roster d (p_session_id row)).
  { apply list_elem_of_fmap. exists p. split; [reflexivity |]. unfold roster.
    apply list_elem_of_filter. split; [exact Hs | apply list_elem_of_In; exact Hin]. }
  rewrite Hseats in Hmem. apply list_elem_of_fmap in Hmem. destruct Hmem as (k & Hk & Hkin).
  apply list_elem_of_In, in_seq in Hkin. lia.
Qed.

Lemma insert_by_last {A : Type} (key : A -> Z) (y x : A) (l : list A) :
  key y <= key x -> insert_by key y (l ++ [x]) = insert_by key y l ++ [x].
Proof.
  intros Hle. induction l as [| z l IH]; cbn [insert_by app].
  - assert (H : (key y <=? key x) = true) by (apply Z.leb_le; exact Hle). rewrite H.
    reflexivity.
  - destruct (key y <=? key z); [reflexivity |]. rewrite IH. reflexivity.
Qed.

Lemma order_by_snoc {A : Type} (key : A -> Z) (l : list A) (x : A) :
  Forall (fun y => key y <= key x) l -> order_by key (l ++ [x]) = order_by key l ++ [x].
Proof.
  unfold order_by. induction 1 as [| y l Hy Hall IH]; cbn [app foldr]; [reflexivity |].
  rewrite IH. apply insert_by_last. exact Hy.
Qed.

Lemma seats_ok_below (d : Db) (sid : string) :
  seats_ok d sid ->
  Forall (fun p => player_index p <= Z.of_nat (length (roster d sid))) (roster d sid).
Proof.
  intros Hseats. apply Forall_forall. intros p Hp.
  assert (Hmem : player_index p ∈ player_index <$> roster d sid)
    by (apply list_elem_of_fmap; exists p; split; [reflexivity | exact Hp]).
  rewrite Hseats in Hmem. apply list_elem_of_fmap in Hmem. destruct Hmem as (k & Hk & Hkin).
  apply list_elem_of_In, in_seq in Hkin. lia.
Qed.

(** X16.  The join route always answers. Unless the answer is the successful
    join, the whole state is left as found. A successful join appends exactly
    one roster row, for the session the invite code designates and the caller,
    with player_index equal to the number of players before; sessions, turns,
    owners and invite codes are unchanged, no transaction stays open, and the
    new session document is broadcast. *)
Theorem join_adds_one_seat_or_nothing (req : JoinRequest) (s : Site) :
  idle s ->
  exists resp s',
    post_join req s = (inr resp, s')
    /\ match resp with
       | Joined sid =>
           exists row st,
             session_players (db (site_world s'))
             = session_players (db (site_world s)) ++ [row]
             /\ p_session_id row = sid /\ Some (user_id row) = j_userId req
             /\ player_index row = Z.of_nat (length (roster (db (site_world s)) sid))
             /\ invites s !! default "" (j_inviteCode req) = Some sid
             /\ sessions (db (site_world s')) = sessions (db (site_world s))
             /\ turns (db (site_world s')) = turns (db (site_world s))
             /\ owners s' = owners s /\ invites s' = invites s /\ idle s'
             /\ state_of (db (site_world s')) sid = Some st
             /\ log (site_world s') = log (site_world s) ++ [Emitted sid st]
       | _ => s' = s
       end.
Proof.
  intros Hidle. destruct (post_join_cases req s Hidle) as (resp & s' & Hrun & Hcases).
  exists resp, s'. split; [exact Hrun |].
  destruct Hcases as [[-> Hno] | Hjoined].
  - destruct resp as [msg | | | | sid' | | sid' | | e]; try reflexivity.
    exfalso. exact (Hno sid' eq_refl).
  - destruct Hjoined as (code & name & gender & uid & sid & session & st & Hcode & Hname
                         & Hgender & Huid & Hinv & Hsess & Hmp & Hmember & Hroom & ->
                         & Hfree & Hst & ->).
    eexists _, st. cbn [joined site_world db add_log set_db session_players sessions turns
                          owners invites log].
    split; [reflexivity |]. split; [reflexivity |]. split; [symmetry; exact Huid |].
    split; [reflexivity |]. split; [rewrite Hcode; exact Hinv |].
    do 4 (split; [reflexivity |]). split; [split; reflexivity |].
    split; [exact Hst | reflexivity].
Qed.

Lemma falsy_Some (v : string) : v <> "" -> falsy (Some v) = false.
Proof. intros Hv. cbn. destruct (String.eqb_spec v ""); congruence. Qed.

(** The join of a newcomer through a valid invite, forwards. *)
Lemma join_of_newcomer (s : Site) (code name gender uid sid : string)
    (img : option string) (session : SessionRow) :
  idle s -> code <> "" -> name <> "" -> gender <> "" -> uid <> "" ->
  invites s !! code = Some sid -> sessions (db (site_world s)) !! sid = Some session ->
  truthy (is_multiplayer session) = true -> is_member (db (site_world s)) sid uid = false ->
  let count := Z.of_nat (length (roster (db (site_world s)) sid)) in
  let row := mkPlayer sid uid count name gender (or_null img) in
  let d' := mkDb (sessions (db (site_world s))) (session_players (db (site_world s)) ++ [row])
              (turns (db (site_world s))) in
  post_join (mkJoin (Some code) (Some name) (Some gender) img (Some uid)) s
  = if js_num (max_players session) <=? count then (inr SessionFull, s)
    else if seat_taken (db (site_world s)) row
         then (inr (JoinFailed SqlConstraintPlayerIndex), s)
         else match state_of d' sid with
              | Some st => (inr (Joined sid), joined s row st)
              | None => (inr (Joined sid),
                         mkSite (set_db (site_world s) d' None) (owners s) (invites s) None)
              end.
Proof.
  intros Hidle Hcode Hname Hgender Huid Hinv Hsess Hmp Hmember count row d'.
  unfold post_join. cbn [j_inviteCode j_characterName j_characterGender j_userId
                           j_characterImageUrl].
  rewrite (falsy_Some code Hcode), (falsy_Some name Hname), (falsy_Some gender Hgender),
    (falsy_Some uid Huid).
  change (default "" (Some code)) with code. change (default "" (Some name)) with name.
  change (default "" (Some gender)) with gender. change (default "" (Some uid)) with uid.
  unfold lcatch, join_body. unfold lbind at 1. rewrite (begin_when_idle s Hidle).
  unfold lbind at 1. unfold select_session_by_invite at 1.
  change (invites (opened s)) with (invites s).
  change (db (site_world (opened s))) with (db (site_world s)).
  rewrite Hinv. cbn [mbind option_bind]. rewrite Hsess. cbn [fmap option_fmap option_map].
  rewrite Hmp. cbn [negb].
  unfold lbind at 1. unfold select_membership at 1.
  change (db (site_world (opened s))) with (db (site_world s)). rewrite Hmember.
  cbv beta iota. unfold lbind at 1. unfold count_players at 1.
  change (db (site_world (opened s))) with (db (site_world s)). fold count.
  destruct (js_num (max_players session) <=? count) eqn:Hfull; cbv beta iota.
  { unfold lbind, lret. rewrite (rollback_when_opened s Hidle). reflexivity. }
  fold row. unfold lbind at 1. unfold insert_player_row at 1.
  change (db (site_world (opened s))) with (db (site_world s)).
  unfold insert_player. cbn [p_session_id user_id row]. rewrite Hsess, Hmember.
  fold row.
  destruct (seat_taken (db (site_world s)) row) eqn:Hseat; cbv beta iota.
  { unfold lbind, lret, rollback_quietly, lcatch.
    rewrite (rollback_when_opened s Hidle). reflexivity. }
  unfold lbind at 1. unfold sql_commit at 1.
  cbn [exec site_world set_world txn set_db db opened owners invites].
  unfold lbind at 1. unfold lift at 1. cbn [site_world]. rewrite state_run.
  cbn [db set_db owners invites set_world]. fold d'.
  destruct (state_of d' sid) as [st |]; reflexivity.
Qed.

(** X17.  The join route preserves, for every session: seats numbered 0..n-1
    without gap, at most max_players players on a multiplayer session, and at
    most one seat per user. *)
Theorem join_keeps_roster_invariants (req : JoinRequest) (s s' : Site)
    (resp : JoinResponse) (sid : string) :
  idle s -> post_join req s = (inr resp, s') ->
  (seats_ok (db (site_world s)) sid -> seats_ok (db (site_world s')) sid)
  /\ (within_capacity (db (site_world s)) sid -> within_capacity (db (site_world s')) sid)
  /\ (one_seat_each (db (site_world s)) sid -> one_seat_each (db (site_world s')) sid).
Proof.
  intros Hidle Hrun.
  destruct (post_join_cases req s Hidle) as (resp0 & s0 & Hrun0 & Hcases).
  rewrite Hrun in Hrun0. injection Hrun0 as <- <-.
  destruct Hcases as [[-> _] | Hjoined]; [tauto |].
  destruct Hjoined as (code & name & gender & uid & sid0 & session & st & _ & _ & _ & _ & _
                       & Hsess & Hmp & Hmember & Hroom & _ & _ & _ & ->).
  cbn [joined site_world db add_log set_db].
  set (row := mkPlayer sid0 uid _ name gender _).
  assert (Hroster := roster_snoc (db (site_world s)) row sid).
  change (p_session_id row) with sid0 in Hroster.
  destruct (decide (sid0 = sid)) as [-> | Hne].
  - split; [| split].
    + unfold seats_ok. rewrite Hroster. intros Hseats.
      rewrite length_app, Nat.add_1_r, seq_S, !fmap_app, Hseats. reflexivity.
    + unfold within_capacity. rewrite Hroster. cbn [sessions]. intros _ session' Hs' _.
      rewrite Hsess in Hs'. injection Hs' as <-. rewrite length_app. cbn [length]. lia.
    + unfold one_seat_each. rewrite Hroster. intros Hone. rewrite fmap_app.
      apply NoDup_app. split; [exact Hone |]. split; [| apply NoDup_singleton].
      intros u Hu Hin. apply list_elem_of_singleton in Hin. subst u.
      exact (is_member_false _ _ _ Hmember Hu).
  - unfold seats_ok, within_capacity, one_seat_each. rewrite Hroster, app_nil_r.
    cbn [sessions]. tauto.
Qed.

Lemma lobby_idle (d : Db) : idle (lobby d).
Proof. split; reflexivity. Defined.

Lemma run_pair_lobby {A : Type} (m : Lobby A) (s : Site) : m s = ((m s).1, (m s).2).
Proof. destruct (m s). reflexivity. Qed.

Lemma join_adds_one_seat_or_nothing_witness :
  exists resp s', post_join newcomer (lobby db_party) = (inr resp, s')
                  /\ match resp with Joined _ => True | _ => s' = lobby db_party end.
Proof.
  destruct (join_adds_one_seat_or_nothing newcomer (lobby db_party) (lobby_idle db_party))
    as (resp & s' & Hrun & Hcases).
  exists resp, s'. split; [exact Hrun |]. destruct resp; try exact Hcases. exact I.
Defined.

Lemma seats_ok_db_open : seats_ok db_open "S".
Proof. unfold seats_ok. vm_compute. reflexivity. Defined.

Lemma join_keeps_roster_invariants_witness :
  seats_ok (db (site_world (post_join newcomer (lobby db_open)).2)) "S".
Proof.
  assert (Hrun : post_join newcomer (lobby db_open)
                 = (inr (Joined "S"), (post_join newcomer (lobby db_open)).2))
    by (vm_compute; reflexivity).
  exact (proj1 (join_keeps_roster_invariants newcomer (lobby db_open) _ _ "S"
                  (lobby_idle db_open) Hrun) seats_ok_db_open).
Defined.

(** ** The invite page *)

(** X18.  On a roster whose seats are numbered from 0, what GET
    /api/invite/:inviteCode reports decides what a join through the same code
    does for a user not yet on the roster: the route changes nothing, its
    playerCount is the size of the roster, isFull true means the join is
    answered 403 and changes nothing, isFull false means the join succeeds and
    the newcomer is last in the turn order with index playerCount. *)
Theorem invite_page_agrees_with_join (s s' : Site) (code name gender uid : string)
    (img : option string) (info : InviteInfo) :
  idle s -> code <> "" -> name <> "" -> gender <> "" -> uid <> "" ->
  get_invite (Some code) s = (inr (InviteOk info), s') ->
  is_member (db (site_world s)) (i_sessionId info) uid = false ->
  seats_ok (db (site_world s)) (i_sessionId info) ->
  s' = s
  /\ i_playerCount info = Z.of_nat (length (select_players (db (site_world s))
                                              (i_sessionId info)))
  /\ exists resp s'',
       post_join (mkJoin (Some code) (Some name) (Some gender) img (Some uid)) s
       = (inr resp, s'')
       /\ if i_isFull info
          then resp = SessionFull /\ s'' = s
          else resp = Joined (i_sessionId info)
               /\ select_players (db (site_world s'')) (i_sessionId info)
                  = select_players (db (site_world s)) (i_sessionId info)
                    ++ [mkPlayer (i_sessionId info) uid (i_playerCount info) name gender
                          (or_null img)].
Proof.
  intros Hidle Hcode Hname Hgender Huid Hinfo Hmember Hseats.
  unfold get_invite in Hinfo. rewrite (falsy_Some code Hcode) in Hinfo.
  change (default "" (Some code)) with code in Hinfo.
  unfold lcatch, lbind, select_session_by_invite, count_players, lret in Hinfo.
  destruct (invites s !! code) as [sid |] eqn:Hinv; cbn [mbind option_bind] in Hinfo;
    [| discriminate].
  destruct (sessions (db (site_world s)) !! sid) as [session |] eqn:Hsess;
    cbn [fmap option_fmap option_map] in Hinfo; [| discriminate].
  destruct (truthy (is_multiplayer session)) eqn:Hmp; cbn [negb] in Hinfo; [| discriminate].
  injection Hinfo as <- <-. cbn [i_sessionId i_isFull i_playerCount] in *.
  split; [reflexivity |]. split; [rewrite roster_length; reflexivity |].
  pose proof (join_of_newcomer s code name gender uid sid img session Hidle Hcode Hname
                Hgender Huid Hinv Hsess Hmp Hmember) as Hjoin.
  cbv zeta in Hjoin. rewrite Hjoin.
  destruct (js_num (max_players session) <=? Z.of_nat (length (roster (db (site_world s)) sid))).
  { eexists _, _. split; [reflexivity |]. split; reflexivity. }
  set (row := mkPlayer sid uid _ name gender (or_null img)).
  rewrite (seats_ok_free (db (site_world s)) row Hseats eq_refl).
  set (d' := mkDb _ (_ ++ [row]) _).
  assert (Hst : exists st, state_of d' sid = Some st).
  { unfold state_of, d'. cbn [sessions]. rewrite Hsess. cbn. eauto. }
  destruct Hst as [st ->]. eexists _, _. split; [reflexivity |]. split; [reflexivity |].
  cbn [joined site_world db add_log set_db]. fold d'.
  unfold select_players. fold (roster d' sid). fold (roster (db (site_world s)) sid).
  unfold d'. rewrite roster_snoc. change (p_session_id row) with sid.
  rewrite decide_True by reflexivity. apply order_by_snoc.
  exact (seats_ok_below _ _ Hseats).
Qed.

Lemma invite_page_agrees_with_join_witness :
  exists resp s'',
    post_join newcomer (lobby db_open) = (inr resp, s'')
    /\ resp = Joined "S"
    /\ select_players (db (site_world s'')) "S"
       = [seat "u0" 0; seat "u1" 1; mkPlayer "S" "u9" 2 "Mira" "she" None].
Proof.
  destruct (invite_page_agrees_with_join (lobby db_open) _ "INV-1A2B3C4D" "Mira" "she" "u9"
              None (mkInvite "S" "Fantasy" false 2 (Some 4)) (lobby_idle db_open)
              ltac:(discriminate) ltac:(discriminate) ltac:(discriminate)
              ltac:(discriminate) eq_refl eq_refl seats_ok_db_open)
    as (_ & _ & resp & s'' & Hrun & Hresp & Hplayers).
  exists resp, s''. split; [exact Hrun |]. split; [exact Hresp | exact Hplayers].
Defined.

(** ** The history route *)

Lemma get_history_run (s : Site) (uid sid : string) :
  uid <> "" -> sid <> "" ->
  get_history (Some uid) (Some sid) s
  = (inr match state_of (db (site_world s)) sid with
         | None => HistoryNotFound
         | Some st =>
             if is_member (db (site_world s)) sid uid then HistoryOk st else HistoryDenied
         end, s).
Proof.
  intros Huid Hsid. unfold get_history.
  rewrite (falsy_Some uid Huid), (falsy_Some sid Hsid).
  change (default "" (Some uid)) with uid. change (default "" (Some sid)) with sid.
  unfold lbind at 1. unfold lift at 1. cbn [run await exec]. unfold state_of.
  destruct (sessions (db (site_world s)) !! sid) as [session |];
    cbn [fmap option_fmap option_map].
  2:{ destruct s; reflexivity. }
  unfold lbind, select_membership, lift, lret. cbn [site_world set_world db run await exec].
  destruct (is_member (db (site_world s)) sid uid); cbn [negb]; destruct s; reflexivity.
Qed.

(** X19.  GET /api/games/history/:sessionId never changes the state; it
    returns a document only to a user on the session's roster, and the
    document is the one getFullSessionState builds; the 403 answer is given
    only for an existing session. *)
Theorem history_route_serves_members_only (s : Site) (userId sessionId : option string) :
  exists resp,
    get_history userId sessionId s = (inr resp, s)
    /\ (forall st, resp = HistoryOk st ->
          exists uid sid,
            userId = Some uid /\ sessionId = Some sid
            /\ is_member (db (site_world s)) sid uid = true
            /\ state_of (db (site_world s)) sid = Some st)
    /\ (resp = HistoryDenied ->
          exists sid, sessionId = Some sid /\ is_Some (sessions (db (site_world s)) !! sid)).
Proof.
  destruct (falsy userId) eqn:Hu.
  { exists HistoryUnauthorized. unfold get_history. rewrite Hu.
    split; [reflexivity |]. split; [intros st |]; discriminate. }
  destruct (falsy sessionId) eqn:Hs.
  { exists HistoryBadRequest. unfold get_history. rewrite Hu, Hs.
    split; [reflexivity |]. split; [intros st |]; discriminate. }
  apply falsy_false in Hu, Hs. destruct Hu as (uid & -> & Huid).
  destruct Hs as (sid & -> & Hsid). eexists. split; [apply get_history_run; assumption |].
  unfold state_of.
  destruct (sessions (db (site_world s)) !! sid) as [session |] eqn:Hsess;
    cbn [fmap option_fmap option_map].
  2:{ split; [intros st |]; discriminate. }
  destruct (is_member (db (site_world s)) sid uid) eqn:Hmember.
  - split; [| discriminate]. intros st [= <-]. exists uid, sid.
    do 3 (split; [first [reflexivity | assumption] |]).
    unfold state_of. rewrite Hsess. reflexivity.
  - split; [intros st; discriminate |]. intros _. exists sid. split; [reflexivity | eauto].
Qed.

Lemma state_of_id (d : Db) (sid : string) (st : SessionState) :
  state_of d sid = Some st -> st_sessionId st = sid.
Proof.
  unfold state_of. destruct (sessions d !! sid); [| discriminate].
  intros [= <-]. reflexivity.
Qed.

Lemma is_member_players (d d' : Db) (sid uid : string) :
  session_players d' = session_players d -> is_member d' sid uid = is_member d sid uid.
Proof. unfold is_member. intros ->. reflexivity. Qed.

(** X20.  After a call of the action route that answered 200 with a session
    document (new turn or turn skipped), the history route gives any roster
    member exactly that document. *)
Theorem history_route_returns_last_broadcast (cfg : Config) (req : Request)
    (w w' : World) (resp : Response) (st : SessionState) (o i : gmap string string)
    (uid : string) :
  txn w = None -> uid <> "" ->
  submitAction cfg req w = (inr resp, w') ->
  resp = Updated st \/ resp = TurnSkipped st ->
  is_member (db w) (st_sessionId st) uid = true ->
  sessionId req = Some (st_sessionId st)
  /\ get_history (Some uid) (sessionId req) (mkSite w' o i None)
     = (inr (HistoryOk st), mkSite w' o i None).
Proof.
  intros Htxn Huid Hrun Hresp Hmember.
  destruct (submitAction_cases cfg req w Htxn) as (resp0 & w0 & Hrun0 & _ & Hcase).
  rewrite Hrun in Hrun0. injection Hrun0 as <- <-.
  assert (Hgoal : forall sid s0,
            sessionId req = Some sid -> sid <> "" -> sessions (db w) !! sid = Some s0 ->
            state_of (db w') sid = Some st ->
            sessionId req = Some (st_sessionId st)
            /\ get_history (Some uid) (sessionId req) (mkSite w' o i None)
               = (inr (HistoryOk st), mkSite w' o i None)).
  { intros sid s0 Hsid Hne Hs0 Hst. pose proof (state_of_id _ _ _ Hst) as Hid.
    rewrite Hid in *. split; [exact Hsid |]. rewrite Hsid.
    rewrite (get_history_run _ uid sid Huid Hne). cbn [site_world]. rewrite Hst.
    destruct (session_row_after cfg req w w' _ sid s0 Htxn Hrun Hs0) as [Hplayers _].
    rewrite (is_member_players _ _ _ _ Hplayers), Hmember. reflexivity. }
  assert (Hnonempty : forall sid, sessionId req = Some sid -> sid <> "").
  { intros sid Hsid ->. unfold submitAction, post_action in Hrun. rewrite Hsid in Hrun.
    destruct (action req); [| cbn in Hrun; destruct Hresp; congruence].
    destruct (turnIndex req); cbn in Hrun; destruct Hresp; congruence. }
  destruct Hcase as [(_ & H1 & H2 & _) | [(e & -> & _) | [Hskip | Hupd]]].
  - exfalso. destruct Hresp as [-> | ->]; [exact (H1 st eq_refl) | exact (H2 st eq_refl)].
  - destruct Hresp; discriminate.
  - destruct Hskip as (sid & s0 & st' & Hsid & Hs0 & _ & _ & -> & Hst & _).
    destruct Hresp as [? | [= <-]]; [discriminate |].
    exact (Hgoal sid s0 Hsid (Hnonempty sid Hsid) Hs0 Hst).
  - destruct Hupd as (sid & uid' & s0 & rp & n & j & st' & row & t1 & t2 & d1 & Hsid & _ & _
                      & Hs0 & _ & _ & -> & _ & _ & _ & _ & _ & _ & Hst).
    destruct Hresp as [[= <-] | ?]; [| discriminate].
    exact (Hgoal sid s0 Hsid (Hnonempty sid Hsid) Hs0 Hst).
Qed.

Lemma history_route_returns_last_broadcast_witness :
  exists st,
    get_history (Some "u0") (Some "S")
      (mkSite (submitAction cfg_imagen (request "u0" 0) w_drop).2 ∅ ∅ None)
    = (inr (HistoryOk st),
       mkSite (submitAction cfg_imagen (request "u0" 0) w_drop).2 ∅ ∅ None).
Proof.
  assert (Hrun : exists st, submitAction cfg_imagen (request "u0" 0) w_drop
                            = (inr (Updated st),
                               (submitAction cfg_imagen (request "u0" 0) w_drop).2)
                            /\ st_sessionId st = "S")
    by (eexists; split; vm_compute; reflexivity).
  destruct Hrun as (st & Hrun & Hid). exists st.
  refine (proj2 (history_route_returns_last_broadcast cfg_imagen (request "u0" 0) w_drop _
                   (Updated st) st ∅ ∅ "u0" eq_refl ltac:(discriminate) Hrun
                   (or_introl eq_refl) _)).
  rewrite Hid. reflexivity.
Defined.

(** ** Deleting a session *)

Lemma commit_when_opened (s : Site) (d : Db) (o i : gmap string string) :
  sql_commit (mkSite (set_db (site_world (opened s)) d (txn (site_world (opened s)))) o i
                (site_txn (opened s)))
  = (inr tt, mkSite (set_db (site_world s) d None) o i None).
Proof. reflexivity. Qed.

Lemma delete_history_run (s : Site) (uid sid : string) :
  idle s -> uid <> "" -> sid <> "" ->
  delete_history (Some uid) (Some sid) s
  = if owned_by s sid uid then (inr Deleted, without s sid) else (inr DeleteNotFound, s).
Proof.
  intros Hidle Huid Hsid. unfold delete_history.
  rewrite (falsy_Some uid Huid), (falsy_Some sid Hsid).
  change (default "" (Some uid)) with uid. change (default "" (Some sid)) with sid.
  unfold lcatch. unfold lbind at 1. unfold select_owned at 1.
  destruct (owned_by s sid uid) eqn:Howned; cbn [negb]; [| reflexivity].
  unfold lbind at 1. rewrite (begin_when_idle s Hidle).
  unfold lbind at 1. unfold delete_session at 1.
  assert (Hopen : owned_by (opened s) sid uid = true) by exact Howned.
  rewrite Hopen. unfold lbind at 1.
  change (owners (opened s)) with (owners s). change (invites (opened s)) with (invites s).
  change (db (site_world (opened s))) with (db (site_world s)).
  rewrite commit_when_opened. reflexivity.
Qed.

Lemma unknown_session_run (cfg : Config) (req : Request) (w : World)
    (sid act : string) (src : option Z) (uid : string) :
  well_formed req sid act src uid -> sessions (db w) !! sid = None ->
  submitAction cfg req w = (inr SessionNotFound, w).
Proof.
  intros Hwf Hnone. unfold submitAction.
  rewrite (post_action_well_formed cfg req sid act src uid Hwf).
  rewrite run_try_catch. unfold handle. cbn [run bind await exec]. rewrite Hnone.
  reflexivity.
Qed.

Lemma filter_other_session {A : Type} (key : A -> string) (sid sid' : string) (l : list A) :
  sid' <> sid ->
  filter (fun x => key x = sid') (filter (fun x => key x <> sid) l)
  = filter (fun x => key x = sid') l.
Proof.
  intros Hne. induction l as [| x l IH]; [reflexivity |].
  rewrite !filter_cons. destruct (decide (key x <> sid)) as [Hx | Hx].
  - rewrite filter_cons. destruct (decide (key x = sid')); rewrite IH; reflexivity.
  - destruct (decide (key x = sid')) as [Hx' | Hx']; [| exact IH].
    exfalso. apply Hx. congruence.
Qed.

Lemma filter_same_session {A : Type} (key : A -> string) (sid : string) (l : list A) :
  filter (fun x => key x = sid) (filter (fun x => key x <> sid) l) = [].
Proof.
  induction l as [| x l IH]; [reflexivity |].
  rewrite filter_cons. destruct (decide (key x <> sid)) as [Hx | Hx]; [| exact IH].
  rewrite filter_cons, decide_False by exact Hx. exact IH.
Qed.

(** X21.  The delete route acts only for the user who created the session: for
    anyone else (roster members included) it answers 404 and changes nothing.
    For the creator it removes the session row together with its roster rows,
    its turns and its invite code, leaves every other session's document,
    owner and invite code as they were and no transaction open; from then on
    any well-formed action on the deleted session is answered 404. *)
Theorem delete_removes_the_whole_session (s s' : Site) (uid sid : string)
    (resp : DeleteResponse) :
  idle s -> uid <> "" -> sid <> "" ->
  delete_history (Some uid) (Some sid) s = (inr resp, s') ->
  if owned_by s sid uid
  then resp = Deleted /\ idle s'
       /\ sessions (db (site_world s')) !! sid = None
       /\ roster (db (site_world s')) sid = []
       /\ turns_of (db (site_world s')) sid = []
       /\ owners s' !! sid = None
       /\ (forall code, invites s' !! code <> Some sid)
       /\ (forall sid', sid' <> sid ->
             state_of (db (site_world s')) sid' = state_of (db (site_world s)) sid'
             /\ owners s' !! sid' = owners s !! sid'
             /\ forall code, invites s !! code = Some sid' -> invites s' !! code = Some sid')
       /\ (forall cfg req act src u,
             well_formed req sid act src u ->
             submitAction cfg req (site_world s') = (inr SessionNotFound, site_world s'))
  else resp = DeleteNotFound /\ s' = s.
Proof.
  intros Hidle Huid Hsid. rewrite (delete_history_run s uid sid Hidle Huid Hsid).
  destruct (owned_by s sid uid); intros [= <- <-]; [| split; reflexivity].
  unfold without, delete_rows.
  cbn [site_world db set_db owners invites sessions session_players turns].
  split; [reflexivity |]. split; [split; reflexivity |].
  split; [apply lookup_delete_eq |].
  split; [unfold roster; cbn [session_players]; apply filter_same_session |].
  split; [unfold turns_of; cbn [turns]; apply filter_same_session |].
  split; [apply lookup_delete_eq |].
  split.
  { intros code Hcode. apply map_lookup_filter_Some in Hcode. destruct Hcode as [_ Hne].
    apply Hne. reflexivity. }
  split.
  { intros sid' Hne. split; [| split].
    - unfold state_of, select_players, select_turns, turns_of.
      cbn [sessions session_players turns]. rewrite lookup_delete_ne by congruence.
      rewrite (filter_other_session p_session_id sid sid' _ Hne),
        (filter_other_session t_session_id sid sid' _ Hne). reflexivity.
    - apply lookup_delete_ne. congruence.
    - intros code Hcode. apply map_lookup_filter_Some. split; [exact Hcode |].
      cbn. congruence. }
  intros cfg req act src u Hwf. apply (unknown_session_run cfg req _ sid act src u Hwf).
  cbn [db set_db sessions]. apply lookup_delete_eq.
Qed.

Lemma delete_removes_the_whole_session_witness :
  sessions (db (site_world (delete_history (Some "u0") (Some "S") (lobby db_party)).2)) !! "S"
  = None.
Proof.
  pose proof (delete_removes_the_whole_session (lobby db_party) _ "u0" "S" Deleted
                (lobby_idle db_party) ltac:(discriminate) ltac:(discriminate)
                ltac:(vm_compute; reflexivity)) as H.
  change (owned_by (lobby db_party) "S" "u0") with true in H.
  exact (proj1 (proj2 (proj2 H))).
Defined.

(** ** The start route *)

Lemma store_kept_refl (w : World) : store_kept w w.
Proof. repeat split. Qed.

Lemma store_kept_trans (w1 w2 w3 : World) :
  store_kept w1 w2 -> store_kept w2 w3 -> store_kept w1 w3.
Proof.
  intros (H1 & H2 & H3) (H4 & H5 & H6). repeat split; congruence.
Qed.

Lemma uuid_kept (w : World) : store_kept w (exec Uuid w).2.
Proof. cbn [exec]. destruct (uuids w); repeat split. Qed.

Lemma callLLM_kept (cfg : Config) (p : Prompt) (maxRetries : Z) (isInitialTurn : bool)
    (providerOverride modelOverride : option string) (w : World) :
  exists r w',
    run (callLLM cfg p maxRetries isInitialTurn providerOverride modelOverride) w = (r, w')
    /\ store_kept w w'
    /\ forall j, r = inr j ->
         common_fields_ok j = true /\ goal_fields_ok isInitialTurn j = true.
Proof.
  unfold callLLM.
  set (providerToUse := if falsy providerOverride then _ else _).
  destruct (if falsy modelOverride then default_model providerToUse isInitialTurn
            else inr tt) as [e0 | []].
  - eexists _, _. cbn [run]. split; [reflexivity |]. split; [apply store_kept_refl |].
    intros j. discriminate.
  - destruct (llm_attempts_budget providerToUse p isInitialTurn maxRetries
                (Z.to_nat maxRetries) 1 w)
      as (n & w0 & r0 & Hrun0 & _ & (Hdb & Htx & Hso & _) & _ & _ & _ & Hres).
    { destruct (Z.to_nat maxRetries) eqn:Hm; [left; reflexivity | right; lia]. }
    exists r0, w0. split; [exact Hrun0 |]. split; [repeat split; assumption |].
    intros j ->. destruct Hres as (H1 & H2 & _). split; assumption.
Qed.

Lemma initial_image_dispatch (cfg : Config) (j : json) :
  initial_image cfg (as_string (prop j "image_prompt"))
  = generateImageWithAppropriateProvider cfg j None.
Proof.
  unfold initial_image, generateImageWithAppropriateProvider. cbn [falsy negb andb].
  rewrite andb_false_r. reflexivity.
Qed.

Lemma initial_image_kept (cfg : Config) (j : json) (w : World) :
  exists r w',
    run (initial_image cfg (as_string (prop j "image_prompt"))) w = (r, w')
    /\ store_kept w w'.
Proof.
  rewrite initial_image_dispatch.
  destruct (image_run cfg j None w) as (w' & r & Hrun & Hdb & Htx & Hso & _).
  exists r, w'. split; [exact Hrun |]. repeat split; assumption.
Qed.

Lemma rollback_when_idle (s : Site) : idle s -> rollback_quietly s = (inr tt, s).
Proof.
  intros [Ht _]. unfold rollback_quietly, lcatch, sql_rollback. cbn [exec]. rewrite Ht.
  destruct s; reflexivity.
Qed.

Lemma start_writes_run {A : Type} (s : Site) (sid uid : string) (row : SessionRow)
    (inviteCode : option string) (creator : PlayerRow) (turn0 : TurnRow) (resp : A) :
  idle s -> p_session_id creator = sid ->
  exists r s',
    (sql_begin ;;>
     insert_session sid uid row inviteCode ;;>
     insert_player_row creator ;;>
     lift (await_or_throw (InsertTurn turn0)) ;;>
     sql_commit ;;>
     lret resp) s = (r, s')
    /\ match r with
       | inl e => e <> InvalidGoalData /\ rollback_quietly s' = (inr tt, s)
       | inr x =>
           x = resp /\ s' = founded s sid uid row inviteCode creator turn0
           /\ sessions (db (site_world s)) !! sid = None
           /\ (forall code, inviteCode = Some code -> invites s !! code = None)
           /\ is_member (db (site_world s)) sid (user_id creator) = false
           /\ seat_taken (db (site_world s)) creator = false
           /\ turn_id_taken (db (site_world s)) turn0 = false
           /\ turn_index_taken (db (site_world s)) turn0 = false
       end.
Proof.
  intros Hidle Hcreator. unfold lbind at 1. rewrite (begin_when_idle s Hidle).
  assert (Hback : forall w o i,
            txn w = Some (db (site_world s)) -> sessionSockets w = sessionSockets (site_world s)
            -> provider_replies w = provider_replies (site_world s)
            -> image_replies w = image_replies (site_world s)
            -> uuids w = uuids (site_world s) -> clock w = clock (site_world s)
            -> log w = log (site_world s) ->
            rollback_quietly (mkSite w o i (Some (owners s, invites s))) = (inr tt, s)).
  { intros w o i Htx Hso Hpr Hir Huu Hck Hlog.
    unfold rollback_quietly, lcatch, sql_rollback. cbn [exec site_world site_txn].
    rewrite Htx. destruct Hidle as [Hidle1 Hidle2].
    destruct s as [w0 o0 i0 t0]. cbn in *. subst t0. f_equal. f_equal.
    destruct w as [d t so pr ir u c l]. destruct w0 as [d0 t1 so0 pr0 ir0 u0 c0 l0].
    cbn in *. subst. reflexivity. }
  unfold lbind at 1. unfold insert_session at 1.
  change (db (site_world (opened s))) with (db (site_world s)).
  change (invites (opened s)) with (invites s).
  destruct (sessions (db (site_world s)) !! sid) eqn:Hfresh.
  { eexists _, _. split; [reflexivity |]. split; [discriminate |].
    apply Hback; reflexivity. }
  destruct (inviteCode ≫= fun code => invites s !! code) eqn:Hcode.
  { eexists _, _. split; [reflexivity |]. split; [discriminate |].
    apply Hback; reflexivity. }
  unfold lbind at 1. unfold insert_player_row at 1.
  cbn [site_world opened db set_db txn clock owners invites site_txn set_world].
  unfold insert_player. rewrite Hcreator. cbn [sessions]. rewrite lookup_insert_eq.
  assert (Hmem : forall u, is_member (mkDb (<[sid := mkSession (theme row) (is_multiplayer row)
                         (max_players row) (current_player_index row) (game_goal row)
                         (goal_prerequisites row) (met_prerequisites row)
                         (is_goal_met row) (clock (site_world s))]>
                                              (sessions (db (site_world s))))
                                       (session_players (db (site_world s)))
                                       (turns (db (site_world s)))) sid u
                       = is_member (db (site_world s)) sid u) by reflexivity.
  rewrite Hmem.
  destruct (is_member (db (site_world s)) sid (user_id creator)) eqn:Hmember.
  { eexists _, _. split; [reflexivity |]. split; [discriminate |].
    apply Hback; reflexivity. }
  match goal with
  | |- context [seat_taken ?d creator] =>
      change (seat_taken d creator) with (seat_taken (db (site_world s)) creator)
  end.
  destruct (seat_taken (db (site_world s)) creator) eqn:Hseat.
  { eexists _, _. split; [reflexivity |]. split; [discriminate |].
    apply Hback; reflexivity. }
  unfold lbind at 1. unfold lift at 1.
  cbn [site_world set_world run await_or_throw exec db set_db txn clock].
  unfold insert_turn.
  match goal with
  | |- context [turn_id_taken ?d turn0] =>
      change (turn_id_taken d turn0) with (turn_id_taken (db (site_world s)) turn0);
      change (turn_index_taken d turn0) with (turn_index_taken (db (site_world s)) turn0)
  end.
  destruct (turn_id_taken (db (site_world s)) turn0) eqn:Hid.
  { eexists _, _. cbn [run]. split; [reflexivity |]. split; [discriminate |].
    apply Hback; reflexivity. }
  destruct (turn_index_taken (db (site_world s)) turn0) eqn:Hidx.
  { eexists _, _. cbn [run]. split; [reflexivity |]. split; [discriminate |].
    apply Hback; reflexivity. }
  cbn [run set_db db txn sessions session_players turns].
  unfold lbind, sql_commit, lret.
  cbn [exec site_world set_world txn set_db db owners invites site_txn].
  eexists _, _. split; [reflexivity |]. split; [reflexivity |].
  split; [reflexivity |]. split; [reflexivity |].
  split; [| repeat split; assumption].
  intros code ->. exact Hcode.
Qed.

Lemma idle_kept (s : Site) (w : World) :
  idle s -> store_kept (site_world s) w -> idle (set_world s w).
Proof. intros [Ht Hs] (_ & Htx & _). split; [cbn; congruence | exact Hs]. Qed.

Lemma post_start_cases (cfg : Config) (INITIAL_GOOGLE_MODEL : string)
    (req : StartRequest) (s : Site) :
  idle s ->
  exists resp s',
    post_start cfg INITIAL_GOOGLE_MODEL req s = (inr resp, s')
    /\ match resp with
       | StartBadRequest _ => s' = s
       | StartUnauthorized => s' = s
       | StartFailed e =>
           e <> InvalidGoalData
           /\ store_kept (site_world s) (site_world s')
           /\ owners s' = owners s /\ invites s' = invites s /\ idle s'
       | Started sid view code =>
           exists theme name gender uid j w3 turnId,
             s_theme req = Some theme /\ s_characterName req = Some name
             /\ s_characterGender req = Some gender /\ s_userId req = Some uid
             /\ store_kept (site_world s) w3
             /\ common_fields_ok j = true /\ goal_fields_ok true j = true
             /\ (s_isMultiplayer req = true -> 2 <= or_four (s_maxPlayers req) <= 8)
             /\ (is_Some code <-> s_isMultiplayer req = true)
             /\ let mp := s_isMultiplayer req in
                let row :=
                  mkSession theme (if mp then 1 else 0)
                    (if mp then Some (or_four (s_maxPlayers req)) else None)
                    (if mp then Some 0 else None)
                    (Some (as_string (prop j "game_goal")))
                    (Some (map json_string (as_array (prop j "goal_prerequisites"))))
                    (Some []) 0 0 in
                let creator :=
                  mkPlayer sid uid 0 name gender (or_null (s_characterImageUrl req)) in
                let turn0 :=
                  mkTurn turnId sid 0 (v_scenarioText view) (v_imageUrl view)
                    (v_imagePrompt view) (v_suggestedActions view) None (v_timeOfDay view)
                    (if v_isSameLocation view then 1 else 0) (v_characters view)
                    None None 0 in
                v_turnIndex view = 0
                /\ v_scenarioText view = as_string (prop j "narrative")
                /\ s' = founded (set_world s w3) sid uid row code creator turn0
                /\ sessions (db (site_world s)) !! sid = None
                /\ (forall c, code = Some c -> invites s !! c = None)
                /\ is_member (db (site_world s)) sid uid = false
                /\ seat_taken (db (site_world s)) creator = false
                /\ turn_id_taken (db (site_world s)) turn0 = false
                /\ turn_index_taken (db (site_world s)) turn0 = false
       end.
Proof.
  intros Hidle. unfold post_start.
  destruct (falsy (s_theme req)) eqn:Htheme;
    [eexists _, _; split; [reflexivity |]; reflexivity |].
  destruct (falsy (s_characterName req)) eqn:Hname;
    [eexists _, _; split; [reflexivity |]; reflexivity |].
  destruct (falsy (s_characterGender req)) eqn:Hgender;
    [eexists _, _; split; [reflexivity |]; reflexivity |].
  destruct (falsy (s_userId req)) eqn:Huid;
    [eexists _, _; split; [reflexivity |]; reflexivity |].
  apply falsy_false in Htheme, Hname, Hgender, Huid.
  destruct Htheme as (theme & Htheme & _). destruct Hname as (name & Hname & _).
  destruct Hgender as (gender & Hgender & _). destruct Huid as (uid & Huid & _).
  rewrite Htheme, Hname, Hgender, Huid.
  change (default "" (Some theme)) with theme. change (default "" (Some name)) with name.
  change (default "" (Some gender)) with gender. change (default "" (Some uid)) with uid.
  set (mp := s_isMultiplayer req).
  set (gameMaxPlayers := if mp then or_four (s_maxPlayers req) else 1).
  destruct (mp && ((gameMaxPlayers <? 2) || (8 <? gameMaxPlayers))) eqn:Hrange;
    [eexists _, _; split; [reflexivity |]; reflexivity |].
  assert (Hmax : mp = true -> 2 <= or_four (s_maxPlayers req) <= 8).
  { intros Hmp. rewrite Hmp in Hrange. subst gameMaxPlayers. rewrite Hmp in Hrange.
    cbn [andb] in Hrange. apply orb_false_iff in Hrange. destruct Hrange as [H1 H2].
    apply Z.ltb_ge in H1, H2. lia. }
  (* the three identifiers *)
  unfold lbind at 1. unfold lift at 1. cbn [run await].
  pose proof (uuid_kept (site_world s)) as Hk1.
  destruct (exec Uuid (site_world s)) as [sid w1]. cbn [snd] in Hk1. cbn [run].
  unfold lbind at 1. unfold lift at 1. cbn [run await site_world set_world].
  pose proof (uuid_kept w1) as Hk2.
  destruct (exec Uuid w1) as [turnId w2]. cbn [snd] in Hk2. cbn [run].
  cbn [set_world owners invites site_txn].
  assert (Hcode : exists code w2',
            (if mp then uuid <~ lift (await Uuid) ;; lret (Some (invite_of uuid))
             else lret None) (mkSite w2 (owners s) (invites s) (site_txn s))
            = (inr code, mkSite w2' (owners s) (invites s) (site_txn s))
            /\ store_kept w2 w2' /\ (is_Some code <-> mp = true)).
  { destruct mp.
    - unfold lbind, lift, lret. cbn [run await site_world set_world owners invites site_txn].
      pose proof (uuid_kept w2) as Hk3. destruct (exec Uuid w2) as [u w2'].
      cbn [snd] in Hk3. cbn [run]. eexists _, _. split; [reflexivity |].
      split; [exact Hk3 |]. split; [reflexivity | eauto].
    - unfold lret. exists None, w2. split; [reflexivity |].
      split; [apply store_kept_refl |]. split; [intros [x Hx]; discriminate | discriminate]. }
  destruct Hcode as (code & w2' & Hcoderun & Hk3 & Hcodemp).
  unfold lbind at 1.
  change (set_world (set_world s w1) w2)
    with (mkSite w2 (owners s) (invites s) (site_txn s)).
  rewrite Hcoderun. clear Hcoderun.
  assert (Hk : store_kept (site_world s) w2')
    by (eapply store_kept_trans; [| exact Hk3];
        eapply store_kept_trans; [exact Hk1 | exact Hk2]).
  clear Hk1 Hk2 Hk3.
  (* the generator *)
  unfold lcatch, start_body. unfold lbind at 1. unfold lift at 1. cbn [site_world].
  match goal with
  | |- context [run (callLLM cfg ?p 3 true ?po ?mo) w2'] =>
      destruct (callLLM_kept cfg p 3 true po mo w2') as (r & w3 & -> & Hk3 & Hchecked)
  end.
  assert (Hk' : store_kept (site_world s) w3) by (eapply store_kept_trans; eassumption).
  destruct r as [e | j].
  { unfold lbind, set_world. cbn [site_world owners invites site_txn].
    rewrite (rollback_when_idle (mkSite w3 (owners s) (invites s) (site_txn s))
               (idle_kept s w3 Hidle Hk')).
    eexists _, _. split; [reflexivity |]. split; [discriminate |].
    split; [exact Hk' |]. split; [reflexivity |]. split; [reflexivity |].
    exact (idle_kept s w3 Hidle Hk'). }
  destruct (Hchecked j eq_refl) as [Hcommon Hgoal].
  pose proof Hcommon as Hcommon'. pose proof Hgoal as Hgoal'.
  unfold goal_fields_ok in Hgoal'.
  apply andb_true_iff in Hgoal'. destruct Hgoal' as [Hgoal' Hprereq].
  apply andb_true_iff in Hgoal'. destruct Hgoal' as [Hstring Hblank].
  apply negb_true_iff in Hblank.
  assert (Hcheck : json_falsy (prop j "game_goal") || negb (is_string (prop j "game_goal"))
                   || is_blank (as_string (prop j "game_goal"))
                   || negb (is_array_of (fun _ => true)
                              (if json_falsy (prop j "goal_prerequisites")
                               then Some (JArr [])
                               else prop j "goal_prerequisites")) = false).
  { destruct (prop j "game_goal") as [[| | | g | |] |]; try discriminate.
    destruct (prop j "goal_prerequisites") as [[| | | | items |] |]; try discriminate.
    cbn [json_falsy is_string as_string negb orb] in *.
    rewrite Hblank. destruct g; [discriminate |]. cbn.
    clear. induction items; [reflexivity | assumption]. }
  rewrite Hcheck.
  assert (Hprereqs : (if json_falsy (prop j "goal_prerequisites") then Some (JArr [])
                      else prop j "goal_prerequisites") = prop j "goal_prerequisites").
  { destruct (prop j "goal_prerequisites") as [[| | | | items |] |]; try discriminate.
    reflexivity. }
  rewrite Hprereqs.
  (* the image *)
  unfold lbind at 1. unfold lift at 1. unfold set_world.
  cbn [site_world owners invites site_txn].
  destruct (initial_image_kept cfg j w3) as (r & w4 & -> & Hk4).
  assert (Hk'' : store_kept (site_world s) w4) by (eapply store_kept_trans; eassumption).
  pose proof (idle_kept s w4 Hidle Hk'') as Hidle4.
  unfold set_world in Hidle4.
  destruct r as [e | imageUrl].
  { unfold lbind. rewrite (rollback_when_idle _ Hidle4).
    eexists _, _. split; [reflexivity |]. split; [discriminate |].
    split; [exact Hk'' |]. split; [reflexivity |]. split; [reflexivity |]. exact Hidle4. }
  (* the three rows *)
  match goal with
  | |- context [(sql_begin ;;> insert_session sid uid ?row code ;;>
                 insert_player_row ?creator ;;>
                 lift (await_or_throw (InsertTurn ?turn0)) ;;> sql_commit ;;>
                 lret ?resp) ?s4] =>
      destruct (start_writes_run s4 sid uid row code creator turn0 resp Hidle4 eq_refl)
        as (r & s5 & -> & Hwrites)
  end.
  destruct Hk'' as (Hdb4 & Htx4 & Hso4).
  destruct r as [e | resp].
  { destruct Hwrites as [He Hback]. unfold lbind. rewrite Hback.
    eexists _, _. split; [reflexivity |]. split; [exact He |].
    split; [repeat split; assumption |]. split; [reflexivity |]. split; [reflexivity |].
    exact Hidle4. }
  destruct Hwrites as (-> & -> & Hfresh & Hcodefresh & Hmember & Hseat & Hid & Hidx).
  cbn [site_world db] in Hfresh, Hmember, Hseat, Hid, Hidx. cbn [invites] in Hcodefresh.
  eexists _, _. split; [reflexivity |].
  exists theme, name, gender, uid, j, w4, turnId.
  do 4 (split; [reflexivity |]). split; [repeat split; assumption |].
  split; [exact Hcommon |]. split; [exact Hgoal |]. split; [exact Hmax |].
  split; [exact Hcodemp |]. cbn [v_turnIndex v_scenarioText v_imageUrl v_imagePrompt
                                   v_suggestedActions v_timeOfDay v_isSameLocation
                                   v_characters].
  split; [reflexivity |]. split; [reflexivity |].
  split; [unfold set_world; subst gameMaxPlayers; destruct mp; reflexivity |].
  rewrite <- Hdb4. repeat split; assumption.
Qed.

(** ** A session just started *)

Lemma filter_none {A : Type} (P : A -> Prop) `{forall x, Decision (P x)} (l : list A) :
  (forall x, x ∈ l -> ~ P x) -> filter P l = [].
Proof.
  intros Hnone. destruct (filter P l) as [| x rest] eqn:Hf; [reflexivity |]. exfalso.
  assert (Hx : x ∈ filter P l) by (rewrite Hf; apply list_elem_of_here).
  apply list_elem_of_filter in Hx. destruct Hx as [HP Hin]. exact (Hnone x Hin HP).
Qed.

Lemma unknown_session_is_empty (d : Db) (sid : string) :
  no_orphans d -> sessions d !! sid = None -> roster d sid = [] /\ turns_of d sid = [].
Proof.
  intros [Hp Ht] Hnone. split.
  - apply filter_none. intros p Hin Hsid. specialize (Hp p Hin). rewrite Hsid, Hnone in Hp.
    destruct Hp as [x Hx]. discriminate.
  - apply filter_none. intros t Hin Hsid. specialize (Ht t Hin). rewrite Hsid, Hnone in Ht.
    destruct Ht as [x Hx]. discriminate.
Qed.

(** X22.  A start answered 201 has written exactly three rows under a session
    id that was free: the session, the creator as player 0 and turn 0 without
    an action or acting player; the goal flag is 0, the met list empty, and
    the goal is not emptied by String.prototype.trim. A multiplayer session
    gets pointer 0, max_players between 2 and 8 (4 when maxPlayers is missing,
    unreadable or 0) and an invite code that was free; a single-player session
    gets no pointer, no max_players and no invite code. *)
Theorem start_founds_one_session (cfg : Config) (INITIAL_GOOGLE_MODEL : string)
    (req : StartRequest) (s s' : Site) (sid : string) (view : TurnView)
    (code : option string) :
  idle s ->
  post_start cfg INITIAL_GOOGLE_MODEL req s = (inr (Started sid view code), s') ->
  exists session creator turn0,
    sessions (db (site_world s)) !! sid = None
    /\ sessions (db (site_world s')) = <[sid := session]> (sessions (db (site_world s)))
    /\ session_players (db (site_world s')) = session_players (db (site_world s)) ++ [creator]
    /\ turns (db (site_world s')) = turns (db (site_world s)) ++ [turn0]
    /\ owners s' = <[sid := user_id creator]> (owners s)
    /\ idle s'
    /\ p_session_id creator = sid /\ s_userId req = Some (user_id creator)
    /\ player_index creator = 0 /\ s_characterName req = Some (character_name creator)
    /\ t_session_id turn0 = sid /\ turn_index turn0 = 0 /\ action_taken turn0 = None
    /\ acting_player_user_id turn0 = None
    /\ scenario_text turn0 = v_scenarioText view /\ image_url turn0 = v_imageUrl view
    /\ s_theme req = Some (theme session)
    /\ is_goal_met session = 0 /\ met_prerequisites session = Some []
    /\ (exists goal, game_goal session = Some goal /\ is_blank goal = false)
    /\ is_Some (goal_prerequisites session)
    /\ if s_isMultiplayer req
       then is_multiplayer session = 1 /\ current_player_index session = Some 0
            /\ (exists n, max_players session = Some n /\ 2 <= n <= 8
                          /\ (n = 4 \/ s_maxPlayers req = Some n))
            /\ exists c, code = Some c /\ invites s !! c = None
                         /\ invites s' = <[c := sid]> (invites s)
       else is_multiplayer session = 0 /\ current_player_index session = None
            /\ max_players session = None /\ code = None /\ invites s' = invites s.
Proof.
  intros Hidle Hrun.
  destruct (post_start_cases cfg INITIAL_GOOGLE_MODEL req s Hidle)
    as (resp & s0 & Hrun0 & Hcases).
  rewrite Hrun in Hrun0. injection Hrun0 as <- <-.
  destruct Hcases as (thm & name & gender & uid & j & w3 & turnId & Htheme & Hname
                      & Hgender & Huid & (Hdb & Htx & Hso) & Hcommon & Hgoal & Hmax
                      & Hcode & Hview & Hnarr & -> & Hfresh & Hcodefresh & _).
  unfold goal_fields_ok in Hgoal.
  apply andb_true_iff in Hgoal. destruct Hgoal as [Hgoal _].
  apply andb_true_iff in Hgoal. destruct Hgoal as [_ Hblank].
  apply negb_true_iff in Hblank.
  eexists _, _, _. unfold founded, set_world.
  cbn [site_world db set_db sessions session_players turns owners invites site_txn txn].
  rewrite !Hdb. split; [exact Hfresh |].
  do 3 (split; [reflexivity |]). split; [reflexivity |]. split; [split; reflexivity |].
  cbn [p_session_id user_id player_index character_name theme is_multiplayer max_players
         current_player_index game_goal goal_prerequisites met_prerequisites is_goal_met
         stamp t_session_id turn_index action_taken acting_player_user_id scenario_text
         image_url].
  split; [reflexivity |]. split; [exact Huid |]. split; [reflexivity |].
  split; [exact Hname |]. do 6 (split; [reflexivity |]). split; [exact Htheme |].
  do 2 (split; [reflexivity |]). split; [eauto |]. split; [eauto |].
  destruct (s_isMultiplayer req) eqn:Hmp.
  - do 2 (split; [reflexivity |]). split.
    { eexists. split; [reflexivity |]. split; [exact (Hmax eq_refl) |].
      unfold or_four. destruct (s_maxPlayers req) as [n |]; [| left; reflexivity].
      destruct (n =? 0); [left | right]; reflexivity. }
    destruct (proj2 Hcode eq_refl) as [c ->]. exists c. split; [reflexivity |].
    split; [exact (Hcodefresh c eq_refl) | reflexivity].
  - do 3 (split; [reflexivity |]).
    destruct code as [c |].
    + exfalso. assert (Hc : is_Some (Some c)) by eauto. apply Hcode in Hc. discriminate.
    + split; reflexivity.
Qed.

(** X23.  On a store without orphan rows, the session a successful start
    creates satisfies every invariant the other routes rely on: gapless ledger
    with latest index 0, seats numbered from 0, roster within capacity, one
    seat per user, and a turn pointer that names a seat; the store still has
    no orphan rows. *)
Theorem started_session_meets_invariants (cfg : Config) (INITIAL_GOOGLE_MODEL : string)
    (req : StartRequest) (s s' : Site) (sid : string) (view : TurnView)
    (code : option string) :
  idle s -> no_orphans (db (site_world s)) ->
  post_start cfg INITIAL_GOOGLE_MODEL req s = (inr (Started sid view code), s') ->
  no_orphans (db (site_world s'))
  /\ ledger_ok (db (site_world s')) sid
  /\ select_max_turn (db (site_world s')) sid = Some 0
  /\ seats_ok (db (site_world s')) sid
  /\ within_capacity (db (site_world s')) sid
  /\ one_seat_each (db (site_world s')) sid
  /\ pointer_ok (db (site_world s')) sid.
Proof.
  intros Hidle Horphans Hrun.
  destruct (post_start_cases cfg INITIAL_GOOGLE_MODEL req s Hidle)
    as (resp & s0 & Hrun0 & Hcases).
  rewrite Hrun in Hrun0. injection Hrun0 as <- <-.
  destruct Hcases as (thm & name & gender & uid & j & w3 & turnId & _ & _ & _ & _
                      & (Hdb & Htx & Hso) & _ & _ & Hmax & _ & _ & _ & -> & Hfresh & _).
  destruct (unknown_session_is_empty _ sid Horphans Hfresh) as [Hroster Hturns].
  unfold founded, set_world.
  cbn [site_world db set_db sessions session_players turns owners invites site_txn txn].
  rewrite !Hdb.
  set (row := mkSession thm _ _ _ _ _ _ _ _).
  set (creator := mkPlayer sid uid 0 name gender _).
  set (turn0 := stamp _ _).
  set (d' := mkDb _ _ _).
  assert (Hroster' : roster d' sid = [creator]).
  { unfold roster, d'. cbn [session_players]. rewrite filter_app.
    fold (roster (db (site_world s)) sid). rewrite Hroster.
    rewrite filter_cons, filter_nil, decide_True by reflexivity. reflexivity. }
  assert (Hturns' : turns_of d' sid = [turn0]).
  { unfold turns_of, d'. cbn [turns]. rewrite filter_app.
    fold (turns_of (db (site_world s)) sid). rewrite Hturns.
    rewrite filter_cons, filter_nil, decide_True by reflexivity. reflexivity. }
  assert (Hindices : indices d' sid = [0]) by (unfold indices; rewrite Hturns'; reflexivity).
  assert (Hlatest : select_max_turn d' sid = Some 0).
  { unfold select_max_turn. rewrite Hturns'. reflexivity. }
  split.
  { destruct Horphans as [Hp Ht]. split.
    - intros p Hin. unfold d' in *. cbn [session_players sessions] in *.
      apply elem_of_app in Hin. destruct Hin as [Hin | Hin].
      + apply lookup_insert_is_Some'. right. exact (Hp p Hin).
      + apply list_elem_of_singleton in Hin. subst p. apply lookup_insert_is_Some'.
        left. reflexivity.
    - intros t Hin. unfold d' in *. cbn [turns sessions] in *.
      apply elem_of_app in Hin. destruct Hin as [Hin | Hin].
      + apply lookup_insert_is_Some'. right. exact (Ht t Hin).
      + apply list_elem_of_singleton in Hin. subst t. apply lookup_insert_is_Some'.
        left. reflexivity. }
  split.
  { split; [rewrite Hindices; apply NoDup_singleton |].
    intros latest n Hl Hn. rewrite Hlatest in Hl. injection Hl as <-.
    rewrite Hindices. assert (n = 0) as -> by lia. apply list_elem_of_here. }
  split; [exact Hlatest |].
  split; [unfold seats_ok; rewrite Hroster'; reflexivity |].
  split.
  { unfold within_capacity. rewrite Hroster'. unfold d'. cbn [sessions length].
    intros session Hs Hmp. rewrite lookup_insert_eq in Hs. injection Hs as <-.
    cbn [is_multiplayer max_players row] in *.
    destruct (s_isMultiplayer req); [| discriminate].
    specialize (Hmax eq_refl). cbn [js_num default id]. lia. }
  split; [unfold one_seat_each; rewrite Hroster'; apply NoDup_singleton |].
  unfold pointer_ok. rewrite Hroster'. unfold d'. cbn [sessions].
  intros session Hs Hmp. rewrite lookup_insert_eq in Hs. injection Hs as <-.
  cbn [is_multiplayer current_player_index row] in *.
  destruct (s_isMultiplayer req); [| discriminate].
  exists creator. split; [apply list_elem_of_here | reflexivity].
Qed.

(** X24.  The start route always answers. Its own check of game_goal and
    goal_prerequisites can never be the reason of a 500, because callLLM has
    already enforced it. Any answer other than 201 leaves database, owners,
    invite codes and presence registry as found and no transaction open; a 400
    or 401 leaves the whole state untouched. *)
Theorem failed_start_leaves_no_row (cfg : Config) (INITIAL_GOOGLE_MODEL : string)
    (req : StartRequest) (s : Site) :
  idle s ->
  exists resp s',
    post_start cfg INITIAL_GOOGLE_MODEL req s = (inr resp, s')
    /\ resp <> StartFailed InvalidGoalData
    /\ (start_status resp <> 201 ->
        db (site_world s') = db (site_world s) /\ owners s' = owners s
        /\ invites s' = invites s /\ idle s'
        /\ sessionSockets (site_world s') = sessionSockets (site_world s))
    /\ (start_status resp = 400 \/ start_status resp = 401 -> s' = s).
Proof.
  intros Hidle.
  destruct (post_start_cases cfg INITIAL_GOOGLE_MODEL req s Hidle)
    as (resp & s' & Hrun & Hcases).
  exists resp, s'. split; [exact Hrun |].
  destruct resp as [msg | | sid view code | e].
  - subst s'. split; [discriminate |]. split; [| reflexivity].
    intros _. repeat split; apply Hidle.
  - subst s'. split; [discriminate |]. split; [| reflexivity].
    intros _. repeat split; apply Hidle.
  - split; [discriminate |]. split; [intros H; exfalso; apply H; reflexivity |].
    intros [H | H]; discriminate.
  - destruct Hcases as (He & (Hdb & Htx & Hso) & Ho & Hi & Hidle').
    split; [congruence |]. split; [| intros [H | H]; discriminate].
    intros _. repeat split; try assumption; apply Hidle'.
Qed.

(** ** Invariants along the routes *)

Lemma select_players_roster (d : Db) (sid : string) (p : PlayerRow) :
  p ∈ select_players d sid <-> p ∈ roster d sid.
Proof. unfold select_players. fold (roster d sid). rewrite order_by_perm. reflexivity. Qed.

Lemma seat_exists (d : Db) (sid : string) (k : Z) :
  seats_ok d sid -> 0 <= k < Z.of_nat (length (roster d sid)) ->
  exists p, p ∈ roster d sid /\ player_index p = k.
Proof.
  intros Hseats Hk.
  assert (Hin : k ∈ player_index <$> roster d sid).
  { rewrite Hseats. apply list_elem_of_fmap. exists (Z.to_nat k). split; [lia |].
    apply list_elem_of_In, in_seq. lia. }
  apply list_elem_of_fmap in Hin. destruct Hin as (p & -> & Hp). eauto.
Qed.

Lemma seat_in_range (d : Db) (sid : string) (p : PlayerRow) :
  seats_ok d sid -> p ∈ roster d sid ->
  0 <= player_index p < Z.of_nat (length (roster d sid)).
Proof.
  intros Hseats Hp.
  assert (Hin : player_index p ∈ player_index <$> roster d sid)
    by (apply list_elem_of_fmap; eauto).
  rewrite Hseats in Hin. apply list_elem_of_fmap in Hin. destruct Hin as (k & -> & Hk).
  apply list_elem_of_In, in_seq in Hk. lia.
Qed.

Lemma pointer_ok_same (d d' : Db) (sid : string) :
  sessions d' !! sid = sessions d !! sid -> session_players d' = session_players d ->
  pointer_ok d sid -> pointer_ok d' sid.
Proof.
  unfold pointer_ok, roster. intros Hs Hp Hok session. rewrite Hs, Hp. apply Hok.
Qed.

Lemma action_keeps_pointer (cfg : Config) (req : Request) (w w' : World)
    (resp : Exn + Response) (sid : string) :
  txn w = None -> seats_ok (db w) sid -> pointer_ok (db w) sid ->
  submitAction cfg req w = (resp, w') ->
  pointer_ok (db w') sid /\ session_players (db w') = session_players (db w).
Proof.
  intros Htxn Hseats Hptr Hrun.
  destruct (submitAction_cases cfg req w Htxn) as (resp0 & w0 & Hrun0 & _ & Hcase).
  rewrite Hrun in Hrun0. injection Hrun0 as -> ->.
  destruct Hcase as [(-> & _) | [(e & _ & Hdb & _) | [Hskip | Hupd]]].
  - split; [exact Hptr | reflexivity].
  - rewrite Hdb. split; [exact Hptr | reflexivity].
  - destruct Hskip as (sid0 & s0 & st & _ & Hs0 & Hmp & Hfound & _ & _ & ->).
    cbn [db add_log set_db]. unfold update_session_index at 2. cbn [session_players].
    split; [| reflexivity].
    destruct (decide (sid0 = sid)) as [-> | Hne].
    + unfold pointer_ok, update_session_index, roster. cbn [sessions session_players].
      rewrite lookup_alter_eq, Hs0. cbn. intros session [= <-] _.
      cbn [current_player_index].
      destruct (skip_scan_found _ _ _ _ _ Hfound) as (p & Hp & Hidx & _).
      exists p. split; [apply select_players_roster; exact Hp |].
      unfold scan_from. rewrite Hidx. reflexivity.
    + apply (pointer_ok_same (db w)); [| reflexivity | exact Hptr].
      unfold update_session_index. cbn [sessions]. apply lookup_alter_ne. exact Hne.
  - destruct Hupd as (sid0 & uid & s0 & rp & n & j & st & row & t1 & t2 & d1 & _ & _ & _
                      & Hs0 & Hrp & Hown & _ & _ & _ & _ & _ & Hins & Hdb & _).
    apply insert_turn_inr in Hins. destruct Hins as [_ ->]. rewrite Hdb.
    unfold update_session_after_turn at 2. cbn [session_players]. split; [| reflexivity].
    destruct (decide (sid0 = sid)) as [-> | Hne].
    + unfold pointer_ok, update_session_after_turn, roster. cbn [sessions session_players].
      rewrite lookup_alter_eq, Hs0. cbn. intros session [= <-]. cbn [is_multiplayer].
      intros Hmp. cbn [current_player_index]. unfold next_player. rewrite Hmp.
      rewrite (Hown Hmp). cbn [js_num default id].
      unfold requester in Hrp. apply find_some in Hrp. destruct Hrp as [Hin _].
      apply list_elem_of_In, select_players_roster in Hin.
      pose proof (seat_in_range _ _ _ Hseats Hin) as Hrange.
      rewrite roster_length.
      destruct (seat_exists (db w) sid
                  (Z.rem (player_index rp + 1) (Z.of_nat (length (roster (db w) sid))))
                  Hseats) as (p & Hp & Hidx).
      { apply Z.rem_bound_pos; lia. }
      exists p. split; [exact Hp |]. rewrite Hidx. reflexivity.
    + apply (pointer_ok_same (db w)); [| reflexivity | exact Hptr].
      unfold update_session_after_turn. cbn [sessions]. apply lookup_alter_ne. exact Hne.
Qed.

Lemma seats_ok_same (d d' : Db) (sid : string) :
  session_players d' = session_players d -> seats_ok d sid -> seats_ok d' sid.
Proof. unfold seats_ok, roster. intros ->. auto. Qed.

(** X25.  If the seats of a session are numbered 0..n-1 and the turn pointer
    of a multiplayer session names one of them, this is still so after any
    call of the action route (the round-robin successor and the skip target
    are both seats) and after any join. *)
Theorem turn_pointer_names_a_seat (s : Site) (sid : string) :
  idle s -> seats_ok (db (site_world s)) sid -> pointer_ok (db (site_world s)) sid ->
  (forall cfg req resp w',
      submitAction cfg req (site_world s) = (resp, w') ->
      pointer_ok (db w') sid /\ seats_ok (db w') sid)
  /\ (forall req resp s',
        post_join req s = (inr resp, s') ->
        pointer_ok (db (site_world s')) sid /\ seats_ok (db (site_world s')) sid).
Proof.
  intros Hidle Hseats Hptr. split.
  - intros cfg req resp w' Hrun.
    destruct (action_keeps_pointer cfg req _ w' resp sid (proj1 Hidle) Hseats Hptr Hrun)
      as [Hptr' Hplayers].
    split; [exact Hptr' | exact (seats_ok_same _ _ _ Hplayers Hseats)].
  - intros req resp s' Hrun.
    destruct (post_join_cases req s Hidle) as (resp0 & s0 & Hrun0 & Hcases).
    rewrite Hrun in Hrun0. injection Hrun0 as <- <-.
    destruct Hcases as [[-> _] | Hjoined]; [split; assumption |].
    destruct Hjoined as (code & name & gender & uid & sid0 & session & st & _ & _ & _ & _ & _
                         & Hsess & Hmp & Hmember & Hroom & _ & _ & _ & ->).
    cbn [joined site_world db add_log set_db].
    set (row := mkPlayer sid0 uid _ name gender _).
    assert (Hroster := roster_snoc (db (site_world s)) row sid).
    change (p_session_id row) with sid0 in Hroster. split.
    + unfold pointer_ok. rewrite Hroster. cbn [sessions]. intros session' Hs' Hmp'.
      destruct (Hptr session' Hs' Hmp') as (p & Hp & Hidx). exists p.
      split; [apply elem_of_app; left; exact Hp | exact Hidx].
    + unfold seats_ok. rewrite Hroster.
      destruct (decide (sid0 = sid)) as [-> | Hne]; [| rewrite app_nil_r; exact Hseats].
      rewrite length_app, Nat.add_1_r, seq_S, !fmap_app, Hseats. reflexivity.
Qed.

Lemma pointer_ok_db_open : pointer_ok db_open "S".
Proof.
  intros session Hs _. exists (seat "u0" 0). split; [vm_compute; apply list_elem_of_here |].
  vm_compute in Hs. injection Hs as <-. reflexivity.
Defined.

Lemma turn_pointer_names_a_seat_witness :
  pointer_ok (db (site_world (post_join newcomer (lobby db_open)).2)) "S".
Proof.
  assert (Hrun : post_join newcomer (lobby db_open)
                 = (inr (Joined "S"), (post_join newcomer (lobby db_open)).2))
    by (vm_compute; reflexivity).
  exact (proj1 (proj2 (turn_pointer_names_a_seat (lobby db_open) "S" (lobby_idle db_open)
                         seats_ok_db_open pointer_ok_db_open) newcomer _ _ Hrun)).
Defined.

(** *** Foreign keys *)

Lemma no_orphans_same_sessions (d d' : Db) :
  (forall sid, is_Some (sessions d !! sid) -> is_Some (sessions d' !! sid)) ->
  session_players d' = session_players d -> turns d' = turns d ->
  no_orphans d -> no_orphans d'.
Proof.
  intros Hs Hp Ht [H1 H2]. split.
  - intros p. rewrite Hp. intros Hin. apply Hs, H1, Hin.
  - intros t. rewrite Ht. intros Hin. apply Hs, H2, Hin.
Qed.

Lemma action_keeps_foreign_keys (cfg : Config) (req : Request) (w w' : World)
    (resp : Exn + Response) :
  txn w = None -> no_orphans (db w) -> submitAction cfg req w = (resp, w') ->
  no_orphans (db w').
Proof.
  intros Htxn Hok Hrun.
  destruct (submitAction_cases cfg req w Htxn) as (resp0 & w0 & Hrun0 & _ & Hcase).
  rewrite Hrun in Hrun0. injection Hrun0 as -> ->.
  destruct Hcase as [(-> & _) | [(e & _ & Hdb & _) | [Hskip | Hupd]]].
  - exact Hok.
  - rewrite Hdb. exact Hok.
  - destruct Hskip as (sid0 & s0 & st & _ & _ & _ & _ & _ & _ & ->).
    cbn [db add_log set_db]. apply (no_orphans_same_sessions (db w)); try reflexivity;
      [| exact Hok].
    intros sid. unfold update_session_index. cbn [sessions]. intros [x Hx].
    destruct (decide (sid0 = sid)) as [-> | Hne].
    + rewrite lookup_alter_eq, Hx. cbn. eauto.
    + rewrite lookup_alter_ne by exact Hne. eauto.
  - destruct Hupd as (sid0 & uid & s0 & rp & n & j & st & row & t1 & t2 & d1 & _ & _ & _
                      & Hs0 & _ & _ & _ & _ & _ & Hrow & _ & Hins & Hdb & _).
    apply insert_turn_inr in Hins. destruct Hins as [_ ->]. rewrite Hdb.
    assert (Hsessions : forall sid, is_Some (sessions (db w) !! sid) ->
              is_Some (alter (fun s => mkSession (theme s) (is_multiplayer s) (max_players s)
                                         (next_player s0 (select_players (db w) sid0))
                                         (game_goal s) (goal_prerequisites s)
                                         (Some (reported_met j)) (final_goal s0 j) t2)
                         sid0 (sessions (db w)) !! sid)).
    { intros sid [x Hx]. destruct (decide (sid0 = sid)) as [-> | Hne].
      - rewrite lookup_alter_eq, Hx. cbn. eauto.
      - rewrite lookup_alter_ne by exact Hne. eauto. }
    destruct Hok as [H1 H2]. unfold update_session_after_turn.
    split; cbn [sessions session_players turns].
    + intros p Hin. apply Hsessions, H1, Hin.
    + intros t Hin. apply elem_of_app in Hin. destruct Hin as [Hin | Hin].
      * apply Hsessions, H2, Hin.
      * apply list_elem_of_singleton in Hin. subst t. cbn [stamp t_session_id].
        rewrite Hrow. apply Hsessions. eauto.
Qed.

(** X26.  The action, join, delete and start routes each leave a store in
    which every roster row and every turn belongs to an existing session,
    provided it was so before. *)
Theorem foreign_keys_hold_on_every_route (s : Site) :
  idle s -> no_orphans (db (site_world s)) ->
  (forall cfg req resp w',
      submitAction cfg req (site_world s) = (resp, w') -> no_orphans (db w'))
  /\ (forall req resp s',
        post_join req s = (inr resp, s') -> no_orphans (db (site_world s')))
  /\ (forall userId sessionId resp s',
        delete_history userId sessionId s = (inr resp, s') ->
        no_orphans (db (site_world s')))
  /\ (forall cfg model req resp s',
        post_start cfg model req s = (inr resp, s') -> no_orphans (db (site_world s'))).
Proof.
  intros Hidle Hok. split; [| split; [| split]].
  - intros cfg req resp w' Hrun.
    exact (action_keeps_foreign_keys cfg req _ w' resp (proj1 Hidle) Hok Hrun).
  - intros req resp s' Hrun.
    destruct (post_join_cases req s Hidle) as (resp0 & s0 & Hrun0 & Hcases).
    rewrite Hrun in Hrun0. injection Hrun0 as <- <-.
    destruct Hcases as [[-> _] | Hjoined]; [exact Hok |].
    destruct Hjoined as (code & name & gender & uid & sid0 & session & st & _ & _ & _ & _ & _
                         & Hsess & _ & _ & _ & _ & _ & _ & ->).
    cbn [joined site_world db add_log set_db]. destruct Hok as [H1 H2].
    split; cbn [sessions session_players turns]; [| exact H2].
    intros p Hin. apply elem_of_app in Hin. destruct Hin as [Hin | Hin]; [exact (H1 p Hin) |].
    apply list_elem_of_singleton in Hin. subst p. cbn [p_session_id]. eauto.
  - intros userId sessionId resp s'. unfold delete_history.
    destruct (falsy userId) eqn:Hu; [intros [= _ <-]; exact Hok |].
    destruct (falsy sessionId) eqn:Hs; [intros [= _ <-]; exact Hok |].
    apply falsy_false in Hu, Hs. destruct Hu as (uid & -> & Huid).
    destruct Hs as (sid & -> & Hsid).
    pose proof (delete_history_run s uid sid Hidle Huid Hsid) as Hrun.
    unfold delete_history in Hrun. rewrite (falsy_Some uid Huid), (falsy_Some sid Hsid) in Hrun.
    rewrite Hrun. destruct (owned_by s sid uid); intros [= _ <-]; [| exact Hok].
    unfold without, delete_rows.
    cbn [site_world db set_db sessions session_players turns]. destruct Hok as [H1 H2].
    split; cbn [sessions session_players turns].
    + intros p Hin. apply list_elem_of_filter in Hin. destruct Hin as [Hne Hin].
      rewrite lookup_delete_ne by congruence. exact (H1 p Hin).
    + intros t Hin. apply list_elem_of_filter in Hin. destruct Hin as [Hne Hin].
      rewrite lookup_delete_ne by congruence. exact (H2 t Hin).
  - intros cfg model req resp s' Hrun.
    destruct (post_start_cases cfg model req s Hidle) as (resp0 & s0 & Hrun0 & Hcases).
    rewrite Hrun in Hrun0. injection Hrun0 as <- <-.
    destruct resp as [msg | | sid view code | e].
    + subst s'. exact Hok.
    + subst s'. exact Hok.
    + destruct Hcases as (thm & name & gender & uid & j & w3 & turnId & _ & _ & _ & _
                          & (Hdb & _) & _ & _ & _ & _ & _ & _ & -> & _).
      unfold founded, set_world.
      cbn [site_world db set_db sessions session_players turns]. rewrite !Hdb.
      destruct Hok as [H1 H2]. split; cbn [sessions session_players turns].
      * intros p Hin. apply elem_of_app in Hin. destruct Hin as [Hin | Hin].
        -- apply lookup_insert_is_Some'. right. exact (H1 p Hin).
        -- apply list_elem_of_singleton in Hin. subst p. apply lookup_insert_is_Some'.
           left. reflexivity.
      * intros t Hin. apply elem_of_app in Hin. destruct Hin as [Hin | Hin].
        -- apply lookup_insert_is_Some'. right. exact (H2 t Hin).
        -- apply list_elem_of_singleton in Hin. subst t. apply lookup_insert_is_Some'.
           left. reflexivity.
    + destruct Hcases as (_ & (Hdb & _) & _). rewrite Hdb. exact Hok.
Qed.

(** ** Character portraits *)

Lemma is_space2_bytes (c1 c2 : ascii) :
  is_space2 c1 c2 = true -> white_byte c1 = true /\ white_byte c2 = true.
Proof.
  unfold is_space2, white_byte. intros H. apply andb_true_iff in H. destruct H as [H1 H2].
  apply Nat.eqb_eq in H1, H2. rewrite H1, H2.
  split; apply orb_true_iff; right; reflexivity.
Qed.

Lemma is_space3_bytes (c1 c2 c3 : ascii) :
  is_space3 c1 c2 c3 = true ->
  white_byte c1 = true /\ white_byte c2 = true /\ white_byte c3 = true.
Proof.
  intros H.
  assert (Hhigh : (128 <= nat_of_ascii c1)%nat /\ (128 <= nat_of_ascii c2)%nat
                  /\ (128 <= nat_of_ascii c3)%nat).
  { unfold is_space3 in H. cbv zeta in H.
    repeat (rewrite orb_true_iff in H || rewrite andb_true_iff in H
            || rewrite Nat.eqb_eq in H || rewrite Nat.leb_le in H).
    lia. }
  destruct Hhigh as (H1 & H2 & H3). unfold white_byte.
  repeat split; apply orb_true_iff; right; apply Nat.leb_le; assumption.
Qed.

Lemma blank_bytes_bounded (n : nat) :
  forall s, (String.length s <= n)%nat -> is_blank s = true ->
            every_byte white_byte s = true.
Proof.
  induction n as [| n IH]; intros s Hlen Hblank.
  - destruct s; [reflexivity | cbn in Hlen; lia].
  - destruct s as [| c1 s1]; [reflexivity |].
    cbn [is_blank] in Hblank. cbn [String.length] in Hlen.
    destruct (is_space c1) eqn:H1.
    + cbn [every_byte]. unfold white_byte at 1. rewrite H1. cbn [orb andb].
      apply IH; [lia | exact Hblank].
    + destruct s1 as [| c2 s2]; [discriminate |]. cbn [String.length] in Hlen.
      destruct (is_space2 c1 c2) eqn:H2.
      * apply is_space2_bytes in H2. destruct H2 as [Hc1 Hc2].
        cbn [every_byte]. rewrite Hc1, Hc2. cbn [andb]. apply IH; [lia | exact Hblank].
      * destruct s2 as [| c3 s3]; [discriminate |]. cbn [String.length] in Hlen.
        apply andb_true_iff in Hblank. destruct Hblank as [H3 Hrest].
        apply is_space3_bytes in H3. destruct H3 as (Hc1 & Hc2 & Hc3).
        cbn [every_byte]. rewrite Hc1, Hc2, Hc3. cbn [andb]. apply IH; [lia | exact Hrest].
Qed.

(** White space is made of white bytes only. *)
Lemma blank_bytes (s : string) : is_blank s = true -> every_byte white_byte s = true.
Proof. apply (blank_bytes_bounded (String.length s)). lia. Qed.

Lemma every_byte_app (f : ascii -> bool) (a b : string) :
  every_byte f (a +:+ b) = every_byte f a && every_byte f b.
Proof.
  induction a as [| c a IH]; [reflexivity |].
  change (String c a +:+ b) with (String c (a +:+ b)). cbn [every_byte].
  rewrite IH, andb_assoc. reflexivity.
Qed.

(** The prompt holds the letters of "character named": Imagen never takes
    it for a missing prompt. *)
Lemma character_prompt_not_blank (lower : string -> string) (theme name gender : string)
    (description : option string) :
  is_blank (generateCharacterPrompt lower theme name gender description) = false.
Proof.
  destruct (is_blank _) eqn:Hblank; [| reflexivity]. exfalso.
  apply blank_bytes in Hblank. revert Hblank. unfold generateCharacterPrompt.
  assert (Hbase : forall rest,
             every_byte white_byte (gender +:+ " character named " +:+ rest) = false).
  { intros rest. rewrite every_byte_app. apply andb_false_iff. right. reflexivity. }
  destruct (negb (falsy description) && _).
  - rewrite every_byte_app, Hbase. discriminate.
  - rewrite Hbase. discriminate.
Qed.

Lemma trim_start_bounded (n : nat) :
  forall s, (String.length s <= n)%nat ->
    (is_blank s = true /\ trim_start s = "")
    \/ (is_blank s = false /\ is_blank (trim_start s) = false).
Proof.
  induction n as [| n IH]; intros s Hlen.
  - destruct s; [left; split; reflexivity | cbn in Hlen; lia].
  - destruct s as [| c1 s1]; [left; split; reflexivity |].
    cbn [String.length] in Hlen. cbn [trim_start is_blank].
    destruct (is_space c1) eqn:H1; [apply IH; lia |].
    destruct s1 as [| c2 s2].
    { right. split; [reflexivity |]. cbn [is_blank]. rewrite H1. reflexivity. }
    cbn [String.length] in Hlen.
    destruct (is_space2 c1 c2) eqn:H2; [apply IH; lia |].
    destruct s2 as [| c3 s3].
    { right. split; [reflexivity |]. cbn [is_blank]. rewrite H1, H2. reflexivity. }
    cbn [String.length] in Hlen.
    destruct (is_space3 c1 c2 c3) eqn:H3; cbn [andb]; [apply IH; lia |].
    right. split; [reflexivity |]. cbn [is_blank]. rewrite H1, H2, H3. reflexivity.
Qed.

(** [s.trim() === ""] is the test [is_blank]. *)
Lemma trim_empty_iff (s : string) : trim s = "" <-> is_blank s = true.
Proof.
  unfold trim.
  destruct (trim_start_bounded (String.length s) s ltac:(lia)) as [[Hb Ht] | [Hb Ht]].
  - rewrite Ht, Hb. split; reflexivity.
  - rewrite Hb. split; [| discriminate]. intros He. exfalso.
    destruct (trim_start s) as [| c t]; [discriminate |].
    cbn [trim_end] in He. rewrite Ht in He. discriminate.
Qed.



(** X28.  Whatever toLowerCase does to the theme, generateCharacterPrompt
    never returns a prompt that String.prototype.trim would empty; a
    description made of white space only (that of ECMAScript: U+00A0, U+2028,
    U+FEFF and the like included) gives the prompt of a missing description,
    and any other description is appended once, trimmed and not empty, after
    the words Additional details. *)
Theorem character_prompt_drops_blank_details (toLowerCase : string -> string)
    (theme name gender : string) (description : option string) :
  is_blank (generateCharacterPrompt toLowerCase theme name gender description) = false
  /\ (is_blank (default "" description) = true ->
      generateCharacterPrompt toLowerCase theme name gender description
      = generateCharacterPrompt toLowerCase theme name gender None)
  /\ (is_blank (default "" description) = false ->
      trim (default "" description) <> ""
      /\ generateCharacterPrompt toLowerCase theme name gender description
         = generateCharacterPrompt toLowerCase theme name gender None
           +:+ " Additional details: " +:+ trim (default "" description) +:+ ".").
Proof.
  split; [apply character_prompt_not_blank |]. split.
  - intros Hblank. unfold generateCharacterPrompt.
    rewrite (proj2 (trim_empty_iff _) Hblank).
    cbn [String.eqb negb andb falsy]. rewrite andb_false_r. reflexivity.
  - intros Hblank.
    assert (Htrim : trim (default "" description) <> "").
    { intros He. apply trim_empty_iff in He. congruence. }
    split; [exact Htrim |].
    unfold generateCharacterPrompt.
    destruct description as [d |]; [| discriminate].
    change (default "" (Some d)) with d in *.
    assert (Hd : falsy (Some d) = false).
    { cbn [falsy]. destruct (String.eqb_spec d ""); [subst d; discriminate | reflexivity]. }
    rewrite Hd. cbn [negb andb falsy].
    destruct (String.eqb_spec (trim d) ""); [contradiction |]. reflexivity.
Qed.

Lemma character_prompt_drops_blank_details_witness :
  generateCharacterPrompt lower_ascii "Fantasy" "Mira" "she" (Some (nbsp +:+ " "))
  = generateCharacterPrompt lower_ascii "Fantasy" "Mira" "she" None.
Proof.
  exact (proj1 (proj2 (character_prompt_drops_blank_details lower_ascii "Fantasy" "Mira"
                         "she" (Some (nbsp +:+ " ")))) eq_refl).
Defined.

(** ** Presence and the turn coordinator *)

Lemma exec_keeps_sockets {X : Type} (op : Op X) (w : World) :
  sessionSockets (exec op w).2 = sessionSockets w.
Proof.
  destruct op; cbn [exec]; try reflexivity;
    repeat match goal with
    | |- context [match ?x with _ => _ end] => destruct x
    end; reflexivity.
Qed.

Lemma run_keeps_sockets {R : Type} (p : Prog R) (w : World) :
  sessionSockets (run p w).2 = sessionSockets w.
Proof.
  revert w. induction p as [r | e | X op k IH]; intros w; cbn [run]; try reflexivity.
  pose proof (exec_keeps_sockets op w) as Hop. destruct (exec op w) as [x w1].
  cbn [snd] in Hop. rewrite IH. exact Hop.
Qed.

Lemma action_keeps_players (cfg : Config) (req : Request) (w w' : World)
    (resp : Exn + Response) :
  txn w = None -> submitAction cfg req w = (resp, w') ->
  session_players (db w') = session_players (db w).
Proof.
  intros Htxn Hrun.
  destruct (submitAction_cases cfg req w Htxn) as (resp0 & w0 & Hrun0 & _ & Hcase).
  rewrite Hrun in Hrun0. injection Hrun0 as -> ->.
  destruct Hcase as [(-> & _) | [(e & _ & Hdb & _) | [Hskip | Hupd]]].
  - reflexivity.
  - rewrite Hdb. reflexivity.
  - destruct Hskip as (sid0 & s0 & st & _ & _ & _ & _ & _ & _ & ->). reflexivity.
  - destruct Hupd as (sid0 & uid & s0 & rp & n & j & st & row & t1 & t2 & d1 & _ & _ & _
                      & _ & _ & _ & _ & _ & _ & _ & _ & Hins & Hdb & _).
    apply insert_turn_inr in Hins. destruct Hins as [_ ->]. rewrite Hdb. reflexivity.
Qed.

(** X29.  No call of the action route changes the presence registry: it keeps
    every registered user on the roster, and a later disconnect leaves the
    same registry as it would have without the call. *)
Theorem presence_untouched_by_actions (cfg : Config) (req : Request) (w w' : World)
    (resp : Exn + Response) :
  txn w = None -> submitAction cfg req w = (resp, w') ->
  sessionSockets w' = sessionSockets w
  /\ (registry_sound w -> registry_sound w')
  /\ forall socket,
       sessionSockets (on_disconnect socket w').2
       = sessionSockets (on_disconnect socket w).2.
Proof.
  intros Htxn Hrun.
  assert (Hsock : sessionSockets w' = sessionSockets w).
  { pose proof (run_keeps_sockets (post_action cfg req) w) as H.
    unfold submitAction in Hrun. rewrite Hrun in H. exact H. }
  split; [exact Hsock |]. split.
  - intros Hsound sid uid. rewrite Hsock. intros Hon.
    unfold is_member. rewrite (action_keeps_players cfg req w w' resp Htxn Hrun).
    exact (Hsound sid uid Hon).
  - intros socket. unfold on_disconnect. rewrite Hsock.
    destruct (falsy (data_userId socket) || falsy (data_sessionId socket));
      [exact Hsock |].
    destruct (sessionSockets w !! default "" (data_sessionId socket)); [| exact Hsock].
    cbn [snd sessionSockets set_sessionSockets]. reflexivity.
Qed.

Lemma presence_untouched_by_actions_witness :
  sessionSockets (submitAction cfg_imagen (request "u0" 0) w_absent).2 = online ["u1"; "u3"].
Proof.
  exact (proj1 (presence_untouched_by_actions cfg_imagen (request "u0" 0) w_absent _ _
                  eq_refl (submitAction_pair _ _ _))).
Defined.

(** *** Concrete runs of the routes *)

Lemma registry_of_party_turn :
  no_empty_rooms (sessionSockets w_party_turn) /\ registry_sound w_party_turn.
Proof.
  split.
  - intros sid users Hs. change (sessionSockets w_party_turn) with (online ["u0"; "u1"]) in Hs.
    unfold online in Hs. apply lookup_singleton_Some in Hs. destruct Hs as [_ <-].
    intros Hempty. apply (f_equal (fun m => m !! "u0")) in Hempty. vm_compute in Hempty.
    discriminate.
  - intros sid uid Hon. apply has_socket_true in Hon. destruct Hon as (users & Hs & Hu).
    change (sessionSockets w_party_turn) with (online ["u0"; "u1"]) in Hs.
    unfold online in Hs. apply lookup_singleton_Some in Hs. destruct Hs as [<- <-].
    cbn [map list_to_map foldr uncurry fst snd] in Hu.
    destruct (decide (uid = "u0")) as [-> | H0]; [reflexivity |].
    destruct (decide (uid = "u1")) as [-> | H1]; [reflexivity |].
    exfalso. destruct Hu as [x Hx].
    rewrite lookup_insert_ne in Hx by congruence.
    rewrite lookup_insert_ne in Hx by congruence. rewrite lookup_empty in Hx. discriminate.
Defined.

Lemma registry_invariants_kept_witness :
  registry_sound (on_disconnect (mkSocket 1 (Some "u1") (Some "S")) w_party_turn).2.
Proof.
  exact (proj2 (proj2 (registry_invariants_kept w_party_turn (proj1 registry_of_party_turn)
                         (proj2 registry_of_party_turn))
                  (mkSocket 1 (Some "u1") (Some "S")))).
Defined.

Lemma vacant_idle : idle vacant.
Proof. split; reflexivity. Defined.

Lemma vacant_no_orphans : no_orphans (db (site_world vacant)).
Proof. split; intros x Hin; inversion Hin. Defined.

Lemma founder_starts :
  exists view,
    post_start cfg_imagen "gemini" founder vacant
    = (inr (Started "s-1" view (Some "INV-1A2B3C4D")),
       (post_start cfg_imagen "gemini" founder vacant).2).
Proof. eexists. vm_compute. reflexivity. Defined.

Lemma start_founds_one_session_witness :
  exists session,
    sessions (db (site_world (post_start cfg_imagen "gemini" founder vacant).2)) !! "s-1"
    = Some session
    /\ max_players session = Some 4.
Proof.
  destruct founder_starts as [view Hrun].
  destruct (start_founds_one_session cfg_imagen "gemini" founder vacant _ "s-1" view
              (Some "INV-1A2B3C4D") vacant_idle Hrun)
    as (session & creator & turn0 & _ & Hsessions & _ & _ & _ & _ & _ & _ & _ & _ & _ & _ & _
        & _ & _ & _ & _ & _ & _ & _ & _ & Hmp).
  exists session. rewrite Hsessions, lookup_insert_eq. split; [reflexivity |].
  cbn [founder s_isMultiplayer s_maxPlayers] in Hmp.
  destruct Hmp as (_ & _ & (n & Hn & _ & [-> | ?]) & _); [exact Hn | discriminate].
Defined.

Lemma started_session_meets_invariants_witness :
  ledger_ok (db (site_world (post_start cfg_imagen "gemini" founder vacant).2)) "s-1".
Proof.
  destruct founder_starts as [view Hrun].
  exact (proj1 (proj2 (started_session_meets_invariants cfg_imagen "gemini" founder vacant _
                         "s-1" view (Some "INV-1A2B3C4D") vacant_idle vacant_no_orphans
                         Hrun))).
Defined.

Lemma failed_start_leaves_no_row_witness :
  exists resp s',
    post_start cfg_imagen "gemini" founder vacant = (inr resp, s')
    /\ resp <> StartFailed InvalidGoalData.
Proof.
  destruct (failed_start_leaves_no_row cfg_imagen "gemini" founder vacant vacant_idle)
    as (resp & s' & Hrun & Hne & _).
  exists resp, s'. split; [exact Hrun | exact Hne].
Defined.

Lemma foreign_keys_hold_on_every_route_witness :
  no_orphans (db (site_world (post_start cfg_imagen "gemini" founder vacant).2)).
Proof.
  exact (proj2 (proj2 (proj2 (foreign_keys_hold_on_every_route vacant vacant_idle
                                vacant_no_orphans)))
           cfg_imagen "gemini" founder _ _
           (run_pair_lobby (post_start cfg_imagen "gemini" founder) vacant)).
Defined.
